(** * kraken-bot: a shallow embedding of the signing, nonce, fixed-point and
    request core, and the properties of its specification.

    Part I embeds the TypeScript sources, file by file:
    - [Js]       the JavaScript built-ins the sources call: string methods,
                 BigInt, numbers (integers as [Z], the threshold as a
                 binary64 number), values and property reads;
    - [Bigint]   src/utils/bigint.ts;
    - [Node]     the Node.js library functions the sources import, as an
                 interface;
    - [Crypto]   src/utils/crypto.ts;
    - [World]    the clock, the network, the heap of client objects, and the
                 monad of calls that read and change them;
    - [Client]   src/client/KrakenClient.ts (constructor, generateNonce,
                 request);
    - [Api]      src/api/balance.ts, trading.ts, withdrawal.ts;
    - [Index]    src/config.ts (AppConfig, validateConfig) and src/index.ts
                 (main, from the loaded configuration on);
    followed by the vocabulary of the statements: [Input], [Run], [Scenario]
    and [Spec], the latter written from the specification's words; then
    - [Public]   src/client/KrakenClient.ts (publicRequest);
    - [Config]   src/config.ts (loadConfig) and src/index.ts from the
                 environment on;
    - [Examples] more surroundings to run the model in.

    Part II proves the properties of the specification, module by module;
    Part III proves further properties of the embedded code.

    Strings are [string]: sequences of 8-bit code units, which is the range of
    every string the program builds itself (endpoints, decimal numerals,
    "binary" digests). *)

From Stdlib Require Import ZArith List String Ascii Bool Lia.
From Stdlib Require Import Decimal DecimalString DecimalZ.
Import ListNotations.

#[local] Open Scope string_scope.
#[local] Open Scope Z_scope.

(* ================================================================== *)
(** * Part I: the embedding *)
(* ================================================================== *)

(** ** JavaScript built-ins *)

Module Js.

(** What a call can throw. [Error msg] is [new Error(msg)], the only kind the
    sources raise themselves; the others come from built-ins. *)
Inductive Exception : Type :=
| Error (message : string)
| TypeError
| SyntaxError
| RangeError.

Inductive Outcome (A : Type) : Type :=
| Return (a : A)
| Throw (e : Exception).

Arguments Return {A} a.
Arguments Throw {A} e.

(** *** Strings *)

Fixpoint repeat_char (c : ascii) (n : nat) : string :=
  match n with
  | O => ""
  | S k => String c (repeat_char c k)
  end.

Fixpoint take (n : nat) (s : string) : string :=
  match n, s with
  | O, _ => ""
  | S _, "" => ""
  | S k, String c r => String c (take k r)
  end.

Fixpoint drop (n : nat) (s : string) : string :=
  match n, s with
  | O, _ => s
  | S _, "" => ""
  | S k, String _ r => drop k r
  end.

Definition len (s : string) : Z := Z.of_nat (String.length s).

(** [s.padEnd(target, "0")] and [s.padStart(target, "0")] with a fill of one
    character: nothing is added when [target] does not exceed the length. *)
Definition padEnd (s : string) (target : Z) (fill : ascii) : string :=
  s ++ repeat_char fill (Z.to_nat (target - len s)).

Definition padStart (s : string) (target : Z) (fill : ascii) : string :=
  repeat_char fill (Z.to_nat (target - len s)) ++ s.

(** A relative index of [slice]: negative counts from the end, and the
    result is clamped to [0 .. length].  JavaScript's [-0] is [0] here, as it
    is for [slice]. *)
Definition relative_index (i : Z) (s : string) : Z :=
  if i <? 0 then Z.max (len s + i) 0 else Z.min i (len s).

(** [s.slice(from, to)] *)
Definition slice (s : string) (from to : Z) : string :=
  let a := relative_index from s in
  let b := relative_index to s in
  take (Z.to_nat (b - a)) (drop (Z.to_nat a) s).

(** [s.slice(from)] *)
Definition slice_from (s : string) (from : Z) : string :=
  slice s from (len s).

(** [s.split(sep)] for a separator of one character: never the empty list,
    [""] splits into [[""]]. *)
Fixpoint split (sep : ascii) (s : string) : list string :=
  match s with
  | "" => [""]
  | String c r =>
      if Ascii.eqb c sep then "" :: split sep r
      else match split sep r with
           | h :: t => String c h :: t
           | [] => [String c ""]
           end
  end.

(** [a || b] on strings: the empty string is the only falsy one. *)
Definition or_else (a b : string) : string :=
  if String.eqb a "" then b else a.

(** [sep]-joined strings, [Array.prototype.join]. *)
Fixpoint join (sep : string) (l : list string) : string :=
  match l with
  | [] => ""
  | [x] => x
  | x :: r => x ++ sep ++ join sep r
  end.

(** *** Decimal digits *)

Definition is_digit (c : ascii) : bool :=
  let n := nat_of_ascii c in ((48 <=? n) && (n <=? 57))%nat.

Fixpoint all_digits (s : string) : bool :=
  match s with
  | "" => true
  | String c r => is_digit c && all_digits r
  end.

(** The value of a string of decimal digits, [0] for the empty one. *)
Definition digits_value (s : string) : Z :=
  match NilEmpty.uint_of_string s with
  | Some u => Z.of_uint u
  | None => 0
  end.

(** *** BigInt *)

(** [BigInt.prototype.toString()]: decimal digits, ["-"] before a negative
    value, ["0"] for zero. *)
Definition BigInt_toString (z : Z) : string :=
  NilEmpty.string_of_int (Z.to_int z).

Definition is_whitespace (c : ascii) : bool :=
  let n := nat_of_ascii c in
  ((9 <=? n) && (n <=? 13))%nat || (n =? 32)%nat || (n =? 160)%nat.

Fixpoint trim_start (s : string) : string :=
  match s with
  | "" => ""
  | String c r => if is_whitespace c then trim_start r else s
  end.

Fixpoint trim_end (s : string) : string :=
  match s with
  | "" => ""
  | String c r =>
      let t := trim_end r in
      if is_whitespace c && String.eqb t "" then "" else String c t
  end.

Definition trim (s : string) : string := trim_end (trim_start s).

(** One digit in radix up to 16, upper or lower case. *)
Definition digit_value (c : ascii) : option Z :=
  let n := Z.of_nat (nat_of_ascii c) in
  if (48 <=? n) && (n <=? 57) then Some (n - 48)
  else if (97 <=? n) && (n <=? 102) then Some (n - 87)
  else if (65 <=? n) && (n <=? 70) then Some (n - 55)
  else None.

Fixpoint radix_digits (radix : Z) (s : string) (acc : Z) : option Z :=
  match s with
  | "" => Some acc
  | String c r =>
      match digit_value c with
      | Some d => if d <? radix then radix_digits radix r (acc * radix + d)
                  else None
      | None => None
      end
  end.

(** The literals [0x..], [0o..], [0b..] (either case), at least one digit. *)
Definition radix_literal (s : string) : option (option Z) :=
  match s with
  | String "0" (String p r) =>
      let lit radix :=
        Some (match r with "" => None | _ => radix_digits radix r 0 end) in
      if Ascii.eqb p "x" || Ascii.eqb p "X" then lit 16
      else if Ascii.eqb p "o" || Ascii.eqb p "O" then lit 8
      else if Ascii.eqb p "b" || Ascii.eqb p "B" then lit 2
      else None
  | _ => None
  end.

(** Decimal digits, at least one. *)
Definition decimal_digits (s : string) : option Z :=
  match s with
  | "" => None
  | _ => option_map Z.of_uint (NilEmpty.uint_of_string s)
  end.

Definition of_option {A} (o : option A) (e : Exception) : Outcome A :=
  match o with
  | Some a => Return a
  | None => Throw e
  end.

(** [BigInt(s)] for a string: white space is trimmed, the empty string is
    [0n], a decimal literal may carry a sign, a literal with a radix prefix may
    not; anything else is a SyntaxError. *)
Definition BigInt (s : string) : Outcome Z :=
  let t := trim s in
  match radix_literal t with
  | Some r => of_option r SyntaxError
  | None =>
      match t with
      | "" => Return 0
      | String "-" d => of_option (option_map Z.opp (decimal_digits d)) SyntaxError
      | String "+" d => of_option (decimal_digits d) SyntaxError
      | _ => of_option (decimal_digits t) SyntaxError
      end
  end.

(** *** Numbers

    A JavaScript number is a binary64 float.  The time stamps, the nonce
    counter and the HTTP status codes of this program are integers, modelled
    by [Z]; their arithmetic rounds its exact result to the nearest float,
    ties to even, which is the identity up to [2^53].  The threshold of the
    configuration is read from a text and need not be an integer: see
    [Double] below. *)

Definition round_double (z : Z) : Z :=
  let a := Z.abs z in
  if a <=? 2 ^ 53 then z
  else
    let e := Z.log2 a - 52 in
    let q := a / 2 ^ e in
    let r := a mod 2 ^ e in
    let half := 2 ^ (e - 1) in
    let q' := if r <? half then q
              else if half <? r then q + 1
              else if Z.even q then q else q + 1 in
    Z.sgn z * (q' * 2 ^ e).

(** [String(n)] for an integer-valued number, Number::toString: the number
    is printed with as few significant digits as still read back as the same
    number (the closest such numeral, a tie going to the even digit), followed
    by zeros up to the units, and in exponent notation from [10^21].  Up to
    [2^53] every integer is a number of its own, so that numeral is the
    integer itself; [2^60] is printed as 1152921504606847000. *)
Fixpoint shortest_from (fuel : nat) (a L k : Z) : Z :=
  match fuel with
  | O => a
  | S f =>
      if L <? k then a
      else
        let p := 10 ^ (L - k) in
        let lo := a / p * p in
        let hi := lo + p in
        let lo_ok := round_double lo =? a in
        let hi_ok := round_double hi =? a in
        if lo_ok && hi_ok then
          if a - lo <? hi - a then lo
          else if hi - a <? a - lo then hi
          else if Z.even (a / p) then lo else hi
        else if lo_ok then lo
        else if hi_ok then hi
        else shortest_from f a L (k + 1)
  end.

(** The integer with the fewest significant digits that rounds to [a]:
    seventeen digits always suffice. *)
Definition shortest (a : Z) : Z :=
  shortest_from 17 a (len (BigInt_toString a)) 1.

Fixpoint strip_zeros (s : string) : string :=
  match s with
  | "" => ""
  | String c r =>
      let t := strip_zeros r in
      if Ascii.eqb c "0" && String.eqb t "" then "" else String c t
  end.

(** Exponent notation: the first digit, the other significant digits behind
    a point if there are any, [e+] and the exponent. *)
Definition exponential (c : Z) : string :=
  let digits := BigInt_toString c in
  let e := len digits - 1 in
  match strip_zeros digits with
  | String d "" => String d "" ++ "e+" ++ BigInt_toString e
  | String d rest => String d "" ++ "." ++ rest ++ "e+" ++ BigInt_toString e
  | "" => digits
  end.

Definition Number_toString (n : Z) : string :=
  let a := Z.abs n in
  if a <=? 2 ^ 53 then BigInt_toString n
  else
    let c := shortest a in
    let text := if c <? 10 ^ 21 then BigInt_toString c else exponential c in
    if n <? 0 then "-" ++ text else text.

Definition number_add (x y : Z) : Z := round_double (x + y).

(** *** Numbers that need not be integers

    A number read from a text or computed from one: an integer, a binary
    fraction [(2h+1)/2^k] (every finite number that is not an integer is one,
    in one way), not-a-number, or an infinity.  JavaScript's [-0] is [0]
    here: the program never divides by it. *)

Inductive Double : Type :=
| Whole (n : Z)
| Binary (h : Z) (k : positive)
| NaN
| Infinity (negative : bool).

(** The exponent of the leading bit of [a/d], for positive [a] and [d]:
    [2^e <= a/d < 2^(e+1)]. *)
Definition binary_exponent (a d : Z) : Z :=
  let e := Z.log2 a - Z.log2 d in
  if (if 0 <=? e then d * 2 ^ e <=? a else d <=? a * 2 ^ (- e)) then e
  else e - 1.

(** [p / 2^k] in lowest terms. *)
Fixpoint reduce (p : positive) (k : nat) : positive * nat :=
  match p, k with
  | xO p', S k' => reduce p' k'
  | _, _ => (p, k)
  end.

(** The number [m * 2^u], negated if [negative], for [m >= 0]. *)
Definition of_binary (negative : bool) (m u : Z) : Double :=
  let signed z := if negative then - z else z in
  match m with
  | Z.pos p =>
      if 0 <=? u then Whole (signed (m * 2 ^ u))
      else
        match reduce p (Z.to_nat (- u)) with
        | (p', O) => Whole (signed (Z.pos p'))
        | (p', S k) => Binary ((signed (Z.pos p') - 1) / 2) (Pos.of_succ_nat k)
        end
  | _ => Whole 0
  end.

(** The binary64 number nearest to [num/den], ties to the even significand:
    53 bits from the leading bit on, or down to [2^-1074] for the smallest
    magnitudes (which may leave zero), and an infinity from
    [2^1024 - 2^970] on. *)
Definition round_ratio (num den : Z) : Double :=
  if den <=? 0 then NaN
  else if num =? 0 then Whole 0
  else
    let a := Z.abs num in
    let e := binary_exponent a den in
    let u := Z.max (e - 52) (- 1074) in
    let n := if 0 <=? u then a else a * 2 ^ (- u) in
    let d := if 0 <=? u then den * 2 ^ u else den in
    let q := n / d in
    let r := n mod d in
    let m := if 2 * r <? d then q
             else if d <? 2 * r then q + 1
             else if Z.even q then q else q + 1 in
    if 2 ^ 1024 <=? m * 2 ^ u then Infinity (num <? 0)
    else of_binary (num <? 0) m u.

(** A finite number as a ratio. *)
Definition ratio (x : Double) : option (Z * Z) :=
  match x with
  | Whole n => Some (n, 1)
  | Binary h k => Some (2 * h + 1, 2 ^ Z.pos k)
  | _ => None
  end.

Definition is_zero (x : Double) : bool :=
  match x with Whole 0 => true | _ => false end.

Definition is_negative (x : Double) : bool :=
  match x with
  | Whole n => n <? 0
  | Binary h _ => h <? 0
  | NaN => false
  | Infinity negative => negative
  end.

(** [x < 0] and [x > 0]: both false of not-a-number. *)
Definition less_than_zero (x : Double) : bool := is_negative x.

Definition greater_than_zero (x : Double) : bool :=
  match x with
  | Whole n => 0 <? n
  | Binary h _ => 0 <=? h
  | NaN => false
  | Infinity negative => negb negative
  end.

(** [x * y]: the exact product, rounded. *)
Definition number_mul (x y : Double) : Double :=
  match x, y with
  | NaN, _ | _, NaN => NaN
  | Infinity s, other | other, Infinity s =>
      if is_zero other then NaN else Infinity (xorb s (is_negative other))
  | _, _ =>
      match ratio x, ratio y with
      | Some (n1, d1), Some (n2, d2) => round_ratio (n1 * n2) (d1 * d2)
      | _, _ => NaN
      end
  end.

(** [BigInt(x)] for a number: a RangeError unless the number is an
    integer. *)
Definition BigInt_of_number (x : Double) : Outcome Z :=
  match x with
  | Whole n => Return n
  | _ => Throw RangeError
  end.

(** The leading decimal digits of a string, and what follows them. *)
Fixpoint span_digits (s : string) : string * string :=
  match s with
  | String c r =>
      if is_digit c then let (d, t) := span_digits r in (String c d, t)
      else ("", s)
  | "" => ("", "")
  end.

(** ExponentPart, or nothing: [e] or [E], an optional sign, digits. *)
Definition exponent_part (s : string) : option Z :=
  match s with
  | "" => Some 0
  | String c r =>
      if Ascii.eqb c "e" || Ascii.eqb c "E" then
        let (negative, d) :=
          match r with
          | String "-" t => (true, t)
          | String "+" t => (false, t)
          | _ => (false, r)
          end in
        match span_digits d with
        | (String c' digits, "") =>
            let v := digits_value (String c' digits) in
            Some (if negative then - v else v)
        | _ => None
        end
      else None
  end.

(** StrUnsignedDecimalLiteral other than [Infinity]: digits with an optional
    point among or around them, at least one digit, and an optional exponent;
    the result is [(D, E)] for the value [D * 10^E]. *)
Definition decimal_literal (s : string) : option (Z * Z) :=
  let (whole, r1) := span_digits s in
  let (fraction, r2) :=
    match r1 with
    | String "." r => span_digits r
    | _ => ("", r1)
    end in
  if String.eqb whole "" && String.eqb fraction "" then None
  else
    match exponent_part r2 with
    | Some e => Some (digits_value (whole ++ fraction), e - len fraction)
    | None => None
    end.

Definition of_decimal (negative : bool) (D E : Z) : Double :=
  let signed := if negative then - D else D in
  if 0 <=? E then round_ratio (signed * 10 ^ E) 1
  else round_ratio signed (10 ^ (- E)).

(** [Number(text)], StringToNumber: white space is trimmed, the empty string
    is [0], a literal with a radix prefix carries no sign, a decimal literal
    or [Infinity] may; anything else is not-a-number.  The value is rounded to
    the nearest number. *)
Definition StringToNumber (s : string) : Double :=
  let t := trim s in
  match radix_literal t with
  | Some (Some v) => round_ratio v 1
  | Some None => NaN
  | None =>
      match t with
      | "" => Whole 0
      | _ =>
          let (negative, u) :=
            match t with
            | String "-" r => (true, r)
            | String "+" r => (false, r)
            | _ => (false, t)
            end in
          if String.eqb u "Infinity" then Infinity negative
          else match decimal_literal u with
               | Some (D, E) => of_decimal negative D E
               | None => NaN
               end
      end
  end.

(** *** Values

    JSON-like values and [undefined].  An object is the list of its own
    properties in insertion order, without duplicate keys (the field names of
    this program are words, not array indices, which JavaScript would
    enumerate first).  A number inside a value is an integer; a JSON number
    with a fraction has no value here.  [VInherited name] is what
    reading [name] gives where no own property has that name and
    Object.prototype defines it: the built-in function of that name, or, for
    [__proto__], Object.prototype itself. *)

#[warnings="-register-all"]
Inductive Value : Type :=
| VUndefined
| VNull
| VBool (b : bool)
| VNumber (n : Z)
| VString (s : string)
| VArray (items : list Value)
| VObject (fields : list (string * Value))
| VInherited (name : string).

Definition Object : Type := list (string * Value).

Fixpoint lookup (o : Object) (k : string) : option Value :=
  match o with
  | [] => None
  | (k', v) :: r => if String.eqb k' k then Some v else lookup r k
  end.

(** [o[k]] on the own properties of an object: [undefined] for a property
    that is not there. *)
Definition get (o : Object) (k : string) : Value :=
  match lookup o k with
  | Some v => v
  | None => VUndefined
  end.

(** [o[k] = v]: an existing property keeps its place, a new one goes last. *)
Fixpoint set (o : Object) (k : string) (v : Value) : Object :=
  match o with
  | [] => [(k, v)]
  | (k', v') :: r =>
      if String.eqb k' k then (k, v) :: r else (k', v') :: set r k v
  end.

(** [{ ...target, ...source }]: the properties of [source] are set in order. *)
Definition spread (target source : Object) : Object :=
  fold_left (fun o kv => set o (fst kv) (snd kv)) source target.

Definition is_undefined (v : Value) : bool :=
  match v with VUndefined => true | _ => false end.

(** [v ?? d] *)
Definition nullish (v d : Value) : Value :=
  match v with
  | VUndefined | VNull => d
  | _ => v
  end.

Definition truthy (v : Value) : bool :=
  match v with
  | VUndefined | VNull => false
  | VBool b => b
  | VNumber n => negb (n =? 0)
  | VString s => negb (String.eqb s "")
  | VArray _ | VObject _ | VInherited _ => true
  end.

(** The names Object.prototype defines: every object, array, string, number
    and boolean has them, unless an own property of that name comes first. *)
Definition Object_prototype : list string :=
  ["constructor"; "hasOwnProperty"; "isPrototypeOf"; "propertyIsEnumerable";
   "toLocaleString"; "toString"; "valueOf"; "__proto__";
   "__defineGetter__"; "__defineSetter__"; "__lookupGetter__";
   "__lookupSetter__"].

Definition inherited (k : string) : bool :=
  existsb (String.eqb k) Object_prototype.

(** What a name that is no own property reads as. *)
Definition from_prototype (k : string) : Value :=
  if inherited k then VInherited k else VUndefined.

(** [typeof v === "object" && v !== null] *)
Definition is_object (v : Value) : bool :=
  match v with
  | VArray _ | VObject _ => true
  | VInherited name => String.eqb name "__proto__"
  | _ => false
  end.

(** [String(v)].  The text of a built-in function is the engine's; the
    function under [constructor] is [Object]. *)
Fixpoint ToString (v : Value) : string :=
  match v with
  | VUndefined => "undefined"
  | VNull => "null"
  | VBool true => "true"
  | VBool false => "false"
  | VNumber n => Number_toString n
  | VString s => s
  | VArray items =>
      join "," (map (fun x => match x with
                              | VUndefined | VNull => ""
                              | _ => ToString x
                              end) items)
  | VObject _ => "[object Object]"
  | VInherited name =>
      if String.eqb name "__proto__" then "[object Object]"
      else if String.eqb name "constructor"
      then "function Object() { [native code] }"
      else "function " ++ name ++ "() { [native code] }"
  end.

(** Whether a value can be turned into a primitive, as a template literal,
    [join] and [>] do: an object that has a property [toString] of its own
    cannot (in a JSON value that property is nothing to call), and the
    conversion throws a TypeError; an array is joined from its elements. *)
Fixpoint has_primitive (v : Value) : bool :=
  match v with
  | VObject fields =>
      match lookup fields "toString" with
      | Some _ => false
      | None => true
      end
  | VArray items => forallb has_primitive items
  | _ => true
  end.

(** An array index written canonically: ["0"], ["17"], not ["017"]. *)
Definition array_index (k : string) : option nat :=
  if all_digits k && negb (String.eqb k "")
     && String.eqb (BigInt_toString (digits_value k)) k
  then Some (Z.to_nat (digits_value k)) else None.

(** [v.k] and [v[k]]: reading a property of [undefined] or [null] is a
    TypeError; an own property comes first (arrays and strings have [length]
    and their indices), then what Object.prototype defines.  The further
    members of Array.prototype, String.prototype, Number.prototype,
    Boolean.prototype and Function.prototype, and the properties of the
    built-in functions themselves, are not modelled: the names this program
    reads from a value ([nonce], [txid], [descr], [order], [refid],
    [length]) are none of the former, it reads the asset of a balance from
    the result of the balance query, and nothing from a function; [join] is
    modelled where it is called.  The prototype of Object.prototype is
    [null]. *)
Definition get_property (v : Value) (k : string) : Outcome Value :=
  match v with
  | VUndefined | VNull => Throw TypeError
  | VObject o =>
      Return (match lookup o k with
              | Some x => x
              | None => from_prototype k
              end)
  | VArray items =>
      if String.eqb k "length" then Return (VNumber (Z.of_nat (List.length items)))
      else match array_index k with
           | Some i => Return (nth i items VUndefined)
           | None => Return (from_prototype k)
           end
  | VString s =>
      if String.eqb k "length" then Return (VNumber (len s))
      else match array_index k with
           | Some i => Return (match String.get i s with
                               | Some c => VString (String c "")
                               | None => VUndefined
                               end)
           | None => Return (from_prototype k)
           end
  | VBool _ | VNumber _ => Return (from_prototype k)
  | VInherited name =>
      if String.eqb name "__proto__" && String.eqb k "__proto__"
      then Return VNull
      else Return (from_prototype k)
  end.

(** [v > 0].  A string operand is read as a number. *)
Definition string_gt_zero (s : string) : bool :=
  greater_than_zero (StringToNumber s).

Definition gt_zero (v : Value) : bool :=
  match v with
  | VUndefined | VNull | VObject _ | VInherited _ => false
  | VBool b => b
  | VNumber n => 0 <? n
  | VString s => string_gt_zero s
  | VArray _ => string_gt_zero (ToString v)
  end.

(** *** Sequencing calls that can throw *)

Definition bind {A B} (c : Outcome A) (k : A -> Outcome B) : Outcome B :=
  match c with
  | Return a => k a
  | Throw e => Throw e
  end.

End Js.

(** ** src/utils/bigint.ts *)

Module Bigint.
Import Js.

(** [const [whole = "0", fraction = ""] = value.split(".")]: a default
    applies where the array has no element. *)
Definition parseDecimalToBigInt (value : string) (decimals : Z) : Outcome Z :=
  let parts := split "." value in
  let whole := nth 0 parts "0" in
  let fraction := nth 1 parts "" in
  let paddedFraction := slice (padEnd fraction decimals "0") 0 decimals in
  BigInt (whole ++ paddedFraction).

Definition bigIntToDecimal (value : Z) (decimals : Z) : string :=
  let str := padStart (BigInt_toString value) (decimals + 1) "0" in
  let whole := or_else (slice str 0 (- decimals)) "0" in
  let fraction := slice_from str (- decimals) in
  whole ++ "." ++ fraction.

Definition MINIMUM_USD_WITHDRAWAL : Z := 100000.

End Bigint.

(** ** The Node.js library functions the sources import

    [crypto], [querystring], [Buffer] and [JSON] are not part of the
    repository; the embedding is parametric in them. *)

Module Node.
Import Js.

Class Library : Type := {
  (** [createHash("sha256").update(text).digest()] *)
  sha256 : string -> list Byte.byte;
  (** [createHmac("sha512", key).update(message).digest()] on the bytes of
      the message *)
  hmac_sha512 : list Byte.byte -> list Byte.byte -> list Byte.byte;
  (** [Buffer.from(text, "base64")] *)
  base64_decode : string -> list Byte.byte;
  (** [buffer.toString("base64")], [hmac.digest("base64")] *)
  base64_encode : list Byte.byte -> string;
  (** [querystring.stringify(object)] *)
  stringify : Object -> string;
  (** [JSON.parse(text)], [None] where it throws a SyntaxError *)
  JSON_parse : string -> option Value
}.

(** [buffer.toString("binary")]: one code unit per byte. *)
Definition binary_string (b : list Byte.byte) : string := string_of_list_byte b.

(** The bytes of a string under the "binary" encoding: one per code unit. *)
Definition binary_bytes (s : string) : list Byte.byte := list_byte_of_string s.

End Node.

(** ** src/utils/crypto.ts *)

Module Crypto.
Import Js Node.

Section WithLibrary.
Context {node : Library}.

Definition generateKrakenSignature
  (urlPath : string) (data : Value) (secret : string) : Outcome string :=
  bind
    (match data with
     | VString text =>
         bind (of_option (JSON_parse text) SyntaxError) (fun jsonData =>
         bind (get_property jsonData "nonce") (fun nonce =>
         if is_undefined nonce
         then Throw (Error "Nonce is required in data")
         else Return (ToString nonce ++ text)))
     | VObject object =>
         let nonce := get object "nonce" in
         if is_undefined nonce
         then Throw (Error "Nonce is required in data object")
         else
           let dataStr := stringify object in
           Return (ToString nonce ++ dataStr)
     | VArray _ =>
         (* [typeof] of an array is "object", and it has no property [nonce] *)
         Throw (Error "Nonce is required in data object")
     | VInherited name =>
         (* a prototype is an object without a nonce, a function is neither *)
         if String.eqb name "__proto__"
         then Throw (Error "Nonce is required in data object")
         else Throw (Error "Invalid data type: expected string or object")
     | _ => Throw (Error "Invalid data type: expected string or object")
     end)
    (fun encoded =>
       let sha256Hash := sha256 encoded in
       let message := urlPath ++ binary_string sha256Hash in
       let secretBuffer := base64_decode secret in
       Return (base64_encode (hmac_sha512 secretBuffer (binary_bytes message)))).

End WithLibrary.
End Crypto.

(** ** The world the client runs in *)

Module World.
Import Js.

Inductive Method : Type := GET | POST.

Record HttpRequest : Type := {
  url : string;
  method : Method;
  headers : list (string * string);
  body : option string
}.

(** The JSON body of a response as the client reads it,
    [{ error: string[]; result?: T }]: [error] is [None] where the field is
    missing, [result] is [undefined] where it is. *)
Record Envelope : Type := {
  error : option (list string);
  result : Value
}.

Record HttpResponse : Type := {
  status : Z;
  statusText : string;
  (** [await response.text()] *)
  text : string;
  (** [await response.json()], [None] where the body is not JSON *)
  json : option Envelope
}.

(** [response.ok]: the status is in the range 200-299. *)
Definition ok (r : HttpResponse) : bool :=
  (200 <=? status r) && (status r <=? 299).

Inductive FetchResult : Type :=
| Responded (r : HttpResponse)
| Rejected.

(** The surroundings: what the clock shows at its n-th reading and how the
    n-th [fetch] ends. *)
Record Env : Type := {
  clock : nat -> Z;
  network : nat -> FetchResult
}.

(** The instance fields of [KrakenClient]. *)
Record KrakenClient : Type := {
  apiKey : string;
  secret : string;
  baseUrl : string;
  nonceCounter : Z
}.

(** The mutable state: the client objects allocated so far (a reference is an
    index), the number of clock readings, the requests sent, oldest first. *)
Record State : Type := {
  heap : list KrakenClient;
  readings : nat;
  sent : list HttpRequest
}.

Definition ref : Type := nat.

(** A computation: runs in surroundings [Env] from a state, ends with a value
    or an exception, and a state. *)
Definition M (A : Type) : Type := Env -> State -> Outcome A * State.

Definition ret {A} (a : A) : M A := fun _ s => (Return a, s).

Definition throw {A} (e : Exception) : M A := fun _ s => (Throw e, s).

Definition mbind {A B} (c : M A) (k : A -> M B) : M B :=
  fun env s =>
    match c env s with
    | (Return a, s') => k a env s'
    | (Throw e, s') => (Throw e, s')
    end.

Definition lift {A} (c : Outcome A) : M A := fun _ s => (c, s).

(** [try { c } catch (e) { h e }] *)
Definition catch {A} (c : M A) (h : Exception -> M A) : M A :=
  fun env s =>
    match c env s with
    | (Return a, s') => (Return a, s')
    | (Throw e, s') => h e env s'
    end.

(** [Date.now()] *)
Definition Date_now : M Z :=
  fun env s =>
    (Return (clock env (readings s)),
     {| heap := heap s; readings := S (readings s); sent := sent s |}).

(** [await fetch(url, { method, headers, body })]; a rejected fetch throws a
    TypeError. *)
Definition fetch (r : HttpRequest) : M HttpResponse :=
  fun env s =>
    let s' := {| heap := heap s; readings := readings s;
                 sent := sent s ++ [r] |} in
    match network env (List.length (sent s)) with
    | Responded resp => (Return resp, s')
    | Rejected => (Throw TypeError, s')
    end.

(** [new]: the object goes to the end of the heap. *)
Definition alloc (c : KrakenClient) : M ref :=
  fun _ s =>
    (Return (List.length (heap s)),
     {| heap := heap s ++ [c]; readings := readings s; sent := sent s |}).

(** Reading [this]. *)
Definition deref (r : ref) : M KrakenClient :=
  fun _ s =>
    match nth_error (heap s) r with
    | Some c => (Return c, s)
    | None => (Throw TypeError, s)
    end.

Fixpoint update {A} (l : list A) (i : nat) (x : A) : list A :=
  match l, i with
  | [], _ => []
  | _ :: r, O => x :: r
  | y :: r, S j => y :: update r j x
  end.

(** [this.nonceCounter = v] *)
Definition set_nonceCounter (r : ref) (v : Z) : M unit :=
  mbind (deref r) (fun c =>
  fun _ s =>
    (Return tt,
     {| heap := update (heap s) r
                  {| apiKey := apiKey c; secret := secret c;
                     baseUrl := baseUrl c; nonceCounter := v |};
        readings := readings s; sent := sent s |})).

End World.

Declare Scope js_scope.
Delimit Scope js_scope with js.
Notation "x <- c ;; k" := (World.mbind c (fun x => k))
  (at level 61, c at next level, right associativity) : js_scope.
Notation "c ;; k" := (World.mbind c (fun _ => k))
  (at level 61, right associativity) : js_scope.

(** ** src/client/KrakenClient.ts *)

Module Client.
Import Js Node World.
#[local] Open Scope js_scope.

Record KrakenClientConfig : Type := {
  config_apiKey : string;
  config_secret : string;
  config_baseUrl : option string
}.

Record RequestOptions : Type := {
  opt_method : option Method;
  opt_body : option Object;
  opt_otp : option string
}.

(** [{}] for the options. *)
Definition no_options : RequestOptions :=
  {| opt_method := None; opt_body := None; opt_otp := None |}.

Definition with_body (b : Object) : RequestOptions :=
  {| opt_method := None; opt_body := Some b; opt_otp := None |}.

Definition constructor (config : KrakenClientConfig) : M ref :=
  let baseUrl :=
    match config_baseUrl config with
    | Some u => u
    | None => "https://api.kraken.com"
    end in
  if String.eqb (config_apiKey config) "" then throw (Error "API key is required")
  else if String.eqb (config_secret config) "" then throw (Error "Secret key is required")
  else
    now <- Date_now ;;
    alloc {| apiKey := config_apiKey config; secret := config_secret config;
             baseUrl := baseUrl; nonceCounter := now |}.

Definition generateNonce (this : ref) : M Z :=
  timestamp <- Date_now ;;
  self <- deref this ;;
  (if timestamp >? nonceCounter self
   then set_nonceCounter this timestamp
   else set_nonceCounter this (number_add (nonceCounter self) 1)) ;;
  self <- deref this ;;
  ret (nonceCounter self).

Section WithLibrary.
Context {node : Library}.

Definition request (this : ref) (endpoint : string) (options : RequestOptions)
  : M Value :=
  let method := match opt_method options with Some m => m | None => POST end in
  let body := match opt_body options with Some b => b | None => [] end in
  let otp := opt_otp options in
  nonce <- generateNonce this ;;
  let payload := set body "nonce" (VNumber nonce) in
  let payload :=
    match otp with
    | Some code => if String.eqb code "" then payload
                   else set payload "otp" (VString code)
    | None => payload
    end in
  self <- deref this ;;
  signature <- lift (Crypto.generateKrakenSignature endpoint (VObject payload)
                       (secret self)) ;;
  let headers :=
    [("API-Key", apiKey self);
     ("API-Sign", signature);
     ("Content-Type", "application/x-www-form-urlencoded")] in
  let formData := stringify payload in
  let url := baseUrl self ++ endpoint in
  response <- fetch {| url := url; method := method; headers := headers;
                       body := match method with
                               | POST => Some formData
                               | GET => None
                               end |} ;;
  if negb (ok response) then
    let errorText := text response in
    throw (Error ("Kraken API HTTP error: " ++ Number_toString (status response)
                  ++ " " ++ statusText response ++ " - " ++ errorText))
  else
    data <- lift (of_option (json response) SyntaxError) ;;
    match error data with
    | Some (e :: es) =>
        throw (Error ("Kraken API error: " ++ join ", " (e :: es)))
    | _ => ret (result data)
    end.

End WithLibrary.
End Client.

(** ** src/api/balance.ts, src/api/trading.ts, src/api/withdrawal.ts *)

Module Api.
Import Js Node World Client.
#[local] Open Scope js_scope.

Section WithLibrary.
Context {node : Library}.

Definition getBalance (client : ref) : M Value :=
  request client "/0/private/Balance" no_options.

Definition getAssetBalance (client : ref) (asset : string) : M Value :=
  balance <- getBalance client ;;
  entry <- lift (get_property balance asset) ;;
  ret (nullish entry (VString "0.00000000")).

Definition placeOrder (client : ref) (params : Object) : M Value :=
  request client "/0/private/AddOrder" (with_body params).

Definition sellUSDCToUSD (client : ref) (volume : Value) (options : Object)
  : M Value :=
  placeOrder client
    (spread [("type", VString "sell");
             ("ordertype", VString "market");
             ("pair", VString "USDCUSD");
             ("volume", volume)] options).

Definition buyUSDCWithUSD (client : ref) (volume : Value) (options : Object)
  : M Value :=
  placeOrder client
    (spread [("type", VString "buy");
             ("ordertype", VString "market");
             ("pair", VString "USDCUSD");
             ("volume", volume)] options).

Definition getWithdrawalMethods (client : ref) (asset : option string)
  : M Value :=
  let params :=
    match asset with
    | Some a => if String.eqb a "" then [] else [("asset", VString a)]
    | None => []
    end in
  request client "/0/private/WithdrawMethods" (with_body params).

Definition withdraw (client : ref) (asset key : string) (amount : Value)
  (options : Object) : M Value :=
  let withdrawParams :=
    spread [("asset", VString asset);
            ("key", VString key);
            ("amount", amount)] options in
  request client "/0/private/Withdraw" (with_body withdrawParams).

Definition withdrawToMercury (client : ref) (amount : Value) (options : Object)
  : M Value :=
  withdraw client "USD" "Mercury" amount options.

End WithLibrary.
End Api.

(** ** src/config.ts and src/index.ts *)

Module Index.
Import Js Node World Client Api Bigint.
#[local] Open Scope js_scope.

(** The configuration [loadConfig()] returns. *)
Record AppConfig : Type := {
  kraken : KrakenClientConfig;
  minimumWithdrawalUSD : Double;
  usdWithdrawalKey : string
}.

Definition validateConfig (config : AppConfig) : Outcome unit :=
  if String.eqb (config_apiKey (kraken config)) ""
     || String.eqb (config_secret (kraken config)) ""
  then Throw (Error "Kraken API credentials are required")
  else if less_than_zero (minimumWithdrawalUSD config)
  then Throw (Error "Minimum withdrawal amount must be positive")
  else if String.eqb (usdWithdrawalKey config) ""
  then Throw (Error "USD withdrawal key is required")
  else Return tt.

(** A call [parseDecimalToBigInt(value, decimals)] with whatever the balance
    query gave: only a string has [split]. *)
Definition call_parseDecimalToBigInt (value : Value) (decimals : Z) : Outcome Z :=
  match value with
  | VString s => parseDecimalToBigInt s decimals
  | _ => Throw TypeError
  end.

(** What can throw in the block that prints the order:
    [orderResult.txid && orderResult.txid.length > 0], then
    [orderResult.txid.join(", ")] and [orderResult.descr.order], both inside
    template literals.  Only an array has [join]. *)
Definition print_order (orderResult : Value) : Outcome unit :=
  bind (get_property orderResult "txid") (fun txid =>
  if truthy txid then
    bind (get_property txid "length") (fun n =>
    if negb (has_primitive n) then Throw TypeError
    else if gt_zero n then
      bind (match txid with
            | VArray items =>
                if forallb has_primitive items then Return tt
                else Throw TypeError
            | _ => Throw TypeError
            end) (fun _ =>
      bind (get_property orderResult "descr") (fun descr =>
      bind (get_property descr "order") (fun order =>
      if has_primitive order then Return tt else Throw TypeError)))
    else Return tt)
  else Return tt).

(** How the process ends: [main] runs to its end, or [process.exit(1)]. *)
Inductive Exit : Type := Completed | Exited (code : Z).

Section WithLibrary.
Context {node : Library}.

(** [main], from the loaded configuration on.  Console output and the two
    second pause change nothing in the modelled state; of the printing only
    the property reads that can throw are kept. *)
Definition main (config : AppConfig) : M Exit :=
  catch
    (lift (validateConfig config) ;;
     client <- constructor (kraken config) ;;
     (* Step 1: check USDC balance *)
     usdcBalance <- getAssetBalance client "USDC" ;;
     usdcBalanceBigInt <- lift (call_parseDecimalToBigInt usdcBalance 8) ;;
     (* Step 2: sell USDC to USD if balance > 0 *)
     (if usdcBalanceBigInt >? 0 then
        orderResult <- sellUSDCToUSD client usdcBalance [] ;;
        lift (print_order orderResult)
      else ret tt) ;;
     (* Step 3: check USD balance and withdraw to Mercury *)
     usdBalance <- getAssetBalance client "ZUSD" ;;
     usdBalanceBigInt <- lift (call_parseDecimalToBigInt usdBalance 4) ;;
     minimumWithdrawal <-
       lift (BigInt_of_number
               (number_mul (minimumWithdrawalUSD config) (Whole 10000))) ;;
     (if usdBalanceBigInt >=? minimumWithdrawal then
        withdrawResult <- withdrawToMercury client usdBalance [] ;;
        lift (get_property withdrawResult "refid") ;;
        ret tt
      else ret tt) ;;
     ret Completed)
    (fun _ => ret (Exited 1)).

End WithLibrary.

(** The state [main] starts from. *)
Definition initial : State := {| heap := []; readings := O; sent := [] |}.

End Index.

(** ** The signer's input, classified *)

Module Input.
Import Js Node.

Section WithLibrary.
Context {node : Library}.

(** The nonce field the signer reads: of the object, or of what the JSON text
    parses to; [None] where there is nothing to read it from (not an object or
    a string, text that is not JSON, JSON [null]). *)
Definition nonce_field (data : Value) : option Value :=
  match data with
  | VString text =>
      match JSON_parse text with
      | Some jsonData =>
          match get_property jsonData "nonce" with
          | Return nonce => Some nonce
          | Throw _ => None
          end
      | None => None
      end
  | VObject object => Some (get object "nonce")
  | VArray _ => Some VUndefined
  | VInherited name =>
      if String.eqb name "__proto__" then Some VUndefined else None
  | _ => None
  end.

(** The payload carries a nonce. *)
Definition has_nonce (data : Value) : bool :=
  match nonce_field data with
  | Some nonce => negb (is_undefined nonce)
  | None => false
  end.

(** There is a payload, and it has no nonce. *)
Definition lacks_nonce (data : Value) : bool :=
  match nonce_field data with
  | Some nonce => is_undefined nonce
  | None => false
  end.

(** The payload as the specification has it serialized: the form encoding
    of the object, also of the object a JSON text stands for. *)
Definition form_encoding (data : Value) : option string :=
  match data with
  | VString text =>
      match JSON_parse text with
      | Some (VObject object) => Some (stringify object)
      | _ => None
      end
  | VObject object => Some (stringify object)
  | _ => None
  end.

(** What the code hashes after the nonce: the form encoding of an object,
    and a text as it stands. *)
Definition hashed_text (data : Value) : string :=
  match data with
  | VString text => text
  | VObject object => stringify object
  | _ => ""
  end.

End WithLibrary.

(** [data] is neither a string nor an object ([null] is not an object, nor
    is a function). *)
Definition neither_string_nor_object (data : Value) : bool :=
  match data with
  | VString _ => false
  | _ => negb (is_object data)
  end.

(** A nonce of the declared type, [number | string]. *)
Definition number_or_string (v : Value) : bool :=
  match v with
  | VNumber _ | VString _ => true
  | _ => false
  end.

(** An answer of the type [AddOrderResponse]: an object whose [descr] is an
    object with a string [order], and whose [txid], where there is one, is
    an array of strings. *)
Definition is_string (v : Value) : bool :=
  match v with
  | VString _ => true
  | _ => false
  end.

Definition AddOrderResponse (v : Value) : bool :=
  match v with
  | VObject fields =>
      match lookup fields "descr" with
      | Some (VObject descr) =>
          match lookup descr "order" with
          | Some (VString _) => true
          | _ => false
          end
      | _ => false
      end
      && match lookup fields "txid" with
         | None => true
         | Some (VArray ids) => forallb is_string ids
         | Some _ => false
         end
  | _ => false
  end.

(** The call raised [new Error(...)], the signer's own error. *)
Definition input_error {A} (r : Outcome A) : bool :=
  match r with
  | Throw (Error _) => true
  | _ => false
  end.

End Input.

(** ** One call in closed form

    What a call of [generateNonce], [request] or [getAssetBalance] does to the
    state and what it returns, written without the monad; Part II proves that
    the embedded methods compute exactly this, and states the properties of
    [main] with it. *)

Module Run.
Import Js Node World Client Bigint Index.

(** The specification's [next()]: "if strictly greater than last-issued, set
    last-issued to that value; otherwise increment last-issued by 1". *)
Definition next (last reading : Z) : Z :=
  if reading >? last then reading else last + 1.

(** The nonces of successive calls, from the last-issued value and the clock
    readings of the calls. *)
Fixpoint nonces (last : Z) (clock_readings : list Z) : list Z :=
  match clock_readings with
  | [] => []
  | t :: r => next last t :: nonces (next last t) r
  end.

(** [n] calls of [generateNonce] in a row, collecting what they return. *)
Fixpoint generateNonce_times (n : nat) (this : ref) : M (list Z) :=
  match n with
  | O => ret []
  | S k =>
      mbind (generateNonce this) (fun x =>
      mbind (generateNonce_times k this) (fun r => ret (x :: r)))
  end.

(** Each element is smaller than the one after it. *)
Fixpoint increasing (l : list Z) : Prop :=
  match l with
  | x :: (y :: _) as r => x < y /\ increasing r
  | _ => True
  end.

(** The counter after a call that read [reading] from the clock. *)
Definition counter_after (self : KrakenClient) (reading : Z) : Z :=
  if reading >? nonceCounter self then reading
  else number_add (nonceCounter self) 1.

Definition with_counter (self : KrakenClient) (v : Z) : KrakenClient :=
  {| apiKey := apiKey self; secret := secret self; baseUrl := baseUrl self;
     nonceCounter := v |}.

(** The payload [request] builds from the options and the nonce. *)
Definition payload_of (options : RequestOptions) (nonce : Z) : Object :=
  let body := match opt_body options with Some b => b | None => [] end in
  let payload := set body "nonce" (VNumber nonce) in
  match opt_otp options with
  | Some code => if String.eqb code "" then payload
                 else set payload "otp" (VString code)
  | None => payload
  end.

Definition method_of (options : RequestOptions) : Method :=
  match opt_method options with Some m => m | None => POST end.

(** What [request] returns once the exchange has answered. *)
Definition unwrap (answer : FetchResult) : Outcome Value :=
  match answer with
  | Rejected => Throw TypeError
  | Responded response =>
      if negb (ok response) then
        Throw (Error ("Kraken API HTTP error: "
                      ++ Number_toString (status response) ++ " "
                      ++ statusText response ++ " - " ++ text response))
      else
        match json response with
        | None => Throw SyntaxError
        | Some data =>
            match error data with
            | Some (e :: es) =>
                Throw (Error ("Kraken API error: " ++ join ", " (e :: es)))
            | _ => Return (result data)
            end
        end
  end.

(** What [getAssetBalance] returns for an answer to its balance query. *)
Definition asset_balance (asset : string) (answer : FetchResult) : Outcome Value :=
  bind (unwrap answer) (fun balance =>
  bind (get_property balance asset) (fun entry =>
  Return (nullish entry (VString "0.00000000")))).

(** The balance in base units at [decimals] places, as [main] computes it. *)
Definition asset_units (asset : string) (decimals : Z) (answer : FetchResult)
  : Outcome Z :=
  bind (asset_balance asset answer) (fun value =>
  call_parseDecimalToBigInt value decimals).

Section WithLibrary.
Context {node : Library}.

(** The signature [request] puts in the API-Sign header. *)
Definition signature_of (endpoint : string) (payload : Object) (key : string)
  : string :=
  base64_encode
    (hmac_sha512 (base64_decode key)
       (binary_bytes endpoint ++
        sha256 (ToString (get payload "nonce") ++ stringify payload))).

(** The HTTP request [request] sends. *)
Definition request_of (self : KrakenClient) (endpoint : string)
  (options : RequestOptions) (nonce : Z) : HttpRequest :=
  let payload := payload_of options nonce in
  {| url := baseUrl self ++ endpoint;
     method := method_of options;
     headers := [("API-Key", apiKey self);
                 ("API-Sign", signature_of endpoint payload (secret self));
                 ("Content-Type", "application/x-www-form-urlencoded")];
     body := match method_of options with
             | POST => Some (stringify payload)
             | GET => None
             end |}.

(** The state after [request]. *)
Definition after_request (this : ref) (self : KrakenClient) (endpoint : string)
  (options : RequestOptions) (env : Env) (s : State) : State :=
  let nonce := counter_after self (clock env (readings s)) in
  {| heap := update (heap s) this (with_counter self nonce);
     readings := S (readings s);
     sent := sent s ++ [request_of self endpoint options nonce] |}.

End WithLibrary.

(** The base URL of the client [main] constructs. *)
Definition base_of (config : AppConfig) : string :=
  match config_baseUrl (kraken config) with
  | Some u => u
  | None => "https://api.kraken.com"
  end.

(** The threshold of [main] in base units, as [main] computes it:
    [BigInt(minimumWithdrawalUSD * 10_000)]. *)
Definition threshold (config : AppConfig) : Outcome Z :=
  BigInt_of_number (number_mul (minimumWithdrawalUSD config) (Whole 10000)).

(** Whether a request goes to [endpoint] of the exchange at [base]. *)
Definition goes_to (base endpoint : string) (r : HttpRequest) : bool :=
  String.eqb (url r) (base ++ endpoint).

End Run.

(** ** Concrete surroundings for running the model *)

Module Scenario.
Import Js Node World Client.

(** A stand-in for the Node.js library, to run the model on inputs: the
    digests are replaced by functions that keep their input readable, and
    [stringify] does no escaping. *)
Definition plain_stringify (o : Object) : string :=
  join "&" (map (fun kv => fst kv ++ "=" ++ ToString (snd kv)) o).

#[local] Instance plain : Library := {
  sha256 := fun text => list_byte_of_string text;
  hmac_sha512 := fun key message => (key ++ message)%list;
  base64_decode := fun text => list_byte_of_string text;
  base64_encode := fun bytes => string_of_list_byte bytes;
  stringify := plain_stringify;
  JSON_parse := fun _ => None
}.

Definition a_client (counter : Z) : KrakenClient :=
  {| apiKey := "key"; secret := "c2VjcmV0"; baseUrl := "https://api.kraken.com";
     nonceCounter := counter |}.

(** One client on the heap, nothing read or sent yet. *)
Definition one_client (counter : Z) : State :=
  {| heap := [a_client counter]; readings := O; sent := [] |}.

(** A clock that stands still at a time in November 2026, and an exchange
    that answers every request with [answer]. *)
Definition still (answer : FetchResult) : Env :=
  {| clock := fun _ => 1762000000000; network := fun _ => answer |}.

Definition success (value : Value) : FetchResult :=
  Responded {| status := 200; statusText := "OK"; text := "";
               json := Some {| error := Some []; result := value |} |}.

Definition config_with_key (key : string) : Index.AppConfig :=
  {| Index.kraken := {| config_apiKey := "key"; config_secret := "c2VjcmV0";
                        config_baseUrl := None |};
     Index.minimumWithdrawalUSD := Whole 10;
     Index.usdWithdrawalKey := key |}.

(** Nothing to sell, and fiat above the threshold of ten dollars. *)
Definition balances : Value :=
  VObject [("USDC", VString "0.00000000"); ("ZUSD", VString "50.0000")].

(** Nothing to sell, and fiat below the threshold. *)
Definition small_balances : Value :=
  VObject [("USDC", VString "0.00000000"); ("ZUSD", VString "5.0000")].

(** The answers of the exchange to a sale followed by a withdrawal: the
    balances before the sale, the order, the balances after it, the
    withdrawal. *)
Definition sale_and_withdrawal : Env :=
  {| clock := fun _ => 1762000000000;
     network := fun n =>
       match n with
       | 0%nat => success (VObject [("USDC", VString "100.00000000");
                                    ("ZUSD", VString "0.0000")])
       | 1%nat => success (VObject [("descr", VObject [("order", VString "sell 100.00000000 USDCUSD @ market")]);
                                    ("txid", VArray [VString "OQCLML-BW3P3-BUCMWZ"])])
       | 2%nat => success (VObject [("USDC", VString "0.00000000");
                                    ("ZUSD", VString "50.0000")])
       | _ => success (VObject [("refid", VString "FTQcuak-V6Za8qrWnhzTx67yYHz8Tg")])
       end |}.

Definition failing (code : Z) (reason body : string) : FetchResult :=
  Responded {| status := code; statusText := reason; text := body;
               json := None |}.

Definition refusing (errors : list string) : FetchResult :=
  Responded {| status := 200; statusText := "OK"; text := "";
               json := Some {| error := Some errors;
                               result := VObject [("refid", VString "R1")] |} |}.

End Scenario.

(** ** The specification's FixedPointDecimal, in its own words

    These two definitions follow the sentences of the specification, not the
    code; the theorems of Part II compare them with [Bigint]. *)

Module Spec.
Import Js.

(** The text before the first decimal point. *)
Fixpoint integer_part (value : string) : string :=
  match value with
  | "" => ""
  | String c r => if Ascii.eqb c "." then "" else String c (integer_part r)
  end.

(** The text after the first decimal point, [None] without one. *)
Fixpoint fractional_part (value : string) : option string :=
  match value with
  | "" => None
  | String c r => if Ascii.eqb c "." then Some r else fractional_part r
  end.

(** A decimal string: digits, then possibly a decimal point and digits. *)
Definition is_decimal_string (value : string) : bool :=
  all_digits (integer_part value) &&
  match fractional_part value with
  | None => true
  | Some f => all_digits f
  end.

Definition decimal_integer (s : string) : Outcome Z :=
  of_option (option_map Z.of_uint (NilEmpty.uint_of_string s)) SyntaxError.

(** "Splits on the decimal point; missing fractional part treated as empty
    string.  The fractional part is right-padded with zeros to exactly
    [scale] digits, then truncated to [scale] digits if longer.  The integer
    and padded-fraction strings are concatenated and parsed as a single
    arbitrary-precision integer.  Missing integer part defaults to "0"." *)
Definition parse (value : string) (scale : Z) : Outcome Z :=
  let whole := or_else (integer_part value) "0" in
  let fraction := match fractional_part value with None => "" | Some f => f end in
  let padded :=
    fraction ++ repeat_char "0" (Z.to_nat scale - String.length fraction) in
  let truncated := take (Z.to_nat scale) padded in
  decimal_integer (whole ++ truncated).

(** "Render the integer with at least [scale+1] digits (left-pad with zeros),
    split into integer part (all but last [scale] digits, or "0" if empty) and
    fractional part (last [scale] digits), join with a decimal point." *)
Definition format (units : Z) (scale : Z) : string :=
  let digits := BigInt_toString units in
  let rendered :=
    repeat_char "0" (Z.to_nat (scale + 1) - String.length digits) ++ digits in
  let n := String.length rendered in
  let integer := take (n - Z.to_nat scale) rendered in
  let fractional := drop (n - Z.to_nat scale) rendered in
  or_else integer "0" ++ "." ++ fractional.

End Spec.

(** ** src/client/KrakenClient.ts: public endpoints

    [URL] is a built-in of the runtime; the embedding is parametric in it. *)

Module Public.
Import Js Node World Client.
#[local] Open Scope js_scope.

Class UrlLibrary : Type := {
  (** whether [new URL(text)] accepts the text (it throws a TypeError
      otherwise) *)
  URL_valid : string -> bool;
  (** [url.toString()] of [new URL(text)] after
      [url.searchParams.append(key, value)] for each pair, in order *)
  URL_href : string -> list (string * string) -> string
}.

Section WithLibrary.
Context {urls : UrlLibrary}.

Definition publicRequest (this : ref) (endpoint : string)
  (params : option Object) : M Value :=
  self <- deref this ;;
  let address := baseUrl self ++ endpoint in
  if negb (URL_valid address) then throw TypeError
  else
    let appended :=
      match params with
      | Some entries => map (fun kv => (fst kv, ToString (snd kv))) entries
      | None => []
      end in
    response <- fetch {| url := URL_href address appended;
                         method := GET;
                         headers := [("Content-Type", "application/json")];
                         body := None |} ;;
    if negb (ok response) then
      let errorText := text response in
      throw (Error ("Kraken API HTTP error: " ++ Number_toString (status response)
                    ++ " " ++ statusText response ++ " - " ++ errorText))
    else
      data <- lift (of_option (json response) SyntaxError) ;;
      match error data with
      | Some (e :: es) =>
          throw (Error ("Kraken API error: " ++ join ", " (e :: es)))
      | _ => ret (result data)
      end.

End WithLibrary.
End Public.

(** ** src/config.ts: loading, and src/index.ts from the environment on *)

Module Config.
Import Js Node World Client Index.

Section WithEnvironment.

(** [Bun.env]: the environment variables that are set. *)
Variable Bun_env : string -> option string.

(** [!value] for an environment variable: unset, or set to the empty string. *)
Definition not_set (name : string) : Exception :=
  Error (name ++ " environment variable is not set. "
         ++ "Please set it in your .env file or environment.").

(** Whether a variable is there for [!value]: set, and not to the empty
    string. *)
Definition is_set (name : string) : bool :=
  match Bun_env name with
  | Some text => negb (String.eqb text "")
  | None => false
  end.

(** A variable that must be there: [if (!value) throw ...]; unset and empty
    are both refused. *)
Definition required (name : string) : Outcome string :=
  match Bun_env name with
  | Some text => if String.eqb text "" then Throw (not_set name) else Return text
  | None => Throw (not_set name)
  end.

(** [Bun.env.NAME || fallback] *)
Definition or_default (name fallback : string) : string :=
  match Bun_env name with
  | Some text => if String.eqb text "" then fallback else text
  | None => fallback
  end.

Definition loadConfig : Outcome AppConfig :=
  bind (required "KRAKEN_PUBLIC_KEY") (fun apiKey =>
  bind (required "KRAKEN_SECRET_KEY") (fun secret =>
  bind (required "USD_WITHDRAWAL_KEY") (fun usdWithdrawalKey =>
  Return
    {| kraken :=
         {| config_apiKey := apiKey;
            config_secret := secret;
            config_baseUrl :=
              Some (or_default "KRAKEN_API_URL" "https://api.kraken.com") |};
       minimumWithdrawalUSD :=
         StringToNumber (or_default "MINIMUM_WITHDRAWAL_USD" "10");
       usdWithdrawalKey := usdWithdrawalKey |}))).

Section WithLibrary.
Context {node : Library}.

(** [main] of src/index.ts with its first statement: a failure of
    [loadConfig] is caught like every other one. *)
Definition main_from_environment : M Exit :=
  match loadConfig with
  | Return config => main config
  | Throw _ => ret (Exited 1)
  end.

End WithLibrary.
End WithEnvironment.
End Config.

(** ** More surroundings for running the model *)

Module Examples.
Import Js Node World Client Index Public.

(** The JSON text of an object with the nonce 7. *)
Definition quote : string := String (ascii_of_nat 34) "".
Definition nonce_text : string := "{" ++ quote ++ "nonce" ++ quote ++ ":7}".

(** The stand-in library of [Scenario], with a [JSON.parse] that knows this
    one text. *)
#[local] Instance reading : Library := {
  sha256 := fun text => list_byte_of_string text;
  hmac_sha512 := fun key message => (key ++ message)%list;
  base64_decode := fun text => list_byte_of_string text;
  base64_encode := fun bytes => string_of_list_byte bytes;
  stringify := Scenario.plain_stringify;
  JSON_parse := fun text =>
    if String.eqb text nonce_text then Some (VObject [("nonce", VNumber 7)])
    else None
}.

(** A stand-in for [URL]: every text is accepted, the pairs are appended
    without escaping. *)
#[local] Instance plain_urls : UrlLibrary := {
  URL_valid := fun _ => true;
  URL_href := fun address pairs =>
    match pairs with
    | [] => address
    | _ => address ++ "?" ++ join "&" (map (fun kv => fst kv ++ "=" ++ snd kv) pairs)
    end
}.

(** Two clients on the heap. *)
Definition two_clients (first second : Z) : State :=
  {| heap := [Scenario.a_client first; Scenario.a_client second];
     readings := O; sent := [] |}.

(** An environment with the three required variables. *)
Definition variables (name : string) : option string :=
  if String.eqb name "KRAKEN_PUBLIC_KEY" then Some "key"
  else if String.eqb name "KRAKEN_SECRET_KEY" then Some "c2VjcmV0"
  else if String.eqb name "USD_WITHDRAWAL_KEY" then Some "MyBank"
  else None.

(** The same without the withdrawal key. *)
Definition without_key (name : string) : option string :=
  if String.eqb name "USD_WITHDRAWAL_KEY" then None else variables name.

(** An exchange that reports a USDC balance and refuses the order. *)
Definition failed_sale : Env :=
  {| clock := fun _ => 1762000000000;
     network := fun n =>
       match n with
       | O => Scenario.success (VObject [("USDC", VString "100.00000000")])
       | _ => Scenario.refusing ["EOrder:Insufficient funds"]
       end |}.

(** The three required variables and a threshold of 19.99 dollars. *)
Definition fractional_threshold (name : string) : option string :=
  if String.eqb name "MINIMUM_WITHDRAWAL_USD" then Some "19.99"
  else variables name.

(** The same with a threshold that is no numeral. *)
Definition worded_threshold (name : string) : option string :=
  if String.eqb name "MINIMUM_WITHDRAWAL_USD" then Some "ten"
  else variables name.

End Examples.

(* ================================================================== *)
(** * Part II: properties *)
(* ================================================================== *)

(** ** Strings and BigInt *)

Module JsFacts.
Import Js.

Lemma length_app (a b : string) :
  String.length (a ++ b) = (String.length a + String.length b)%nat.
Proof. induction a as [|c a IH]; simpl; [reflexivity | now rewrite IH]. Qed.

Lemma len_app (a b : string) : len (a ++ b) = len a + len b.
Proof. unfold len. rewrite length_app. lia. Qed.

Lemma len_nonneg (s : string) : 0 <= len s.
Proof. unfold len. lia. Qed.

Lemma app_empty_r (s : string) : s ++ "" = s.
Proof. induction s as [|c s IH]; simpl; [reflexivity | now rewrite IH]. Qed.

Lemma length_repeat_char (c : ascii) (n : nat) :
  String.length (repeat_char c n) = n.
Proof. induction n as [|n IH]; simpl; [reflexivity | now rewrite IH]. Qed.

Lemma take_drop (n : nat) (s : string) : take n s ++ drop n s = s.
Proof.
  revert s. induction n as [|n IH]; intros [|c s]; simpl; try reflexivity.
  now rewrite IH.
Qed.

Lemma take_all (n : nat) (s : string) :
  (String.length s <= n)%nat -> take n s = s.
Proof.
  revert s. induction n as [|n IH]; intros [|c s]; simpl; intros H;
    try reflexivity; try lia.
  rewrite IH; [reflexivity | lia].
Qed.

Lemma length_take (n : nat) (s : string) :
  String.length (take n s) = Nat.min n (String.length s).
Proof.
  revert s. induction n as [|n IH]; intros [|c s]; simpl; try reflexivity.
  now rewrite IH.
Qed.

Lemma length_drop (n : nat) (s : string) :
  String.length (drop n s) = (String.length s - n)%nat.
Proof.
  revert s. induction n as [|n IH]; intros [|c s]; simpl; try reflexivity.
  now rewrite IH.
Qed.

Lemma drop_0 (s : string) : drop 0 s = s.
Proof. now destruct s. Qed.

Lemma all_digits_app (a b : string) :
  all_digits (a ++ b) = all_digits a && all_digits b.
Proof.
  induction a as [|c a IH]; simpl; [reflexivity|].
  now rewrite IH, andb_assoc.
Qed.

Lemma all_digits_repeat_zero (n : nat) : all_digits (repeat_char "0" n) = true.
Proof. induction n as [|n IH]; simpl; [reflexivity | exact IH]. Qed.

Lemma all_digits_take (n : nat) (s : string) :
  all_digits s = true -> all_digits (take n s) = true.
Proof.
  revert s. induction n as [|n IH]; intros [|c s]; simpl; try reflexivity.
  intros H. apply andb_true_iff in H as [Hc Hs]. now rewrite Hc, IH.
Qed.

Lemma all_digits_drop (n : nat) (s : string) :
  all_digits s = true -> all_digits (drop n s) = true.
Proof.
  revert s. induction n as [|n IH]; intros [|c s]; simpl; try reflexivity;
    try (intros H; exact H).
  intros H. apply andb_true_iff in H as [_ Hs]. now apply IH.
Qed.

Lemma all_digits_string_of_uint (d : uint) :
  all_digits (NilEmpty.string_of_uint d) = true.
Proof. induction d; simpl; auto. Qed.

(** A digit is none of the characters that [split], [trim] and the literal
    prefixes look for. *)
Lemma is_digit_cases (c : ascii) :
  is_digit c = true ->
  Ascii.eqb c "." = false /\ is_whitespace c = false /\
  Ascii.eqb c "-" = false /\ Ascii.eqb c "+" = false /\
  Ascii.eqb c "x" = false /\ Ascii.eqb c "X" = false /\
  Ascii.eqb c "o" = false /\ Ascii.eqb c "O" = false /\
  Ascii.eqb c "b" = false /\ Ascii.eqb c "B" = false.
Proof.
  destruct c as [[|] [|] [|] [|] [|] [|] [|] [|]]; cbv; intros H;
    try discriminate H; repeat split.
Qed.

Lemma split_digits (s : string) :
  all_digits s = true -> split "." s = [s].
Proof.
  induction s as [|c s IH]; simpl; [reflexivity|].
  intros H. apply andb_true_iff in H as [Hc Hs].
  destruct (is_digit_cases c Hc) as [-> _]. now rewrite (IH Hs).
Qed.

Lemma split_digits_dot (w r : string) :
  all_digits w = true -> split "." (w ++ String "." r) = w :: split "." r.
Proof.
  induction w as [|c w IH]; simpl; [reflexivity|].
  intros H. apply andb_true_iff in H as [Hc Hw].
  destruct (is_digit_cases c Hc) as [-> _]. now rewrite (IH Hw).
Qed.

Lemma trim_end_digits (s : string) : all_digits s = true -> trim_end s = s.
Proof.
  induction s as [|c s IH]; simpl; [reflexivity|].
  intros H. apply andb_true_iff in H as [Hc Hs].
  destruct (is_digit_cases c Hc) as (_ & -> & _). simpl. now rewrite (IH Hs).
Qed.

Lemma trim_digits (s : string) : all_digits s = true -> trim s = s.
Proof.
  intros H. unfold trim.
  assert (E : trim_start s = s).
  { destruct s as [|c s]; [reflexivity|]. simpl in *.
    apply andb_true_iff in H as [Hc _].
    now destruct (is_digit_cases c Hc) as (_ & -> & _). }
  rewrite E. now apply trim_end_digits.
Qed.

Lemma radix_literal_digits (s : string) :
  all_digits s = true -> radix_literal s = None.
Proof.
  destruct s as [|c [|p r]]; try reflexivity.
  - intros _. unfold radix_literal.
    destruct c as [[|] [|] [|] [|] [|] [|] [|] [|]]; reflexivity.
  - simpl. intros H. apply andb_true_iff in H as [_ H].
    apply andb_true_iff in H as [Hp _].
    destruct (is_digit_cases p Hp) as (_ & _ & _ & _ & Hx & HX & Ho & HO & Hb & HB).
    unfold radix_literal.
    destruct c as [[|] [|] [|] [|] [|] [|] [|] [|]]; try reflexivity.
    now rewrite Hx, HX, Ho, HO, Hb, HB.
Qed.

Lemma uint_of_string_digits (s : string) :
  all_digits s = true -> exists u, NilEmpty.uint_of_string s = Some u.
Proof.
  induction s as [|c s IH]; simpl; [now exists Nil|].
  intros H. apply andb_true_iff in H as [Hc Hs].
  destruct (IH Hs) as [u ->].
  destruct c as [[|] [|] [|] [|] [|] [|] [|] [|]]; try discriminate Hc;
    simpl; eauto.
Qed.

Lemma decimal_digits_value (s : string) :
  all_digits s = true -> s <> "" -> decimal_digits s = Some (digits_value s).
Proof.
  intros H Hne. unfold decimal_digits, digits_value.
  destruct (uint_of_string_digits s H) as [u ->].
  destruct s; [congruence | reflexivity].
Qed.

(** [BigInt] of a string of decimal digits is its value: the empty string
    gives [0n], leading zeros are allowed. *)
Lemma BigInt_digits (s : string) :
  all_digits s = true -> BigInt s = Return (digits_value s).
Proof.
  intros H. unfold BigInt. rewrite (trim_digits s H), (radix_literal_digits s H).
  destruct s as [|c r]; [reflexivity|].
  assert (D : decimal_digits (String c r) = Some (digits_value (String c r)))
    by (apply decimal_digits_value; [assumption | discriminate]).
  assert (Hc : is_digit c = true)
    by (simpl in H; now apply andb_true_iff in H as [Hc _]).
  destruct c as [[|] [|] [|] [|] [|] [|] [|] [|]]; try discriminate Hc;
    now rewrite D.
Qed.

Lemma digits_value_zero_l (s : string) :
  digits_value (String "0" s) = digits_value s.
Proof.
  unfold digits_value. simpl.
  destruct (NilEmpty.uint_of_string s) as [u|]; reflexivity.
Qed.

Lemma digits_value_zeros_l (n : nat) (s : string) :
  digits_value (repeat_char "0" n ++ s) = digits_value s.
Proof.
  induction n as [|n IH]; simpl; [reflexivity|].
  now rewrite digits_value_zero_l.
Qed.

Lemma all_digits_toString (u : Z) :
  0 <= u -> all_digits (BigInt_toString u) = true.
Proof.
  intros H. unfold BigInt_toString.
  destruct u as [|p|p]; [reflexivity | | lia].
  simpl. apply all_digits_string_of_uint.
Qed.

Lemma digits_value_toString (u : Z) :
  0 <= u -> digits_value (BigInt_toString u) = u.
Proof.
  intros H. unfold BigInt_toString, digits_value.
  destruct u as [|p|p]; [reflexivity | | lia].
  simpl. rewrite NilEmpty.usu.
  change (Z.of_uint (Pos.to_uint p)) with (Z.of_int (Z.to_int (Z.pos p))).
  apply DecimalZ.of_to.
Qed.

End JsFacts.

(** ** src/utils/bigint.ts *)

Module BigintFacts.
Import Js Bigint JsFacts.

Lemma slice_prefix (s : string) (n : Z) :
  0 <= n <= len s -> slice s 0 n = take (Z.to_nat n) s.
Proof.
  intros H. unfold slice, relative_index.
  pose proof (len_nonneg s) as L.
  replace (0 <? 0) with false by reflexivity.
  assert (E : (n <? 0) = false) by (apply Z.ltb_ge; lia). rewrite E.
  rewrite (Z.min_l 0) by lia. rewrite (Z.min_l n) by lia.
  rewrite Z.sub_0_r. change (Z.to_nat 0) with O. now rewrite drop_0.
Qed.

Lemma padEnd_slice (f : string) (s : Z) :
  0 <= s ->
  slice (padEnd f s "0") 0 s =
  take (Z.to_nat s) (f ++ repeat_char "0" (Z.to_nat s - String.length f)).
Proof.
  intros H. unfold padEnd.
  replace (Z.to_nat (s - len f)) with (Z.to_nat s - String.length f)%nat
    by (unfold len; lia).
  apply slice_prefix. rewrite len_app. unfold len.
  rewrite length_repeat_char. lia.
Qed.

(** The shape of a decimal string: digits alone, or digits, a point, digits. *)
Lemma decimal_string_shape (value : string) :
  Spec.is_decimal_string value = true ->
  (Spec.fractional_part value = None /\ Spec.integer_part value = value /\
   all_digits value = true) \/
  (exists w f, value = w ++ String "." f /\ Spec.integer_part value = w /\
               Spec.fractional_part value = Some f /\
               all_digits w = true /\ all_digits f = true).
Proof.
  unfold Spec.is_decimal_string.
  induction value as [|c r IH]; simpl.
  - intros _. left. repeat split.
  - destruct (Ascii.eqb_spec c ".") as [->|Hc]; simpl.
    + intros Hf. right. exists "", r. repeat split. exact Hf.
    + intros H. apply andb_true_iff in H as [H1 H2].
      apply andb_true_iff in H1 as [Hd Hi].
      destruct IH as [(E1 & E2 & E3) | (w & f & E1 & E2 & E3 & E4 & E5)].
      * now rewrite Hi, H2.
      * left. rewrite E1, E2, Hd, E3. repeat split.
      * right. exists (String c w), f. rewrite E3, E2. subst r.
        repeat split; try assumption. simpl. now rewrite Hd, E4.
Qed.

Lemma parse_digits_parts (w f : string) (s : Z) :
  0 <= s -> all_digits w = true -> all_digits f = true ->
  let p := take (Z.to_nat s) (f ++ repeat_char "0" (Z.to_nat s - String.length f)) in
  BigInt (w ++ p) = Return (digits_value (w ++ p)) /\
  Spec.decimal_integer (or_else w "0" ++ p)
  = Return (digits_value (w ++ p)) /\
  0 <= digits_value (w ++ p).
Proof.
  intros Hs Hw Hf p.
  assert (Hp : all_digits p = true).
  { apply all_digits_take. rewrite all_digits_app, Hf.
    apply all_digits_repeat_zero. }
  assert (Hwp : all_digits (w ++ p) = true) by now rewrite all_digits_app, Hw, Hp.
  split; [now apply BigInt_digits|].
  assert (V : forall t, all_digits t = true ->
            Spec.decimal_integer t = Return (digits_value t) /\ 0 <= digits_value t).
  { intros t Ht. unfold Spec.decimal_integer, digits_value.
    destruct (uint_of_string_digits t Ht) as [u ->]. simpl. split; [reflexivity|].
    unfold Z.of_uint. lia. }
  destruct w as [|c w].
  - simpl. destruct (V (String "0" p)) as [E _]; [exact Hp|].
    rewrite E, digits_value_zero_l. split; [reflexivity|].
    now destruct (V p Hp).
  - now destruct (V _ Hwp).
Qed.

Lemma parse_refines_spec (value : string) (s : Z) :
  0 <= s -> Spec.is_decimal_string value = true ->
  parseDecimalToBigInt value s = Spec.parse value s /\
  exists n, Spec.parse value s = Return n /\ 0 <= n.
Proof.
  intros Hs Hd. unfold parseDecimalToBigInt, Spec.parse.
  destruct (decimal_string_shape value Hd)
    as [(E1 & E2 & E3) | (w & f & E1 & E2 & E3 & E4 & E5)].
  - rewrite E1, E2, (split_digits value E3). simpl nth.
    rewrite (padEnd_slice "" s Hs).
    destruct (parse_digits_parts value "" s Hs E3 eq_refl) as (A & B & C).
    cbv zeta in A, B. rewrite A, B. eauto.
  - rewrite E2, E3. subst value. rewrite (split_digits_dot w f E4).
    rewrite (split_digits f E5). simpl nth.
    rewrite (padEnd_slice f s Hs).
    destruct (parse_digits_parts w f s Hs E4 E5) as (A & B & C).
    cbv zeta in A, B. rewrite A, B. eauto.
Qed.

Lemma padStart_length (d : string) (s : Z) :
  0 <= s -> s + 1 <= len (padStart d (s + 1) "0").
Proof.
  intros H. unfold padStart. rewrite len_app. unfold len.
  rewrite length_repeat_char. lia.
Qed.

Lemma slice_all_but_last (str : string) (s : Z) :
  1 <= s -> s <= len str ->
  slice str 0 (- s) = take (String.length str - Z.to_nat s) str.
Proof.
  intros H1 H2. unfold slice, relative_index.
  replace (0 <? 0) with false by reflexivity.
  assert (E : (- s <? 0) = true) by (apply Z.ltb_lt; lia). rewrite E.
  rewrite (Z.min_l 0) by (unfold len; lia). rewrite Z.max_l by lia.
  rewrite Z.sub_0_r. change (Z.to_nat 0) with O. rewrite drop_0.
  f_equal. unfold len in *. lia.
Qed.

Lemma slice_last (str : string) (s : Z) :
  1 <= s -> s <= len str ->
  slice_from str (- s) = drop (String.length str - Z.to_nat s) str.
Proof.
  intros H1 H2. unfold slice_from, slice, relative_index.
  assert (E : (- s <? 0) = true) by (apply Z.ltb_lt; lia). rewrite E.
  assert (E' : (len str <? 0) = false) by (apply Z.ltb_ge; unfold len; lia).
  rewrite E'. rewrite Z.min_id, Z.max_l by lia.
  replace (Z.to_nat (len str + - s)) with (String.length str - Z.to_nat s)%nat
    by (unfold len in *; lia).
  apply take_all. rewrite length_drop. unfold len in *. lia.
Qed.

(** From one decimal place on, [bigIntToDecimal] is the specification's
    [format]. *)
Lemma bigIntToDecimal_refines_spec (u s : Z) :
  1 <= s -> bigIntToDecimal u s = Spec.format u s.
Proof.
  intros Hs. unfold bigIntToDecimal, Spec.format.
  pose proof (padStart_length (BigInt_toString u) s ltac:(lia)) as L.
  rewrite slice_all_but_last, slice_last by lia.
  unfold padStart.
  replace (Z.to_nat (s + 1 - len (BigInt_toString u)))
    with (Z.to_nat (s + 1) - String.length (BigInt_toString u))%nat
    by (unfold len; lia).
  reflexivity.
Qed.

(** The round trip from one decimal place on. *)
Lemma roundtrip_from_scale_one (u s : Z) :
  0 <= u -> 1 <= s ->
  parseDecimalToBigInt (bigIntToDecimal u s) s = Return u.
Proof.
  intros Hu Hs. unfold bigIntToDecimal.
  set (str := padStart (BigInt_toString u) (s + 1) "0").
  pose proof (padStart_length (BigInt_toString u) s ltac:(lia)) as L.
  fold str in L.
  assert (Hstr : all_digits str = true).
  { unfold str, padStart. rewrite all_digits_app, all_digits_repeat_zero.
    now apply all_digits_toString. }
  assert (Vstr : digits_value str = u).
  { unfold str, padStart. rewrite digits_value_zeros_l.
    now apply digits_value_toString. }
  rewrite slice_all_but_last, slice_last by lia.
  set (k := (String.length str - Z.to_nat s)%nat).
  assert (Hk : (1 <= k)%nat) by (unfold k, len in *; lia).
  assert (Hw : or_else (take k str) "0" = take k str).
  { unfold or_else. destruct (String.eqb_spec (take k str) "") as [E|]; [|reflexivity].
    apply (f_equal String.length) in E. rewrite length_take in E.
    simpl in E. unfold k, len in *. lia. }
  rewrite Hw. unfold parseDecimalToBigInt.
  change (take k str ++ "." ++ drop k str)
    with (take k str ++ String "." (drop k str)).
  rewrite split_digits_dot by now apply all_digits_take.
  rewrite split_digits by now apply all_digits_drop.
  simpl nth. rewrite padEnd_slice by lia.
  assert (Ld : String.length (drop k str) = Z.to_nat s)
    by (rewrite length_drop; unfold k, len in *; lia).
  rewrite Ld, Nat.sub_diag. simpl repeat_char. rewrite app_empty_r.
  rewrite (take_all (Z.to_nat s) (drop k str)) by lia. rewrite take_drop.
  now rewrite BigInt_digits, Vstr.
Qed.

(** C7.  On every decimal string (digits, possibly followed by a decimal
    point and digits) and every scale [s >= 0], [parseDecimalToBigInt]
    computes what the specification describes: split on the decimal point, a
    missing fractional part is the empty string, a missing integer part is
    "0", the fraction is right-padded with zeros to [s] digits and cut to [s]
    digits, and the concatenation is read as one integer; the result is a
    non-negative integer.  The three examples of the specification hold. *)
Theorem parseDecimalToBigInt_spec :
  (forall (value : string) (s : Z),
      0 <= s -> Spec.is_decimal_string value = true ->
      parseDecimalToBigInt value s = Spec.parse value s /\
      exists n, parseDecimalToBigInt value s = Return n /\ 0 <= n) /\
  parseDecimalToBigInt "366.14886400" 8 = Return 36614886400 /\
  parseDecimalToBigInt "0.00000000" 8 = Return 0 /\
  parseDecimalToBigInt "10.50" 2 = Return 1050.
Proof.
  split; [|repeat split; reflexivity].
  intros value s Hs Hd.
  destruct (parse_refines_spec value s Hs Hd) as (E & n & En & Hn).
  split; [exact E|]. exists n. now rewrite E.
Qed.

Lemma parseDecimalToBigInt_spec_witness :
  0 <= 2 /\ Spec.is_decimal_string ".257" = true /\
  parseDecimalToBigInt ".257" 2 = Spec.parse ".257" 2 /\
  Spec.parse ".257" 2 = Return 25.
Proof.
  split; [lia|]. split; [reflexivity|]. split; [|reflexivity].
  apply (proj1 parseDecimalToBigInt_spec); [lia | reflexivity].
Defined.

(** C8, at scale 0.  [bigIntToDecimal(5n, 0)] is "0.5": [-decimals] is [-0],
    so [slice(0, -0)] is empty and [slice(-0)] is the whole numeral; the
    integer part falls back to "0" and all digits land behind the point.  The
    specification's rendering keeps every digit before the point. *)
Theorem bigIntToDecimal_scale_zero :
  bigIntToDecimal 5 0 = "0.5" /\ Spec.format 5 0 = "5.".
Proof. split; reflexivity. Qed.

(** C2, at scale 0.  Formatting 5 at scale 0 and parsing the result back at
    scale 0 gives 0, not 5. *)
Theorem roundtrip_scale_zero :
  parseDecimalToBigInt (bigIntToDecimal 5 0) 0 = Return 0 /\
  Spec.parse (Spec.format 5 0) 0 = Return 5.
Proof. split; reflexivity. Qed.

(** At scale 0 every amount is printed behind the point, *)
Lemma bigIntToDecimal_at_scale_zero (u : Z) :
  0 <= u -> bigIntToDecimal u 0 = "0." ++ BigInt_toString u.
Proof.
  intros Hu. unfold bigIntToDecimal.
  set (d := BigInt_toString u).
  assert (Hd : 1 <= len d).
  { destruct (Z.eq_dec u 0) as [->|N]; [cbn; lia|].
    pose proof (digits_value_toString u Hu) as V. fold d in V.
    destruct d; [cbn in V; lia | unfold len; cbn; lia]. }
  assert (E : padStart d (0 + 1) "0" = d).
  { unfold padStart. replace (Z.to_nat (0 + 1 - len d)) with O by lia.
    reflexivity. }
  rewrite E. change (- 0) with 0. unfold slice_from.
  rewrite !slice_prefix by lia. cbn [Z.to_nat take or_else String.eqb].
  rewrite take_all by (unfold len; lia). reflexivity.
Qed.

(** and read back as zero. *)
Lemma roundtrip_at_scale_zero (u : Z) :
  0 <= u -> parseDecimalToBigInt (bigIntToDecimal u 0) 0 = Return 0.
Proof.
  intros Hu. rewrite (bigIntToDecimal_at_scale_zero u Hu).
  unfold parseDecimalToBigInt.
  change ("0." ++ BigInt_toString u) with ("0" ++ String "." (BigInt_toString u)).
  rewrite split_digits_dot by reflexivity.
  rewrite split_digits by now apply all_digits_toString.
  cbn [nth]. rewrite padEnd_slice by lia. reflexivity.
Qed.

(** Parsing where a part is missing, and where the fraction is too long. *)
Example parseDecimalToBigInt_edges :
  parseDecimalToBigInt ".5" 2 = Return 50 /\
  parseDecimalToBigInt "7" 2 = Return 700 /\
  parseDecimalToBigInt "7." 2 = Return 700 /\
  parseDecimalToBigInt "" 2 = Return 0 /\
  parseDecimalToBigInt "1.239" 2 = Return 123 /\
  parseDecimalToBigInt "1.2.3" 2 = Return 120 /\
  parseDecimalToBigInt "abc" 2 = Throw SyntaxError.
Proof. repeat split. Qed.

(** The examples of the specification for [format]. *)
Lemma bigIntToDecimal_examples :
  bigIntToDecimal 36614886400 8 = "366.14886400" /\
  bigIntToDecimal 1050 2 = "10.50".
Proof. split; reflexivity. Qed.

End BigintFacts.

(** ** src/client/KrakenClient.ts: the nonce *)

Module NonceFacts.
Import Js World Client Run.

Lemma round_double_exact (z : Z) : Z.abs z <= 2 ^ 53 -> round_double z = z.
Proof.
  intros H. unfold round_double.
  destruct (Z.leb_spec (Z.abs z) (2 ^ 53)); [reflexivity | lia].
Qed.

Lemma nth_error_update {A} (l : list A) (i : nat) (x y : A) :
  nth_error l i = Some y -> nth_error (update l i x) i = Some x.
Proof.
  revert i. induction l as [|a l IH]; intros [|i]; simpl; try discriminate;
    [reflexivity | apply IH].
Qed.

(** One call: the clock is read once, the counter of [this] is replaced, and
    the new counter is returned. *)
Lemma generateNonce_run (this : ref) (env : Env) (s : State) (self : KrakenClient) :
  nth_error (heap s) this = Some self ->
  generateNonce this env s =
  (Return (counter_after self (clock env (readings s))),
   {| heap := update (heap s) this
                (with_counter self (counter_after self (clock env (readings s))));
      readings := S (readings s);
      sent := sent s |}).
Proof.
  intros H. unfold generateNonce, set_nonceCounter, mbind, Date_now, deref,
    counter_after, ret.
  cbn [heap readings sent]. rewrite H.
  destruct (clock env (readings s) >? nonceCounter self);
    cbn [heap readings sent]; rewrite H; cbn [heap readings sent];
    rewrite (nth_error_update _ _ _ _ H); reflexivity.
Qed.

Lemma counter_after_next (self : KrakenClient) (t : Z) :
  - 2 ^ 53 <= nonceCounter self < 2 ^ 53 ->
  counter_after self t = next (nonceCounter self) t.
Proof.
  intros H. unfold counter_after, next, number_add.
  destruct (t >? nonceCounter self); [reflexivity|].
  apply round_double_exact. lia.
Qed.

Lemma next_greater (last t : Z) : last < next last t.
Proof. unfold next. destruct (Z.gtb_spec t last); lia. Qed.

Lemma generateNonce_times_run (k : nat) :
  forall (this : ref) (env : Env) (s : State) (self : KrakenClient),
    nth_error (heap s) this = Some self ->
    - 2 ^ 53 <= nonceCounter self ->
    nonceCounter self + Z.of_nat k <= 2 ^ 53 ->
    (forall i, (i < k)%nat ->
               clock env (readings s + i) + Z.of_nat k <= 2 ^ 53) ->
    let issued :=
      nonces (nonceCounter self) (map (clock env) (seq (readings s) k)) in
    (exists s', generateNonce_times k this env s = (Return issued, s')) /\
    increasing (nonceCounter self :: issued).
Proof.
  induction k as [|k IH]; intros this env s self Hself Hlo Hhi Hclock issued.
  - split; [now exists s | exact I].
  - subst issued. cbn [seq map nonces generateNonce_times].
    set (t := clock env (readings s)).
    assert (Ht : t + Z.of_nat (S k) <= 2 ^ 53).
    { specialize (Hclock O ltac:(lia)). now rewrite Nat.add_0_r in Hclock. }
    assert (E : counter_after self t = next (nonceCounter self) t)
      by (apply counter_after_next; lia).
    pose proof (next_greater (nonceCounter self) t) as G.
    set (n := next (nonceCounter self) t) in *.
    assert (Hn : n + Z.of_nat k <= 2 ^ 53).
    { subst n. unfold next. destruct (Z.gtb_spec t (nonceCounter self)); lia. }
    unfold mbind at 1. rewrite (generateNonce_run this env s self Hself).
    fold t. rewrite E.
    set (s1 := {| heap := update (heap s) this (with_counter self n);
                  readings := S (readings s); sent := sent s |}).
    destruct (IH this env s1 (with_counter self n)) as [[s' Hrun] Hinc].
    + apply (nth_error_update _ _ _ _ Hself).
    + cbn. lia.
    + cbn. lia.
    + intros i Hi. cbn [readings s1].
      specialize (Hclock (S i) ltac:(lia)).
      replace (readings s + S i)%nat with (S (readings s) + i)%nat in Hclock by lia.
      lia.
    + cbn [nonceCounter with_counter readings s1] in Hrun, Hinc.
      split.
      * exists s'. unfold mbind. rewrite Hrun. reflexivity.
      * cbn [increasing]. split; [exact G | exact Hinc].
Qed.

(** X28.  Below [2^53] the nonces are as specified.  For one client instance
    whose last-issued value and clock readings leave room below [2^53] for
    the calls made, any number of [generateNonce] calls in a row returns
    nonces that are strictly increasing, starting above the last-issued
    value: a reading strictly greater than the last-issued value becomes the
    nonce, otherwise the last-issued value plus 1 does. *)
Theorem generateNonce_strictly_increasing
  (k : nat) (this : ref) (env : Env) (s : State) (self : KrakenClient) :
  nth_error (heap s) this = Some self ->
  - 2 ^ 53 <= nonceCounter self ->
  nonceCounter self + Z.of_nat k <= 2 ^ 53 ->
  (forall i, (i < k)%nat -> clock env (readings s + i) + Z.of_nat k <= 2 ^ 53) ->
  let issued := nonces (nonceCounter self) (map (clock env) (seq (readings s) k)) in
  (exists s', generateNonce_times k this env s = (Return issued, s')) /\
  increasing (nonceCounter self :: issued).
Proof. apply generateNonce_times_run. Qed.

Lemma generateNonce_strictly_increasing_witness :
  generateNonce_times 3 0%nat (Scenario.still Rejected)
    (Scenario.one_client 1761999999999)
  = (Return [1762000000000; 1762000000001; 1762000000002],
     {| heap := [Scenario.a_client 1762000000002]; readings := 3%nat;
        sent := [] |})
  /\ increasing [1761999999999; 1762000000000; 1762000000001; 1762000000002].
Proof.
  destruct (generateNonce_strictly_increasing 3 0%nat (Scenario.still Rejected)
              (Scenario.one_client 1761999999999)
              (Scenario.a_client 1761999999999)) as [_ Hinc].
  - reflexivity.
  - cbn. lia.
  - cbn. lia.
  - intros i _. cbn. lia.
  - split; [reflexivity | exact Hinc].
Defined.

(** Calls that find the clock behind the counter: each adds 1 to the counter,
    so that after [k] of them the counter has grown by [k]. *)
Lemma generateNonce_times_behind (k : nat) :
  forall (this : ref) (env : Env) (s : State) (self : KrakenClient),
    nth_error (heap s) this = Some self ->
    - 2 ^ 53 <= nonceCounter self ->
    nonceCounter self + Z.of_nat k <= 2 ^ 53 ->
    (forall i, clock env i <= nonceCounter self) ->
    nth_error (heap (snd (generateNonce_times k this env s))) this
    = Some (with_counter self (nonceCounter self + Z.of_nat k)).
Proof.
  induction k as [|k IH]; intros this env s self Hself Hlo Hhi Hclock.
  - cbn [generateNonce_times ret snd]. rewrite Hself. f_equal.
    destruct self as [a b c d]. unfold with_counter. cbn. f_equal. lia.
  - cbn [generateNonce_times]. unfold mbind at 1.
    rewrite (generateNonce_run this env s self Hself).
    assert (E : counter_after self (clock env (readings s)) = nonceCounter self + 1).
    { rewrite counter_after_next by lia. unfold next.
      destruct (Z.gtb_spec (clock env (readings s)) (nonceCounter self));
        [specialize (Hclock (readings s)); lia | reflexivity]. }
    rewrite E.
    set (s1 := {| heap := update (heap s) this
                            (with_counter self (nonceCounter self + 1));
                  readings := S (readings s); sent := sent s |}).
    assert (H1 : nth_error (heap s1) this
                 = Some (with_counter self (nonceCounter self + 1)))
      by apply (nth_error_update _ _ _ _ Hself).
    specialize (IH this env s1 _ H1).
    cbn [nonceCounter with_counter] in IH.
    assert (IH' := IH ltac:(lia) ltac:(lia)
                      ltac:(intros i; specialize (Hclock i); lia)).
    clear IH. unfold mbind.
    destruct (generateNonce_times k this env s1) as [[r|e] s2];
      cbn [snd ret] in *; rewrite IH'; f_equal; unfold with_counter;
      cbn [apiKey secret baseUrl]; f_equal; lia.
Qed.


End NonceFacts.

(** ** src/utils/crypto.ts *)

Module CryptoFacts.
Import Js Node Crypto Input.

Lemma binary_bytes_app (a b : string) :
  binary_bytes (a ++ b) = (binary_bytes a ++ binary_bytes b)%list.
Proof.
  unfold binary_bytes, list_byte_of_string.
  induction a as [|c a IH]; simpl; [reflexivity | now rewrite IH].
Qed.

(** A digest turned into a "binary" string and back into bytes is the digest:
    the hash enters the message byte for byte. *)
Lemma binary_bytes_string (d : list Byte.byte) :
  binary_bytes (binary_string d) = d.
Proof. apply list_byte_of_string_of_list_byte. Qed.

Lemma get_property_throws (v : Value) (k : string) (e : Exception) :
  get_property v k = Throw e -> e = TypeError.
Proof.
  destruct v; cbn; try discriminate; try (intros [= <-]; reflexivity).
  - destruct (String.eqb k "length"); [discriminate|].
    destruct (array_index k); discriminate.
  - destruct (String.eqb k "length"); [discriminate|].
    destruct (array_index k); discriminate.
  - destruct (_ && _); discriminate.
Qed.

Section WithLibrary.
Context {node : Library}.

Lemma sign_object (urlPath : string) (payload : Object) (secret : string) :
  is_undefined (get payload "nonce") = false ->
  generateKrakenSignature urlPath (VObject payload) secret =
  Return (Run.signature_of urlPath payload secret).
Proof.
  intros H. unfold generateKrakenSignature, Run.signature_of. rewrite H.
  cbn [bind]. now rewrite binary_bytes_app, binary_bytes_string.
Qed.

(** What is hashed when the data is a JSON text: the nonce and the text
    itself. *)
Lemma generateKrakenSignature_of_text
  (urlPath text : string) (secret : string) (jsonData nonce : Value) :
  JSON_parse text = Some jsonData ->
  get_property jsonData "nonce" = Return nonce ->
  is_undefined nonce = false ->
  generateKrakenSignature urlPath (VString text) secret =
  Return (base64_encode
            (hmac_sha512 (base64_decode secret)
               (binary_bytes urlPath ++ sha256 (ToString nonce ++ text)))).
Proof.
  intros H1 H2 H3. unfold generateKrakenSignature.
  rewrite H1. cbn [of_option bind]. rewrite H2. cbn [bind]. rewrite H3.
  cbn [bind]. now rewrite binary_bytes_app, binary_bytes_string.
Qed.

(** C1, as the code has it.  For every URL path, every secret and every
    payload whose nonce is a number or a string, the signature is
    [base64(HMAC-SHA512(key = base64-decode(secret),
            message = path bytes ++ SHA256(String(nonce) ++ hashed)))], the
    digest following the path as raw bytes, where [hashed] is the form
    encoding of the whole payload (nonce included) when the payload is given
    as an object, and the text as it stands when it is given as JSON text.
    The string of a number nonce up to [2^53] in magnitude is its decimal
    numeral, the string of a string nonce is the string. *)
Theorem generateKrakenSignature_formula
  (urlPath : string) (data : Value) (secret : string) (nonce : Value) :
  nonce_field data = Some nonce -> number_or_string nonce = true ->
  generateKrakenSignature urlPath data secret =
  Return (base64_encode
            (hmac_sha512 (base64_decode secret)
               (binary_bytes urlPath ++
                sha256 (ToString nonce ++ hashed_text data))))
  /\ (forall object, data = VObject object ->
        nonce = get object "nonce" /\ hashed_text data = stringify object /\
        form_encoding data = Some (hashed_text data))
  /\ (forall text, data = VString text -> hashed_text data = text)
  /\ (forall n, nonce = VNumber n -> Z.abs n <= 2 ^ 53 ->
        ToString nonce = BigInt_toString n)
  /\ (forall text, nonce = VString text -> ToString nonce = text).
Proof.
  intros F T.
  assert (U : is_undefined nonce = false) by (destruct nonce; try discriminate T; reflexivity).
  split; [|split; [|split; [|split]]].
  - unfold nonce_field in F. destruct data as [| |b|n|text|items|object|name];
      try discriminate F.
    + destruct (JSON_parse text) as [jsonData|] eqn:P; [|discriminate F].
      destruct (get_property jsonData "nonce") as [x|e] eqn:G; [|discriminate F].
      injection F as ->. now apply generateKrakenSignature_of_text with jsonData.
    + injection F as <-. subst. discriminate T.
    + injection F as <-. rewrite sign_object by exact U. reflexivity.
    + destruct (String.eqb name "__proto__"); [|discriminate F].
      injection F as <-. discriminate T.
  - intros object ->. cbn in F. injection F as <-. repeat split.
  - intros text ->. reflexivity.
  - intros n -> Hn. cbn [ToString]. unfold Number_toString.
    destruct (Z.leb_spec (Z.abs n) (2 ^ 53)); [reflexivity | lia].
  - intros text ->. reflexivity.
Qed.


End WithLibrary.

Lemma generateKrakenSignature_formula_witness :
  @nonce_field Scenario.plain (VObject [("nonce", VNumber 1762000000000)])
  = Some (VNumber 1762000000000) /\
  @generateKrakenSignature Scenario.plain "/0/private/Balance"
    (VObject [("nonce", VNumber 1762000000000)]) "c2VjcmV0"
  = Return "c2VjcmV0/0/private/Balance1762000000000nonce=1762000000000".
Proof.
  split; [reflexivity|].
  exact (proj1 (@generateKrakenSignature_formula Scenario.plain
                  "/0/private/Balance" (VObject [("nonce", VNumber 1762000000000)])
                  "c2VjcmV0" (VNumber 1762000000000) eq_refl eq_refl)).
Defined.

(** C1, as stated, fails where the payload is given as JSON text: the text
    carries the nonce 7, its form encoding is [nonce=7], and what is signed
    is the nonce followed by the text itself. *)
Lemma generateKrakenSignature_text_is_not_form_encoded :
  @has_nonce Examples.reading (VString Examples.nonce_text) = true /\
  @nonce_field Examples.reading (VString Examples.nonce_text) = Some (VNumber 7) /\
  @form_encoding Examples.reading (VString Examples.nonce_text) = Some "nonce=7" /\
  @generateKrakenSignature Examples.reading "/0/private/Balance"
    (VString Examples.nonce_text) "c2VjcmV0"
  = Return ("c2VjcmV0/0/private/Balance7" ++ Examples.nonce_text) /\
  @generateKrakenSignature Examples.reading "/0/private/Balance"
    (VString Examples.nonce_text) "c2VjcmV0"
  <> Return (@base64_encode Examples.reading
               (@hmac_sha512 Examples.reading
                  (@base64_decode Examples.reading "c2VjcmV0")
                  (binary_bytes "/0/private/Balance" ++
                   @sha256 Examples.reading (ToString (VNumber 7) ++ "nonce=7")))).
Proof.
  repeat (split; [reflexivity|]). intros H. vm_compute in H. discriminate H.
Qed.


End CryptoFacts.

(** ** src/client/KrakenClient.ts: requests *)

Module ClientFacts.
Import Js Node World Client Run NonceFacts.

Lemma lookup_set_same (o : Object) (k : string) (v : Value) :
  lookup (set o k v) k = Some v.
Proof.
  induction o as [|[k' v'] o IH]; cbn.
  - now rewrite String.eqb_refl.
  - destruct (String.eqb_spec k' k) as [->|N]; cbn.
    + now rewrite String.eqb_refl.
    + destruct (String.eqb_spec k' k); [contradiction | exact IH].
Qed.

Lemma lookup_set_other (o : Object) (k k' : string) (v : Value) :
  k <> k' -> lookup (set o k v) k' = lookup o k'.
Proof.
  intros N. induction o as [|[k0 v0] o IH]; cbn.
  - destruct (String.eqb_spec k k'); [contradiction | reflexivity].
  - destruct (String.eqb_spec k0 k) as [->|N0]; cbn.
    + destruct (String.eqb_spec k k'); [contradiction | reflexivity].
    + destruct (String.eqb_spec k0 k'); [reflexivity | exact IH].
Qed.

Lemma get_set_same (o : Object) (k : string) (v : Value) : get (set o k v) k = v.
Proof. unfold get. now rewrite lookup_set_same. Qed.

Lemma get_set_other (o : Object) (k k' : string) (v : Value) :
  k <> k' -> get (set o k v) k' = get o k'.
Proof. intros N. unfold get. now rewrite lookup_set_other. Qed.

(** The payload holds the generated nonce, whatever the caller's body held
    under that name. *)
Lemma payload_nonce (options : RequestOptions) (nonce : Z) :
  get (payload_of options nonce) "nonce" = VNumber nonce.
Proof.
  unfold payload_of. destruct (opt_otp options) as [code|].
  - destruct (String.eqb code "").
    + apply get_set_same.
    + rewrite get_set_other by discriminate. apply get_set_same.
  - apply get_set_same.
Qed.

(** Every other field of the caller's body is carried over. *)
Lemma payload_other (options : RequestOptions) (nonce : Z) (k : string) :
  k <> "nonce" -> k <> "otp" ->
  get (payload_of options nonce) k =
  get (match opt_body options with Some b => b | None => [] end) k.
Proof.
  intros N1 N2. unfold payload_of. destruct (opt_otp options) as [code|].
  - destruct (String.eqb code "").
    + now rewrite get_set_other by congruence.
    + now rewrite !get_set_other by congruence.
  - now rewrite get_set_other by congruence.
Qed.

Section WithLibrary.
Context {node : Library}.

(** [request] in closed form: one clock reading, one request sent, and the
    answer unwrapped. *)
Lemma request_run (this : ref) (endpoint : string) (options : RequestOptions)
  (env : Env) (s : State) (self : KrakenClient) :
  nth_error (heap s) this = Some self ->
  request this endpoint options env s =
  (unwrap (network env (List.length (sent s))),
   after_request this self endpoint options env s).
Proof.
  intros H. unfold request. unfold mbind at 1.
  rewrite (generateNonce_run this env s self H).
  set (n := counter_after self (clock env (readings s))).
  fold (method_of options). fold (payload_of options n).
  unfold mbind, deref, lift, fetch, ret, throw. cbn [heap readings sent].
  rewrite (nth_error_update _ _ _ _ H).
  cbn [secret apiKey baseUrl with_counter].
  rewrite CryptoFacts.sign_object
    by (now rewrite payload_nonce).
  unfold after_request, request_of. fold n. cbn [heap readings sent].
  destruct (network env (List.length (sent s))) as [response|]; cbn [unwrap];
    [|reflexivity].
  destruct (negb (ok response)); [reflexivity|].
  destruct (json response) as [data|]; cbn [of_option]; [|reflexivity].
  destruct (error data) as [[|e es]|]; reflexivity.
Qed.

(** C4.  Once the exchange has answered a call of [request]: a status
    outside 200-299 makes the call fail with an error that carries the status
    code and the response text; a 2xx status with a non-empty [error] array
    makes it fail with an error that carries the joined error strings; a 2xx
    status with an empty or missing [error] makes it return [result].  In the
    two failing cases nothing is returned. *)
Theorem request_outcome (this : ref) (endpoint : string)
  (options : RequestOptions) (env : Env) (s : State) (self : KrakenClient)
  (response : HttpResponse) :
  nth_error (heap s) this = Some self ->
  network env (List.length (sent s)) = Responded response ->
  let r := fst (request this endpoint options env s) in
  (~ 200 <= status response <= 299 ->
   r = Throw (Error ("Kraken API HTTP error: "
                     ++ Number_toString (status response) ++ " "
                     ++ statusText response ++ " - " ++ text response))) /\
  (200 <= status response <= 299 ->
   forall data, json response = Some data ->
     (forall errors, error data = Some errors -> errors <> [] ->
        r = Throw (Error ("Kraken API error: " ++ join ", " errors))) /\
     (error data = None \/ error data = Some [] -> r = Return (result data))).
Proof.
  intros H N r. subst r. rewrite (request_run _ _ _ _ _ _ H), N.
  cbn [fst unwrap]. unfold ok. split.
  - intros Hs.
    destruct (Z.leb_spec 200 (status response));
      destruct (Z.leb_spec (status response) 299); try lia; reflexivity.
  - intros Hs data Hd.
    destruct (Z.leb_spec 200 (status response));
      destruct (Z.leb_spec (status response) 299); try lia.
    cbn [andb negb]. rewrite Hd. split.
    + intros errors He Hne. rewrite He. destruct errors; [congruence | reflexivity].
    + intros [He|He]; now rewrite He.
Qed.

(** C10.  In every call of [request] the payload holds the nonce the call has
    just generated, whatever the caller's body had under that name; the
    API-Sign header is the signature of that payload, and the body that is
    sent (with POST, the default; a GET sends none) is the serialization of
    the same payload, the very string that was hashed after the nonce. *)
Theorem request_payload_nonce (this : ref) (endpoint : string)
  (options : RequestOptions) (env : Env) (s : State) (self : KrakenClient) :
  nth_error (heap s) this = Some self ->
  let nonce := counter_after self (clock env (readings s)) in
  let payload := payload_of options nonce in
  let signature := signature_of endpoint payload (secret self) in
  fst (generateNonce this env s) = Return nonce /\
  get payload "nonce" = VNumber nonce /\
  Crypto.generateKrakenSignature endpoint (VObject payload) (secret self)
  = Return signature /\
  signature =
  base64_encode
    (hmac_sha512 (base64_decode (secret self))
       (binary_bytes endpoint ++
        sha256 (Number_toString nonce ++ stringify payload))) /\
  sent (snd (request this endpoint options env s)) =
  (sent s ++
   [{| url := baseUrl self ++ endpoint;
       method := method_of options;
       headers := [("API-Key", apiKey self);
                   ("API-Sign", signature);
                   ("Content-Type", "application/x-www-form-urlencoded")];
       body := match method_of options with
               | POST => Some (stringify payload)
               | GET => None
               end |}])%list.
Proof.
  intros H nonce payload signature. subst nonce payload signature.
  rewrite (generateNonce_run _ _ _ _ H), (request_run _ _ _ _ _ _ H).
  repeat split.
  - apply payload_nonce.
  - apply CryptoFacts.sign_object. now rewrite payload_nonce.
  - unfold signature_of. now rewrite payload_nonce.
Qed.

End WithLibrary.

Lemma request_outcome_witness :
  fst (@request Scenario.plain 0%nat "/0/private/Balance" no_options
         (Scenario.still (Scenario.failing 500 "Internal Server Error" "down"))
         (Scenario.one_client 0))
  = Throw (Error "Kraken API HTTP error: 500 Internal Server Error - down")
  /\
  fst (@request Scenario.plain 0%nat "/0/private/Withdraw" no_options
         (Scenario.still (Scenario.refusing ["EFunding:Unknown withdraw key"; "EGeneral:Internal error"]))
         (Scenario.one_client 0))
  = Throw (Error "Kraken API error: EFunding:Unknown withdraw key, EGeneral:Internal error").
Proof.
  split.
  - apply (@request_outcome Scenario.plain 0%nat "/0/private/Balance" no_options
             (Scenario.still (Scenario.failing 500 "Internal Server Error" "down"))
             (Scenario.one_client 0) (Scenario.a_client 0)
             {| status := 500; statusText := "Internal Server Error";
                text := "down"; json := None |} eq_refl eq_refl).
    cbn. lia.
  - refine (proj1 (proj2 (@request_outcome Scenario.plain 0%nat "/0/private/Withdraw"
             no_options
             (Scenario.still (Scenario.refusing ["EFunding:Unknown withdraw key"; "EGeneral:Internal error"]))
             (Scenario.one_client 0) (Scenario.a_client 0) _ eq_refl eq_refl) _ _ eq_refl)
             _ eq_refl _).
    + cbn. lia.
    + discriminate.
Defined.

Lemma request_payload_nonce_witness :
  get (payload_of (with_body [("nonce", VString "mine"); ("asset", VString "USD")])
         1762000000000) "nonce" = VNumber 1762000000000
  /\
  map body
    (sent (snd (@request Scenario.plain 0%nat "/0/private/Withdraw"
                  (with_body [("nonce", VString "mine"); ("asset", VString "USD")])
                  (Scenario.still Rejected) (Scenario.one_client 0))))
  = [Some "nonce=1762000000000&asset=USD"].
Proof.
  destruct (@request_payload_nonce Scenario.plain 0%nat "/0/private/Withdraw"
              (with_body [("nonce", VString "mine"); ("asset", VString "USD")])
              (Scenario.still Rejected) (Scenario.one_client 0)
              (Scenario.a_client 0) eq_refl) as (_ & Hn & _ & _ & Hs).
  split; [exact Hn|]. rewrite Hs. reflexivity.
Defined.

End ClientFacts.

(** ** src/index.ts *)

Module IndexFacts.
Import Js Node World Client Api Bigint Index Run NonceFacts ClientFacts.

Lemma eqb_app_prefix (b x y : string) :
  String.eqb (b ++ x) (b ++ y) = String.eqb x y.
Proof.
  induction b as [|c b IH]; cbn; [reflexivity|].
  now rewrite Ascii.eqb_refl.
Qed.

Section WithLibrary.
Context {node : Library}.

Lemma getAssetBalance_run (this : ref) (asset : string) (env : Env) (s : State)
  (self : KrakenClient) :
  nth_error (heap s) this = Some self ->
  getAssetBalance this asset env s =
  (asset_balance asset (network env (List.length (sent s))),
   after_request this self "/0/private/Balance" no_options env s).
Proof.
  intros H. unfold getAssetBalance, getBalance, mbind.
  rewrite (request_run _ _ _ _ _ _ H). unfold asset_balance.
  destruct (unwrap (network env (List.length (sent s)))) as [balance|e];
    cbn [bind]; [|reflexivity].
  unfold lift, ret. destruct (get_property balance asset); reflexivity.
Qed.

Lemma constructor_run (config : KrakenClientConfig) (env : Env) (s : State) :
  String.eqb (config_apiKey config) "" = false ->
  String.eqb (config_secret config) "" = false ->
  constructor config env s =
  (Return (List.length (heap s)),
   {| heap := heap s ++
              [{| apiKey := config_apiKey config;
                  secret := config_secret config;
                  baseUrl := match config_baseUrl config with
                             | Some u => u
                             | None => "https://api.kraken.com"
                             end;
                  nonceCounter := clock env (readings s) |}];
      readings := S (readings s);
      sent := sent s |}).
Proof.
  intros H1 H2. unfold constructor. rewrite H1, H2. reflexivity.
Qed.

Lemma validateConfig_ok (config : AppConfig) :
  validateConfig config = Return tt ->
  String.eqb (config_apiKey (kraken config)) "" = false /\
  String.eqb (config_secret (kraken config)) "" = false.
Proof.
  unfold validateConfig.
  destruct (String.eqb (config_apiKey (kraken config)) ""); [discriminate|].
  destruct (String.eqb (config_secret (kraken config)) ""); [discriminate|].
  intros _. split; reflexivity.
Qed.

Lemma goes_to_request (self : KrakenClient) (base e e' : string)
  (options : RequestOptions) (n : Z) :
  baseUrl self = base ->
  goes_to base e (request_of self e' options n) = String.eqb e' e.
Proof.
  intros <-. unfold goes_to, request_of. cbn [url]. apply eqb_app_prefix.
Qed.

End WithLibrary.

(** Running [main] symbolically: every way through it, with the answers of
    the exchange named in the context and the log of requests spelled out. *)
Ltac step_state :=
  cbn [sent after_request Datatypes.length Datatypes.app readings heap update].

Ltac finish_run :=
  cbn [snd fst sent after_request Datatypes.app mbind ret lift readings heap update].

Ltac run_step3 env config :=
  unfold mbind at 1;
  erewrite (getAssetBalance_run 0%nat "ZUSD" env) by reflexivity;
  step_state;
  let usdBalance := fresh "usdBalance" in
  let B2 := fresh "B2" in
  match goal with
  | |- context [asset_balance "ZUSD" ?a] =>
      destruct (asset_balance "ZUSD" a) as [usdBalance|?] eqn:B2
  end;
  [ unfold mbind at 1, lift at 1;
    let w := fresh "w" in
    let P2 := fresh "P2" in
    destruct (call_parseDecimalToBigInt usdBalance 4) as [w|?] eqn:P2;
    [ unfold mbind at 1, lift at 1; fold (threshold config);
      let limit := fresh "limit" in
      let T1 := fresh "T1" in
      destruct (threshold config) as [limit|?] eqn:T1;
      [ unfold mbind at 1;
        let Hw := fresh "Hw" in
        destruct (Z.geb_spec w limit) as [Hw|Hw];
        [ unfold mbind at 1; unfold withdrawToMercury, withdraw;
          erewrite (request_run 0%nat "/0/private/Withdraw") by reflexivity;
          step_state;
          let W1 := fresh "W1" in
          let withdrawResult := fresh "withdrawResult" in
          match goal with
          | |- context [unwrap ?a] =>
              destruct (unwrap a) as [withdrawResult|?] eqn:W1
          end;
          [ unfold mbind at 1, lift at 1;
            let R1 := fresh "R1" in
            destruct (get_property withdrawResult "refid") eqn:R1 | ]
        | ]
      | ]
    | ]
  | ];
  finish_run.

Ltac run_main env config V :=
  let K1 := fresh "K1" in
  let K2 := fresh "K2" in
  destruct (validateConfig_ok config V) as (K1 & K2);
  unfold main, catch; unfold mbind at 1; unfold lift at 1; rewrite V;
  unfold mbind at 1; rewrite (constructor_run _ _ _ K1 K2);
  cbn [heap readings sent initial Datatypes.length Datatypes.app];
  fold (base_of config);
  unfold mbind at 1;
  erewrite (getAssetBalance_run 0%nat "USDC" env) by reflexivity;
  step_state;
  let usdcBalance := fresh "usdcBalance" in
  let B1 := fresh "B1" in
  destruct (asset_balance "USDC" (network env 0)) as [usdcBalance|?] eqn:B1;
  [ cbn [bind]; unfold mbind at 1, lift at 1;
    let v := fresh "v" in
    let P1 := fresh "P1" in
    destruct (call_parseDecimalToBigInt usdcBalance 8) as [v|?] eqn:P1;
    [ unfold mbind at 1;
      let Hv := fresh "Hv" in
      destruct (Z.gtb_spec v 0) as [Hv|Hv];
      [ unfold mbind at 1; unfold sellUSDCToUSD, placeOrder;
        erewrite (request_run 0%nat "/0/private/AddOrder") by reflexivity;
        step_state;
        let orderResult := fresh "orderResult" in
        let S1 := fresh "S1" in
        destruct (unwrap (network env 1)) as [orderResult|?] eqn:S1;
        [ unfold lift at 1;
          let S2 := fresh "S2" in
          destruct (print_order orderResult) as [[]|?] eqn:S2;
          [ run_step3 env config | finish_run ]
        | finish_run ]
      | unfold ret at 1; run_step3 env config ]
    | finish_run ]
  | finish_run ].

Ltac read_log :=
  cbn [existsb];
  repeat (rewrite goes_to_request by reflexivity);
  cbn [String.eqb Ascii.eqb Bool.eqb orb andb].

Section WithLibrary.
Context {node : Library}.

(** What [main] decides, read off the log of requests. *)
Lemma main_decisions (config : AppConfig) (env : Env) :
  validateConfig config = Return tt ->
  let log := sent (snd (main config env initial)) in
  let sold := existsb (goes_to (base_of config) "/0/private/AddOrder") log in
  let withdrawn := existsb (goes_to (base_of config) "/0/private/Withdraw") log in
  let usdc := asset_units "USDC" 8 (network env 0) in
  (sold = true <-> exists v, usdc = Return v /\ 0 < v) /\
  (forall v, usdc = Return v -> v <= 0 ->
     exists first second rest,
       log = first :: second :: rest /\
       goes_to (base_of config) "/0/private/Balance" second = true) /\
  (forall v usd,
     usdc = Return v ->
     (0 < v -> exists orderResult,
                 unwrap (network env 1) = Return orderResult /\
                 print_order orderResult = Return tt) ->
     asset_units "ZUSD" 4 (network env (if 0 <? v then 2%nat else 1%nat)) = Return usd ->
     (forall limit, threshold config = Return limit ->
        (withdrawn = true <-> limit <= usd)) /\
     (forall e, threshold config = Throw e -> withdrawn = false)).
Proof.
  intros V. cbv zeta. unfold asset_units at 1 2 3.
  remember (sent (snd (main config env initial))) as log eqn:E. revert E.
  run_main env config V; intros ->; cbn [bind]; rewrite ?P1.
  all: read_log.
  all: split; [|split].
  (* a sell order is in the log exactly when the balance is positive *)
  all: try (split;
            [ intros H; first [ discriminate H
                              | eexists; split; [reflexivity | assumption] ]
            | intros (x & Hx & Hpos);
              first [ discriminate Hx
                    | injection Hx as <-; first [reflexivity | lia] ] ]).
  (* without a sale the second request is the fiat balance query *)
  all: try (intros x Hx Hle;
            first [ discriminate Hx
                  | injection Hx as <-;
                    first [ lia
                          | do 3 eexists; split;
                            [ reflexivity
                            | rewrite goes_to_request by reflexivity;
                              reflexivity ] ] ]).
  (* a withdrawal is in the log exactly when the balance reaches the threshold *)
  all: intros x usd Hx Hsell HW;
       first [ discriminate Hx | injection Hx as <- ].
  all: first [ rewrite (proj2 (Z.ltb_lt 0 v) ltac:(assumption)) in HW
             | rewrite (proj2 (Z.ltb_ge 0 v) ltac:(assumption)) in HW ].
  all: try (destruct (Hsell ltac:(assumption)) as (o & Ho & Hp);
            first [ discriminate Ho | injection Ho as <-; congruence ]).
  all: unfold asset_units in HW;
       match goal with
       | H : asset_balance "ZUSD" _ = _ |- _ => rewrite H in HW
       end; cbn [bind] in HW; try discriminate HW.
  all: try congruence.
  all: match goal with
       | H : call_parseDecimalToBigInt ?b 4 = Return ?w,
         H' : call_parseDecimalToBigInt ?b 4 = Return ?u |- _ =>
           assert (u = w) by congruence; subst u
       end.
  all: split;
       [ intros limit' HT; first [ discriminate HT | injection HT as <- ];
         split; intros H; first [reflexivity | assumption | discriminate H | lia]
       | intros e' HT; first [ discriminate HT | reflexivity ] ].
Qed.

(** Every withdrawal [main] sends names the key "Mercury" and the whole fiat
    balance it has just read, whatever key the configuration holds. *)
Lemma main_withdrawal_request (config : AppConfig) (env : Env) (r : HttpRequest) :
  validateConfig config = Return tt ->
  In r (sent (snd (main config env initial))) ->
  goes_to (base_of config) "/0/private/Withdraw" r = true ->
  exists amount nonce i,
    asset_balance "ZUSD" (network env i) = Return amount /\
    body r = Some (stringify [("asset", VString "USD");
                              ("key", VString "Mercury");
                              ("amount", amount);
                              ("nonce", VNumber nonce)]).
Proof.
  intros V. remember (sent (snd (main config env initial))) as log eqn:E.
  revert E. run_main env config V; intros -> Hin Hgo; cbn [In] in Hin.
  all: repeat match goal with
       | H : _ \/ _ |- _ => destruct H as [H|H]
       | H : False |- _ => destruct H
       end; subst r.
  all: rewrite goes_to_request in Hgo by reflexivity; try discriminate Hgo.
  all: do 3 eexists; split; [eassumption | reflexivity].
Qed.

(** The configured withdrawal key has no part in what [main] does. *)
Lemma main_ignores_withdrawal_key (config : AppConfig) (key : string) :
  usdWithdrawalKey config <> "" -> key <> "" ->
  main {| kraken := kraken config;
          minimumWithdrawalUSD := minimumWithdrawalUSD config;
          usdWithdrawalKey := key |}
  = main config.
Proof.
  intros H1 H2. unfold main, validateConfig.
  cbn [kraken minimumWithdrawalUSD usdWithdrawalKey].
  destruct (String.eqb_spec (usdWithdrawalKey config) ""); [contradiction|].
  destruct (String.eqb_spec key ""); [contradiction|].
  reflexivity.
Qed.

(** C6, at a configuration whose withdrawal key is "MyBank".  The fiat
    balance of 50.0000 is above the threshold of 10 dollars, and the
    withdrawal request that goes out names the key "Mercury", not the
    configured one. *)
Theorem main_withdraws_to_Mercury :
  let config := Scenario.config_with_key "MyBank" in
  let env := Scenario.still (Scenario.success Scenario.balances) in
  validateConfig config = Return tt /\
  usdWithdrawalKey config = "MyBank" /\
  map (fun r => (url r, body r)) (sent (snd (main config env initial))) =
  [("https://api.kraken.com/0/private/Balance",
    Some (stringify [("nonce", VNumber 1762000000001)]));
   ("https://api.kraken.com/0/private/Balance",
    Some (stringify [("nonce", VNumber 1762000000002)]));
   ("https://api.kraken.com/0/private/Withdraw",
    Some (stringify [("asset", VString "USD");
                     ("key", VString "Mercury");
                     ("amount", VString "50.0000");
                     ("nonce", VNumber 1762000000003)]))].
Proof. repeat split. Qed.

(** C5, at a threshold of 19.99 dollars.  The configuration is the one
    [loadConfig] returns for MINIMUM_WITHDRAWAL_USD=19.99, and
    [validateConfig] accepts it; there is nothing to sell, and the fiat
    balance of 50.0000 is 500000 at 4 places, above the threshold of 199900
    at the same scale.  But [main] computes the threshold as
    [BigInt(19.99 * 10_000)]: the product of the two numbers is
    199899.99999999997, not an integer, [BigInt] throws a RangeError, and the
    run ends with exit code 1 after the two balance queries, without a
    withdrawal. *)
Theorem main_misses_fractional_threshold :
  let env := Scenario.still (Scenario.success Scenario.balances) in
  exists config,
    Config.loadConfig Examples.fractional_threshold = Return config /\
    validateConfig config = Return tt /\
    minimumWithdrawalUSD config = StringToNumber "19.99" /\
    Spec.parse "19.99" 4 = Return 199900 /\
    asset_units "USDC" 8 (network env 0) = Return 0 /\
    asset_units "ZUSD" 4 (network env 1) = Return 500000 /\
    199900 <= 500000 /\
    number_mul (minimumWithdrawalUSD config) (Whole 10000)
    = Binary 3434255849881599 35 /\
    threshold config = Throw RangeError /\
    fst (main config env initial) = Return (Exited 1) /\
    map (fun r => (url r, body r)) (sent (snd (main config env initial))) =
    [("https://api.kraken.com/0/private/Balance",
      Some (stringify [("nonce", VNumber 1762000000001)]));
     ("https://api.kraken.com/0/private/Balance",
      Some (stringify [("nonce", VNumber 1762000000002)]))].
Proof.
  eexists. split; [reflexivity|].
  repeat (split; [reflexivity|]). split; [lia|].
  repeat (split; [reflexivity|]). reflexivity.
Qed.

End WithLibrary.

(** The scenario of a sale followed by a withdrawal, run with the stand-in
    library: four requests, the sale for the whole USDC balance, the
    withdrawal for the whole fiat balance. *)
Example main_sale_and_withdrawal :
  let run := @main Scenario.plain (Scenario.config_with_key "Mercury")
               Scenario.sale_and_withdrawal initial in
  fst run = Return Completed /\
  map (fun r => (url r, body r)) (sent (snd run)) =
  [("https://api.kraken.com/0/private/Balance",
    Some "nonce=1762000000001");
   ("https://api.kraken.com/0/private/AddOrder",
    Some "type=sell&ordertype=market&pair=USDCUSD&volume=100.00000000&nonce=1762000000002");
   ("https://api.kraken.com/0/private/Balance",
    Some "nonce=1762000000003");
   ("https://api.kraken.com/0/private/Withdraw",
    Some "asset=USD&key=Mercury&amount=50.0000&nonce=1762000000004")].
Proof. split; reflexivity. Qed.

End IndexFacts.

(* ================================================================== *)
(** * Part III: further properties of the embedded code *)
(* ================================================================== *)

(** ** src/utils/bigint.ts: the numbers behind the strings *)

Module BigintValues.
Import Js Bigint JsFacts BigintFacts.

Lemma of_uint_acc_value (l : uint) :
  forall acc : positive,
    Z.pos (Pos.of_uint_acc l acc) =
    Z.pos acc * 10 ^ Z.of_nat (nb_digits l) + Z.of_N (Pos.of_uint l).
Proof.
  assert (P : forall n : nat, 10 ^ Z.of_nat (S n) = 10 * 10 ^ Z.of_nat n)
    by (intros n; rewrite Nat2Z.inj_succ, Z.pow_succ_r by lia; reflexivity).
  induction l; intros acc; cbn [Pos.of_uint_acc Pos.of_uint nb_digits];
    rewrite ?P; [cbn; lia | rewrite IHl, Pos2Z.inj_mul; ring | ..];
    rewrite IHl, N2Z.inj_pos, IHl, Pos2Z.inj_add, Pos2Z.inj_mul; ring.
Qed.

Lemma uint_of_digits (s : string) :
  all_digits s = true ->
  exists u, NilEmpty.uint_of_string s = Some u /\ nb_digits u = String.length s.
Proof.
  induction s as [|c s IH]; cbn [all_digits NilEmpty.uint_of_string String.length].
  - intros _. now exists Nil.
  - intros H. apply andb_true_iff in H as [Hc Hs].
    destruct (IH Hs) as (u & -> & L).
    destruct c as [[|] [|] [|] [|] [|] [|] [|] [|]]; try discriminate Hc;
      cbn; eexists; split; try reflexivity; cbn; now rewrite L.
Qed.

(** The first digit weighs ten to the number of digits behind it. *)
Lemma digits_value_cons (c : ascii) (r : string) :
  is_digit c = true -> all_digits r = true ->
  digits_value (String c r) =
  (Z.of_nat (nat_of_ascii c) - 48) * 10 ^ len r + digits_value r.
Proof.
  intros Hc Hr. destruct (uint_of_digits r Hr) as (u & E & L).
  unfold digits_value, len. cbn [NilEmpty.uint_of_string]. rewrite E, <- L.
  destruct c as [[|] [|] [|] [|] [|] [|] [|] [|]]; try discriminate Hc;
    cbn [uint_of_char]; unfold Z.of_uint; cbn [Pos.of_uint];
    rewrite ?N2Z.inj_pos, ?of_uint_acc_value;
    set (P := 10 ^ Z.of_nat (nb_digits u)); set (V := Z.of_N (Pos.of_uint u));
    match goal with
    | |- context [Z.of_nat (nat_of_ascii ?a)] =>
        let v := eval vm_compute in (Z.of_nat (nat_of_ascii a)) in
        change (Z.of_nat (nat_of_ascii a)) with v
    end; lia.
Qed.

Lemma digits_value_app (a b : string) :
  all_digits a = true -> all_digits b = true ->
  digits_value (a ++ b) = digits_value a * 10 ^ len b + digits_value b.
Proof.
  intros Ha Hb. induction a as [|c a IH].
  - change ("" ++ b) with b. change (digits_value "") with 0. lia.
  - cbn [all_digits] in Ha. apply andb_true_iff in Ha as [Hc Ha].
    cbn [append]. rewrite !digits_value_cons, (IH Ha), len_app;
      try assumption; [|now rewrite all_digits_app, Ha, Hb].
    rewrite Z.pow_add_r by apply len_nonneg. ring.
Qed.

Lemma digits_value_bounds (s : string) :
  all_digits s = true -> 0 <= digits_value s < 10 ^ len s.
Proof.
  induction s as [|c s IH]; [intros _; cbn; lia|].
  intros H. pose proof H as H'. cbn [all_digits] in H.
  apply andb_true_iff in H as [Hc Hs]. specialize (IH Hs).
  rewrite (digits_value_cons c s Hc Hs).
  assert (D : 0 <= Z.of_nat (nat_of_ascii c) - 48 <= 9).
  { unfold is_digit in Hc. apply andb_true_iff in Hc as [H1 H2].
    apply Nat.leb_le in H1, H2. lia. }
  replace (len (String c s)) with (Z.succ (len s)) by (unfold len; cbn; lia).
  rewrite Z.pow_succ_r by apply len_nonneg. nia.
Qed.

Lemma digits_value_zeros (n : nat) : digits_value (repeat_char "0" n) = 0.
Proof.
  rewrite <- (app_empty_r (repeat_char "0" n)), digits_value_zeros_l.
  reflexivity.
Qed.

Lemma take_within (n : nat) (a b : string) :
  (n <= String.length a)%nat -> take n (a ++ b) = take n a.
Proof.
  revert a. induction n as [|n IH]; intros [|c a] H; cbn in *;
    try reflexivity; try lia.
  f_equal. apply IH. lia.
Qed.

Lemma len_take_pad (f : string) (s : Z) :
  0 <= s ->
  len (take (Z.to_nat s) (f ++ repeat_char "0" (Z.to_nat s - String.length f))) = s.
Proof.
  intros H. unfold len. rewrite length_take, length_app, length_repeat_char. lia.
Qed.

(** The padded and cut fraction is worth [f * 10^s / 10^(length f)], rounded
    down. *)
Lemma padded_fraction_value (f : string) (s : Z) :
  0 <= s -> all_digits f = true ->
  digits_value (take (Z.to_nat s)
                  (f ++ repeat_char "0" (Z.to_nat s - String.length f)))
  = digits_value f * 10 ^ s / 10 ^ len f.
Proof.
  intros Hs Hf. pose proof (len_nonneg f) as Lf.
  destruct (Z.le_gt_cases (len f) s) as [Hle|Hgt].
  - rewrite take_all by (rewrite length_app, length_repeat_char; unfold len in *; lia).
    rewrite digits_value_app, digits_value_zeros, Z.add_0_r
      by (try assumption; apply all_digits_repeat_zero).
    replace (len (repeat_char "0" (Z.to_nat s - String.length f))) with (s - len f)
      by (unfold len; rewrite length_repeat_char; unfold len in *; lia).
    replace (10 ^ s) with (10 ^ (s - len f) * 10 ^ len f)
      by (rewrite <- Z.pow_add_r by lia; f_equal; lia).
    rewrite Z.mul_assoc, Z.div_mul by (apply Z.pow_nonzero; lia). reflexivity.
  - rewrite take_within by (unfold len in *; lia).
    pose proof (take_drop (Z.to_nat s) f) as TD.
    assert (Ht : all_digits (take (Z.to_nat s) f) = true) by now apply all_digits_take.
    assert (Hd : all_digits (drop (Z.to_nat s) f) = true) by now apply all_digits_drop.
    pose proof (digits_value_app _ _ Ht Hd) as V. rewrite TD in V.
    pose proof (digits_value_bounds _ Hd) as B.
    assert (Ld : len (drop (Z.to_nat s) f) = len f - s)
      by (unfold len; rewrite length_drop; unfold len in *; lia).
    rewrite Ld in V, B.
    replace (10 ^ len f) with (10 ^ s * 10 ^ (len f - s))
      by (rewrite <- Z.pow_add_r by lia; f_equal; lia).
    rewrite (Z.mul_comm (10 ^ s)), Z.div_mul_cancel_r
      by (apply Z.pow_nonzero; lia).
    rewrite V. apply Z.div_unique with (r := digits_value (drop (Z.to_nat s) f)).
    + left. lia.
    + ring.
Qed.

Lemma parse_value (w f : string) (s : Z) :
  0 <= s -> all_digits w = true -> all_digits f = true ->
  parseDecimalToBigInt (w ++ "." ++ f) s =
  Return (digits_value w * 10 ^ s + digits_value f * 10 ^ s / 10 ^ len f) /\
  parseDecimalToBigInt w s = Return (digits_value w * 10 ^ s).
Proof.
  intros Hs Hw Hf.
  assert (P : forall g, all_digits g = true ->
            BigInt (w ++ slice (padEnd g s "0") 0 s) =
            Return (digits_value w * 10 ^ s + digits_value g * 10 ^ s / 10 ^ len g)).
  { intros g Hg. rewrite padEnd_slice by assumption.
    assert (Hp : all_digits
                   (take (Z.to_nat s)
                      (g ++ repeat_char "0" (Z.to_nat s - String.length g))) = true).
    { apply all_digits_take. rewrite all_digits_app, Hg.
      apply all_digits_repeat_zero. }
    rewrite BigInt_digits by now rewrite all_digits_app, Hw, Hp.
    now rewrite digits_value_app, len_take_pad, padded_fraction_value. }
  split; unfold parseDecimalToBigInt.
  - change (w ++ "." ++ f) with (w ++ String "." f).
    rewrite split_digits_dot, split_digits by assumption. cbn [nth].
    now apply P.
  - rewrite split_digits by assumption. cbn [nth].
    rewrite (P "" eq_refl). change (digits_value "") with 0.
    now rewrite Z.mul_0_l, Z.div_0_l, Z.add_0_r by (apply Z.pow_nonzero; cbn; lia).
Qed.

(** X1.  What [parseDecimalToBigInt] computes, as a number: for digits [w],
    a point and digits [f], at every scale [s >= 0], the result is
    [w * 10^s + floor(f * 10^s / 10^(length f))]; digits of the fraction
    beyond the scale are cut off, never rounded.  Without a point the result
    is [w * 10^s]. *)
Theorem parseDecimalToBigInt_value (w f : string) (s : Z) :
  0 <= s -> all_digits w = true -> all_digits f = true ->
  parseDecimalToBigInt (w ++ "." ++ f) s =
  Return (digits_value w * 10 ^ s + digits_value f * 10 ^ s / 10 ^ len f) /\
  parseDecimalToBigInt w s = Return (digits_value w * 10 ^ s).
Proof. apply parse_value. Qed.

Lemma parseDecimalToBigInt_value_witness :
  parseDecimalToBigInt ("12" ++ "." ++ "3456") 2 = Return 1234 /\
  digits_value "12" * 10 ^ 2 + digits_value "3456" * 10 ^ 2 / 10 ^ len "3456"
  = 1234.
Proof.
  split; [|reflexivity].
  exact (proj1 (parseDecimalToBigInt_value "12" "3456" 2 ltac:(lia) eq_refl eq_refl)).
Defined.

(** X2.  Whatever follows a second decimal point is ignored: after digits, a
    point and digits, any text at all, digits or not, leaves the result as it
    is, and nothing is reported. *)
Theorem parseDecimalToBigInt_second_point (w f rest : string) (s : Z) :
  all_digits w = true -> all_digits f = true ->
  parseDecimalToBigInt (w ++ "." ++ f ++ "." ++ rest) s =
  parseDecimalToBigInt (w ++ "." ++ f) s.
Proof.
  intros Hw Hf. unfold parseDecimalToBigInt.
  change (w ++ "." ++ f ++ "." ++ rest) with (w ++ String "." (f ++ String "." rest)).
  change (w ++ "." ++ f) with (w ++ String "." f).
  rewrite (split_digits_dot w (f ++ String "." rest) Hw).
  rewrite (split_digits_dot f rest Hf).
  rewrite (split_digits_dot w f Hw), (split_digits f Hf). reflexivity.
Qed.

Lemma parseDecimalToBigInt_second_point_witness :
  parseDecimalToBigInt ("1" ++ "." ++ "2" ++ "." ++ "x-3") 2 = Return 120.
Proof.
  rewrite (parseDecimalToBigInt_second_point "1" "2" "x-3" 2 eq_refl eq_refl).
  reflexivity.
Defined.

Lemma split_minus (r : string) :
  split "." (String "-" r) =
  match split "." r with
  | h :: t => String "-" h :: t
  | [] => ["-"]
  end.
Proof. reflexivity. Qed.

Lemma BigInt_minus_digits (d : string) :
  all_digits d = true -> d <> "" ->
  BigInt (String "-" d) = Return (- digits_value d).
Proof.
  intros H N. unfold BigInt.
  assert (T : trim (String "-" d) = String "-" d).
  { unfold trim. cbn [trim_start]. change (is_whitespace "-") with false.
    cbn [trim_end]. change (is_whitespace "-") with false. cbn [andb].
    now rewrite trim_end_digits. }
  rewrite T. cbn [radix_literal].
  now rewrite decimal_digits_value.
Qed.

(** X3.  A minus sign in front is carried through: the digits are read as
    above and the result is negated, so the cut is toward zero on both
    sides. *)
Theorem parseDecimalToBigInt_negative (w f : string) (s : Z) :
  0 <= s -> all_digits w = true -> all_digits f = true -> w <> "" ->
  parseDecimalToBigInt ("-" ++ w ++ "." ++ f) s =
  Return (- (digits_value w * 10 ^ s + digits_value f * 10 ^ s / 10 ^ len f)).
Proof.
  intros Hs Hw Hf N. unfold parseDecimalToBigInt.
  change ("-" ++ w ++ "." ++ f) with (String "-" (w ++ String "." f)).
  rewrite split_minus, split_digits_dot, split_digits by assumption.
  cbn [nth]. rewrite padEnd_slice by assumption.
  set (p := take (Z.to_nat s)
              (f ++ repeat_char "0" (Z.to_nat s - String.length f))).
  assert (Hp : all_digits p = true).
  { apply all_digits_take. rewrite all_digits_app, Hf.
    apply all_digits_repeat_zero. }
  change (String "-" w ++ p) with (String "-" (w ++ p)).
  rewrite BigInt_minus_digits.
  - unfold p. now rewrite digits_value_app, len_take_pad, padded_fraction_value.
  - now rewrite all_digits_app, Hw, Hp.
  - destruct w; [congruence | discriminate].
Qed.

Lemma parseDecimalToBigInt_negative_witness :
  parseDecimalToBigInt ("-" ++ "1" ++ "." ++ "259") 2 = Return (- 125).
Proof.
  exact (parseDecimalToBigInt_negative "1" "259" 2 ltac:(lia) eq_refl eq_refl
           ltac:(discriminate)).
Defined.

(** X4.  What [bigIntToDecimal] prints, as numbers: for [u >= 0] at a scale
    [s >= 1] the result is digits, a point and exactly [s] digits; the digits
    before the point are not empty and are worth [u / 10^s], those behind it
    [u mod 10^s]. *)
Theorem bigIntToDecimal_value (u s : Z) :
  0 <= u -> 1 <= s ->
  exists w f,
    bigIntToDecimal u s = w ++ "." ++ f /\
    all_digits w = true /\ all_digits f = true /\
    w <> "" /\ len f = s /\
    digits_value w = u / 10 ^ s /\ digits_value f = u mod 10 ^ s.
Proof.
  intros Hu Hs. unfold bigIntToDecimal.
  set (str := padStart (BigInt_toString u) (s + 1) "0").
  pose proof (padStart_length (BigInt_toString u) s ltac:(lia)) as L.
  fold str in L.
  assert (Hstr : all_digits str = true).
  { unfold str, padStart. rewrite all_digits_app, all_digits_repeat_zero.
    now apply all_digits_toString. }
  assert (Vstr : digits_value str = u).
  { unfold str, padStart. rewrite digits_value_zeros_l.
    now apply digits_value_toString. }
  rewrite slice_all_but_last, slice_last by lia.
  set (k := (String.length str - Z.to_nat s)%nat).
  assert (Hk : (1 <= k)%nat) by (unfold k, len in *; lia).
  assert (Ne : take k str <> "").
  { intros E. apply (f_equal String.length) in E. rewrite length_take in E.
    cbn in E. unfold k, len in *. lia. }
  assert (Hw : or_else (take k str) "0" = take k str).
  { unfold or_else. destruct (String.eqb_spec (take k str) ""); [contradiction|].
    reflexivity. }
  rewrite Hw.
  assert (Ht : all_digits (take k str) = true) by now apply all_digits_take.
  assert (Hd : all_digits (drop k str) = true) by now apply all_digits_drop.
  assert (Ld : len (drop k str) = s)
    by (unfold len; rewrite length_drop; unfold k, len in *; lia).
  pose proof (digits_value_app _ _ Ht Hd) as V.
  rewrite take_drop, Vstr, Ld in V.
  pose proof (digits_value_bounds _ Hd) as B. rewrite Ld in B.
  exists (take k str), (drop k str).
  repeat (split; [assumption || reflexivity|]). split.
  - apply Z.div_unique with (r := digits_value (drop k str)); [left; lia | lia].
  - apply Z.mod_unique with (q := digits_value (take k str)); [left; lia | lia].
Qed.

Lemma bigIntToDecimal_value_witness :
  exists w f,
    bigIntToDecimal 1050 2 = w ++ "." ++ f /\
    all_digits w = true /\ all_digits f = true /\
    w <> "" /\ len f = 2 /\
    digits_value w = 1050 / 10 ^ 2 /\ digits_value f = 1050 mod 10 ^ 2.
Proof. apply (bigIntToDecimal_value 1050 2); lia. Defined.

(** X5.  From one decimal place on, parsing what [bigIntToDecimal] printed,
    at the same scale, gives the amount back. *)
Theorem roundtrip_positive_scale (u s : Z) :
  0 <= u -> 1 <= s ->
  parseDecimalToBigInt (bigIntToDecimal u s) s = Return u.
Proof.
  apply roundtrip_from_scale_one.
Qed.

Lemma roundtrip_positive_scale_witness :
  parseDecimalToBigInt (bigIntToDecimal 36614886400 8) 8 = Return 36614886400.
Proof. apply roundtrip_positive_scale; lia. Defined.

(** The numeral of a negative amount: a minus sign and the digits of its
    absolute value. *)
Lemma toString_negative (u : Z) :
  u < 0 ->
  let d := BigInt_toString (- u) in
  BigInt_toString u = String "-" d /\ all_digits d = true /\ d <> "" /\
  digits_value d = - u.
Proof.
  intros H. destruct u as [|p|p]; try lia. cbv zeta.
  change (- Z.neg p) with (Z.pos p).
  split; [reflexivity|]. split; [apply all_digits_toString; lia|].
  pose proof (digits_value_toString (Z.pos p) ltac:(lia)) as V.
  split; [|exact V]. intros E. rewrite E in V. discriminate V.
Qed.

Lemma split_zeros_minus (k : nat) (d : string) :
  all_digits d = true ->
  split "." (repeat_char "0" k ++ String "-" d) =
  [repeat_char "0" k ++ String "-" d].
Proof.
  intros H. induction k as [|k IH].
  - cbn [repeat_char append]. now rewrite split_minus, split_digits.
  - cbn [repeat_char append split]. change (Ascii.eqb "0" ".") with false.
    now rewrite IH.
Qed.

Lemma trim_end_zeros_minus (k : nat) (d : string) :
  all_digits d = true ->
  trim_end (repeat_char "0" k ++ String "-" d) =
  repeat_char "0" k ++ String "-" d.
Proof.
  intros H. induction k as [|k IH].
  - cbn [repeat_char append trim_end]. change (is_whitespace "-") with false.
    cbn [andb]. now rewrite trim_end_digits.
  - cbn [repeat_char append trim_end]. change (is_whitespace "0") with false.
    cbn [andb]. now rewrite IH.
Qed.

Lemma uint_of_zeros_minus (k : nat) (d : string) :
  NilEmpty.uint_of_string (repeat_char "0" k ++ String "-" d) = None.
Proof.
  induction k as [|k IH]; cbn [repeat_char append NilEmpty.uint_of_string].
  - destruct (NilEmpty.uint_of_string d); reflexivity.
  - now rewrite IH.
Qed.

(** A minus sign behind a zero is no numeral. *)
Lemma BigInt_zeros_minus (k : nat) (d : string) :
  all_digits d = true ->
  BigInt (String "0" (repeat_char "0" k ++ String "-" d)) = Throw SyntaxError.
Proof.
  intros H. unfold BigInt.
  assert (T : trim (String "0" (repeat_char "0" k ++ String "-" d))
              = String "0" (repeat_char "0" k ++ String "-" d)).
  { unfold trim. cbn [trim_start]. change (is_whitespace "0") with false.
    cbn [trim_end]. change (is_whitespace "0") with false. cbn [andb].
    now rewrite trim_end_zeros_minus. }
  rewrite T.
  assert (R : radix_literal (String "0" (repeat_char "0" k ++ String "-" d)) = None)
    by (destruct k; reflexivity).
  rewrite R. unfold decimal_digits.
  cbn [NilEmpty.uint_of_string]. rewrite uint_of_zeros_minus. reflexivity.
Qed.

(** X6.  Negative amounts.  [bigIntToDecimal] pads the numeral together with
    its minus sign: when the absolute value has at least as many digits as
    the scale, the sign stays in front and parsing the result gives the
    amount back; when it has fewer, the zeros are put before the sign, the
    result is "0." followed by zeros, the minus sign and the digits, and
    parsing it is a SyntaxError. *)
Theorem bigIntToDecimal_negative (u s : Z) :
  u < 0 -> 1 <= s ->
  let d := BigInt_toString (- u) in
  (s <= len d ->
   parseDecimalToBigInt (bigIntToDecimal u s) s = Return u) /\
  (len d < s ->
   bigIntToDecimal u s =
   "0." ++ repeat_char "0" (Z.to_nat (s - len d - 1)) ++ "-" ++ d /\
   parseDecimalToBigInt (bigIntToDecimal u s) s = Throw SyntaxError).
Proof.
  intros Hu Hs. destruct (toString_negative u Hu) as (E & Hd & Ne & V).
  cbv zeta. set (d := BigInt_toString (- u)) in *.
  unfold bigIntToDecimal. rewrite E. split.
  - intros L.
    assert (P : padStart (String "-" d) (s + 1) "0" = String "-" d).
    { unfold padStart.
      replace (Z.to_nat (s + 1 - len (String "-" d))) with O
        by (unfold len in *; cbn [String.length]; lia).
      reflexivity. }
    rewrite P.
    rewrite slice_all_but_last, slice_last
      by (unfold len in *; cbn [String.length]; lia).
    cbn [String.length].
    replace (S (String.length d) - Z.to_nat s)%nat
      with (S (String.length d - Z.to_nat s)) by (unfold len in *; lia).
    set (k := (String.length d - Z.to_nat s)%nat). cbn [take drop].
    cbn [or_else String.eqb]. unfold parseDecimalToBigInt.
    change (String "-" (take k d) ++ "." ++ drop k d)
      with (String "-" (take k d ++ String "." (drop k d))).
    rewrite split_minus, split_digits_dot, split_digits
      by (now apply all_digits_take || now apply all_digits_drop).
    cbn [nth]. rewrite padEnd_slice by lia.
    assert (Ld : String.length (drop k d) = Z.to_nat s)
      by (rewrite length_drop; unfold k, len in *; lia).
    rewrite Ld, Nat.sub_diag. cbn [repeat_char]. rewrite app_empty_r.
    rewrite (take_all (Z.to_nat s) (drop k d)) by lia.
    change (String "-" (take k d) ++ drop k d)
      with (String "-" (take k d ++ drop k d)).
    rewrite take_drop, BigInt_minus_digits by assumption.
    f_equal. lia.
  - intros L.
    assert (P : padStart (String "-" d) (s + 1) "0" =
                String "0" (repeat_char "0" (Z.to_nat (s - len d - 1))
                            ++ String "-" d)).
    { unfold padStart.
      replace (Z.to_nat (s + 1 - len (String "-" d)))
        with (S (Z.to_nat (s - len d - 1)))
        by (unfold len in *; cbn [String.length]; lia).
      reflexivity. }
    rewrite P.
    change ("0." ++ repeat_char "0" (Z.to_nat (s - len d - 1)) ++ "-" ++ d)
      with ("0." ++ (repeat_char "0" (Z.to_nat (s - len d - 1)) ++ String "-" d)).
    pose proof (split_zeros_minus (Z.to_nat (s - len d - 1)) d Hd) as Sp.
    pose proof (BigInt_zeros_minus (Z.to_nat (s - len d - 1)) d Hd) as B.
    assert (Lr : String.length (repeat_char "0" (Z.to_nat (s - len d - 1))
                                ++ String "-" d) = Z.to_nat s).
    { rewrite length_app, length_repeat_char. cbn [String.length].
      unfold len in *. lia. }
    set (rest := repeat_char "0" (Z.to_nat (s - len d - 1)) ++ String "-" d) in *.
    clearbody rest.
    rewrite slice_all_but_last, slice_last
      by (unfold len; cbn [String.length]; lia).
    cbn [String.length]. rewrite Lr.
    replace (S (Z.to_nat s) - Z.to_nat s)%nat with 1%nat by lia.
    cbn [take drop or_else String.eqb Ascii.eqb Bool.eqb].
    split; [reflexivity|].
    unfold parseDecimalToBigInt.
    change ("0" ++ "." ++ rest) with ("0" ++ String "." rest).
    rewrite split_digits_dot by reflexivity. rewrite Sp.
    cbn [nth]. rewrite padEnd_slice by lia.
    rewrite Lr, Nat.sub_diag. cbn [repeat_char]. rewrite app_empty_r.
    rewrite (take_all (Z.to_nat s) rest) by lia.
    exact B.
Qed.

Lemma bigIntToDecimal_negative_witness :
  bigIntToDecimal (- 5) 3 = "0.0-5" /\
  parseDecimalToBigInt (bigIntToDecimal (- 5) 3) 3 = Throw SyntaxError.
Proof.
  apply (bigIntToDecimal_negative (- 5) 3); [lia | lia | cbn; lia].
Defined.

End BigintValues.

(** ** src/utils/crypto.ts: a JSON text as the data *)

Module CryptoText.
Import Js Node Crypto CryptoFacts.

Section WithLibrary.
Context {node : Library}.


End WithLibrary.


End CryptoText.

(** ** src/client/KrakenClient.ts: the constructor, the counter, the log *)

Module ClientState.
Import Js Node World Client Run NonceFacts ClientFacts.

Lemma nth_error_update_other {A} (l : list A) (i j : nat) (x : A) :
  i <> j -> nth_error (update l i x) j = nth_error l j.
Proof.
  revert i j. induction l as [|a l IH]; intros [|i] [|j] N; cbn;
    try reflexivity; try congruence.
  apply IH. congruence.
Qed.

Lemma nth_error_app_old {A} (l : list A) (x : A) (i : nat) :
  (i < List.length l)%nat -> nth_error (l ++ [x]) i = nth_error l i.
Proof. intros H. now apply nth_error_app1. Qed.

Lemma nth_error_app_new {A} (l : list A) (x : A) :
  nth_error (l ++ [x]) (List.length l) = Some x.
Proof. rewrite nth_error_app2, Nat.sub_diag by lia. reflexivity. Qed.

Lemma counter_after_bounds (self : KrakenClient) (t : Z) :
  - 2 ^ 53 <= nonceCounter self < 2 ^ 53 ->
  nonceCounter self < counter_after self t /\ t <= counter_after self t.
Proof.
  intros H. rewrite counter_after_next by assumption. unfold next.
  destruct (Z.gtb_spec t (nonceCounter self)); lia.
Qed.

(** X8.  The constructor checks the API key first and the secret second, and
    a refused configuration reads no clock and allocates nothing.  An accepted
    one reads the clock once, sends nothing and leaves the clients that exist
    as they are; the new client holds the credentials, the base URL given or
    else https://api.kraken.com, and the clock reading as its counter, so
    that its first nonce is strictly later than the time of its
    construction. *)
Theorem constructor_fresh_client (config : KrakenClientConfig) (env : Env)
  (s : State) :
  (config_apiKey config = "" ->
   constructor config env s = (Throw (Error "API key is required"), s)) /\
  (config_apiKey config <> "" -> config_secret config = "" ->
   constructor config env s = (Throw (Error "Secret key is required"), s)) /\
  (config_apiKey config <> "" -> config_secret config <> "" ->
   let this := List.length (heap s) in
   let s' := snd (constructor config env s) in
   let created := clock env (readings s) in
   fst (constructor config env s) = Return this /\
   nth_error (heap s') this =
   Some {| apiKey := config_apiKey config;
           secret := config_secret config;
           baseUrl := match config_baseUrl config with
                      | Some u => u
                      | None => "https://api.kraken.com"
                      end;
           nonceCounter := created |} /\
   (forall other, (other < this)%nat ->
      nth_error (heap s') other = nth_error (heap s) other) /\
   readings s' = S (readings s) /\ sent s' = sent s /\
   (- 2 ^ 53 <= created < 2 ^ 53 ->
    exists nonce, fst (generateNonce this env s') = Return nonce /\
                  created < nonce)).
Proof.
  split; [|split].
  - intros E. unfold constructor. now rewrite E.
  - intros N E. unfold constructor. rewrite E.
    destruct (String.eqb_spec (config_apiKey config) ""); [contradiction|].
    reflexivity.
  - intros N1 N2. cbv zeta.
    rewrite (IndexFacts.constructor_run config env s)
      by (apply String.eqb_neq; assumption).
    cbn [fst snd heap readings sent].
    split; [reflexivity|]. split; [apply nth_error_app_new|].
    split; [intros other H; now apply nth_error_app_old|].
    split; [reflexivity|]. split; [reflexivity|].
    intros R. eexists. split.
    + erewrite generateNonce_run by (cbn [heap]; apply nth_error_app_new).
      reflexivity.
    + cbn [readings].
      match goal with
      | |- _ < counter_after ?c ?t =>
          apply (proj1 (counter_after_bounds c t R))
      end.
Qed.

Lemma constructor_fresh_client_witness :
  let config := {| config_apiKey := "key"; config_secret := "c2VjcmV0";
                   config_baseUrl := None |} in
  let s' := snd (constructor config (Scenario.still Rejected) Index.initial) in
  heap s' = [Scenario.a_client 1762000000000] /\
  exists nonce, fst (generateNonce 0%nat (Scenario.still Rejected) s') = Return nonce /\
                1762000000000 < nonce.
Proof.
  destruct (constructor_fresh_client
              {| config_apiKey := "key"; config_secret := "c2VjcmV0";
                 config_baseUrl := None |}
              (Scenario.still Rejected) Index.initial) as (_ & _ & H).
  destruct H as (_ & _ & _ & _ & _ & H); [discriminate | discriminate |].
  split; [reflexivity|]. apply H. cbn. lia.
Defined.

(** X9.  One call of [generateNonce] touches the counter of its own client
    and nothing else: the other clients and the log of requests stay as they
    were, the clock is read once, the value returned is the counter the
    client now holds, and, as long as the counter is below [2^53], that value
    is strictly greater than the counter before and not earlier than the
    clock reading. *)
Theorem generateNonce_frame (this : ref) (env : Env) (s : State)
  (self : KrakenClient) :
  nth_error (heap s) this = Some self ->
  let s' := snd (generateNonce this env s) in
  exists nonce,
    fst (generateNonce this env s) = Return nonce /\
    nth_error (heap s') this = Some (with_counter self nonce) /\
    (forall other, other <> this ->
       nth_error (heap s') other = nth_error (heap s) other) /\
    readings s' = S (readings s) /\ sent s' = sent s /\
    (- 2 ^ 53 <= nonceCounter self < 2 ^ 53 ->
     nonceCounter self < nonce /\ clock env (readings s) <= nonce).
Proof.
  intros H. cbv zeta. rewrite (generateNonce_run this env s self H).
  cbn [fst snd heap readings sent]. eexists. split; [reflexivity|].
  split; [apply (nth_error_update _ _ _ _ H)|].
  split; [intros other N; apply nth_error_update_other; congruence|].
  split; [reflexivity|]. split; [reflexivity|].
  apply counter_after_bounds.
Qed.

Lemma generateNonce_frame_witness :
  let s := Examples.two_clients 1762000000005 3 in
  let s' := snd (generateNonce 0%nat (Scenario.still Rejected) s) in
  exists nonce,
    fst (generateNonce 0%nat (Scenario.still Rejected) s) = Return nonce /\
    nth_error (heap s') 1%nat = Some (Scenario.a_client 3) /\
    1762000000005 < nonce.
Proof.
  destruct (generateNonce_frame 0%nat (Scenario.still Rejected)
              (Examples.two_clients 1762000000005 3)
              (Scenario.a_client 1762000000005) eq_refl)
    as (nonce & E & _ & F & _ & _ & B).
  exists nonce. split; [exact E|]. split.
  - rewrite (F 1%nat) by discriminate. reflexivity.
  - apply B. cbn. lia.
Defined.

(** X10.  Nonces are unique per client object, not per API key: two clients
    whose counters are equal, asked one after the other while the clock has
    not passed that counter, return the same nonce. *)
Theorem generateNonce_two_clients (a b : ref) (env : Env) (s : State)
  (first second : KrakenClient) :
  a <> b ->
  nth_error (heap s) a = Some first ->
  nth_error (heap s) b = Some second ->
  nonceCounter first = nonceCounter second ->
  clock env (readings s) <= nonceCounter first ->
  clock env (S (readings s)) <= nonceCounter first ->
  let s' := snd (generateNonce a env s) in
  fst (generateNonce a env s) = fst (generateNonce b env s') /\
  fst (generateNonce a env s) = Return (number_add (nonceCounter first) 1).
Proof.
  intros N Ha Hb E C1 C2. cbv zeta.
  rewrite (generateNonce_run a env s first Ha). cbn [fst snd].
  erewrite generateNonce_run
    by (cbn [heap]; rewrite nth_error_update_other by assumption; exact Hb).
  cbn [fst readings]. unfold counter_after. rewrite <- E.
  destruct (Z.gtb_spec (clock env (readings s)) (nonceCounter first)); [lia|].
  destruct (Z.gtb_spec (clock env (S (readings s))) (nonceCounter first)); [lia|].
  split; reflexivity.
Qed.

Lemma generateNonce_two_clients_witness :
  let s := Examples.two_clients 1762000000000 1762000000000 in
  let env := Scenario.still Rejected in
  fst (generateNonce 0%nat env s) = Return 1762000000001 /\
  fst (generateNonce 1%nat env (snd (generateNonce 0%nat env s)))
  = Return 1762000000001.
Proof.
  destruct (generateNonce_two_clients 0%nat 1%nat (Scenario.still Rejected)
              (Examples.two_clients 1762000000000 1762000000000)
              (Scenario.a_client 1762000000000) (Scenario.a_client 1762000000000))
    as [A B]; try reflexivity; try discriminate; try (cbn; lia).
  split; [exact B | rewrite <- A; exact B].
Defined.

Section WithLibrary.
Context {node : Library}.

Lemma request_of_counter (self : KrakenClient) (v : Z) (endpoint : string)
  (options : RequestOptions) (n : Z) :
  request_of (with_counter self v) endpoint options n =
  request_of self endpoint options n.
Proof. reflexivity. Qed.

(** X11.  Every call of [request] on a client reads the clock once, moves the
    client's counter to the nonce it used and adds exactly one request to
    the log, whether the call returns or throws: a failed call has used up
    its nonce.  Two calls in a row, whatever became of the first, put
    strictly increasing nonces on the wire (as long as the counter and the
    clock are below [2^53 - 2]). *)
Theorem request_uses_one_nonce (this : ref) (e1 e2 : string)
  (o1 o2 : RequestOptions) (env : Env) (s : State) (self : KrakenClient) :
  nth_error (heap s) this = Some self ->
  let s1 := snd (request this e1 o1 env s) in
  let s2 := snd (request this e2 o2 env s1) in
  exists n1 n2,
    sent s1 = (sent s ++ [request_of self e1 o1 n1])%list /\
    readings s1 = S (readings s) /\
    nth_error (heap s1) this = Some (with_counter self n1) /\
    get (payload_of o1 n1) "nonce" = VNumber n1 /\
    sent s2 = (sent s ++ [request_of self e1 o1 n1; request_of self e2 o2 n2])%list /\
    get (payload_of o2 n2) "nonce" = VNumber n2 /\
    (- 2 ^ 53 <= nonceCounter self < 2 ^ 53 - 2 ->
     clock env (readings s) < 2 ^ 53 - 2 ->
     nonceCounter self < n1 < n2).
Proof.
  intros H. cbv zeta.
  rewrite (request_run this e1 o1 env s self H). cbn [snd].
  set (n1 := counter_after self (clock env (readings s))).
  assert (H1 : nth_error (heap (after_request this self e1 o1 env s)) this
               = Some (with_counter self n1))
    by (cbn [after_request heap]; apply (nth_error_update _ _ _ _ H)).
  rewrite (request_run this e2 o2 env _ _ H1). cbn [snd].
  set (n2 := counter_after (with_counter self n1)
               (clock env (readings (after_request this self e1 o1 env s)))).
  exists n1, n2. cbn [after_request sent readings heap].
  split; [reflexivity|]. split; [reflexivity|]. split; [exact H1|].
  split; [apply payload_nonce|].
  split; [now rewrite <- app_assoc|]. split; [apply payload_nonce|].
  intros R C.
  destruct (counter_after_bounds self (clock env (readings s)) ltac:(lia)) as [B1 _].
  fold n1 in B1.
  assert (U : n1 < 2 ^ 53 - 1).
  { unfold n1. rewrite counter_after_next by lia. unfold next.
    destruct (Z.gtb_spec (clock env (readings s)) (nonceCounter self)); lia. }
  destruct (counter_after_bounds (with_counter self n1)
              (clock env (S (readings s)))) as [B2 _];
    [cbn [nonceCounter with_counter]; lia|].
  cbn [nonceCounter with_counter] in B2. split; [exact B1 | exact B2].
Qed.

(** X12.  The failures of [request] that come from the transport: a [fetch]
    that is rejected makes the call throw the TypeError of [fetch], and a
    response with a 2xx status whose body is not JSON makes it throw the
    SyntaxError of [response.json()]; in both cases the request has gone
    out. *)
Theorem request_transport_failures (this : ref) (endpoint : string)
  (options : RequestOptions) (env : Env) (s : State) (self : KrakenClient) :
  nth_error (heap s) this = Some self ->
  let answer := network env (List.length (sent s)) in
  let run := request this endpoint options env s in
  (answer = Rejected -> fst run = Throw TypeError) /\
  (forall response, answer = Responded response -> ok response = true ->
     json response = None -> fst run = Throw SyntaxError) /\
  List.length (sent (snd run)) = S (List.length (sent s)).
Proof.
  intros H. cbv zeta. rewrite (request_run this endpoint options env s self H).
  cbn [fst snd after_request sent]. split; [|split].
  - intros ->. reflexivity.
  - intros response -> Hok Hj. cbn [unwrap]. now rewrite Hok, Hj.
  - rewrite List.length_app. cbn. lia.
Qed.

(** X13.  The one-time password: a non-empty [otp] option is put into the
    payload under [otp], replacing what the body had there, and an empty one
    is dropped, leaving the body's own; either way the payload that is signed
    and sent is the same object, and its nonce is the one that this call's
    [generateNonce] returned, the counter after the clock reading of the
    call. *)
Theorem request_otp (this : ref) (endpoint : string) (fields : Object)
  (code : string) (env : Env) (s : State) (self : KrakenClient) :
  nth_error (heap s) this = Some self ->
  let options := {| opt_method := None; opt_body := Some fields;
                    opt_otp := Some code |} in
  let nonce := counter_after self (clock env (readings s)) in
  let payload :=
    if String.eqb code "" then set fields "nonce" (VNumber nonce)
    else set (set fields "nonce" (VNumber nonce)) "otp" (VString code) in
  fst (generateNonce this env s) = Return nonce /\
  sent (snd (request this endpoint options env s)) =
  (sent s ++
   [{| url := baseUrl self ++ endpoint;
       method := POST;
       headers := [("API-Key", apiKey self);
                   ("API-Sign", signature_of endpoint payload (secret self));
                   ("Content-Type", "application/x-www-form-urlencoded")];
       body := Some (stringify payload) |}])%list /\
  get payload "nonce" = VNumber nonce /\
  (code <> "" -> get payload "otp" = VString code) /\
  (code = "" -> payload = set fields "nonce" (VNumber nonce)) /\
  (forall k, k <> "nonce" -> k <> "otp" -> get payload k = get fields k).
Proof.
  intros H. cbv zeta. rewrite (request_run this endpoint _ env s self H).
  rewrite (generateNonce_run _ _ _ _ H).
  cbn [fst snd after_request sent].
  set (nonce := counter_after self (clock env (readings s))).
  set (options := {| opt_method := None; opt_body := Some fields;
                     opt_otp := Some code |}).
  assert (P : payload_of options nonce =
              if String.eqb code "" then set fields "nonce" (VNumber nonce)
              else set (set fields "nonce" (VNumber nonce)) "otp" (VString code))
    by reflexivity.
  rewrite <- P.
  split; [reflexivity|]. split; [reflexivity|].
  split; [apply payload_nonce|]. split; [|split].
  - intros N. rewrite P.
    destruct (String.eqb_spec code ""); [contradiction|]. apply get_set_same.
  - intros ->. reflexivity.
  - intros k N1 N2. now rewrite payload_other.
Qed.

End WithLibrary.

Lemma request_uses_one_nonce_witness :
  let env := Scenario.still (Scenario.failing 500 "Internal Server Error" "down") in
  let s := Scenario.one_client 1762000000000 in
  let s1 := snd (@request Scenario.plain 0%nat "/0/private/Balance" no_options env s) in
  let s2 := snd (@request Scenario.plain 0%nat "/0/private/Balance" no_options env s1) in
  map body (sent s2) = [Some "nonce=1762000000001"; Some "nonce=1762000000002"] /\
  exists n1 n2, 1762000000000 < n1 < n2.
Proof.
  destruct (@request_uses_one_nonce Scenario.plain 0%nat "/0/private/Balance"
              "/0/private/Balance" no_options no_options
              (Scenario.still (Scenario.failing 500 "Internal Server Error" "down"))
              (Scenario.one_client 1762000000000)
              (Scenario.a_client 1762000000000) eq_refl)
    as (n1 & n2 & _ & _ & _ & _ & _ & _ & B).
  split; [reflexivity|]. exists n1, n2. apply B; cbn; lia.
Defined.

Lemma request_transport_failures_witness :
  fst (@request Scenario.plain 0%nat "/0/private/Balance" no_options
         (Scenario.still Rejected) (Scenario.one_client 0))
  = Throw TypeError.
Proof.
  apply (@request_transport_failures Scenario.plain 0%nat "/0/private/Balance"
           no_options (Scenario.still Rejected) (Scenario.one_client 0)
           (Scenario.a_client 0) eq_refl).
  reflexivity.
Defined.

Lemma request_otp_witness :
  fst (generateNonce 0%nat (Scenario.still Rejected) (Scenario.one_client 0))
  = Return 1762000000000 /\
  map body
    (sent (snd (@request Scenario.plain 0%nat "/0/private/Withdraw"
                  {| opt_method := None;
                     opt_body := Some [("otp", VString "old"); ("asset", VString "USD")];
                     opt_otp := Some "123456" |}
                  (Scenario.still Rejected) (Scenario.one_client 0))))
  = [Some "otp=123456&asset=USD&nonce=1762000000000"].
Proof.
  destruct (@request_otp Scenario.plain 0%nat "/0/private/Withdraw"
              [("otp", VString "old"); ("asset", VString "USD")] "123456"
              (Scenario.still Rejected) (Scenario.one_client 0)
              (Scenario.a_client 0) eq_refl) as (N & E & _).
  split; [exact N|].
  exact (eq_trans (f_equal (map body) E) eq_refl).
Defined.

End ClientState.

(** ** src/client/KrakenClient.ts: public endpoints *)

Module PublicFacts.
Import Js Node World Client Public Run NonceFacts ClientFacts.

Section WithLibraries.
Context {node : Library} {urls : UrlLibrary}.

Lemma publicRequest_run (this : ref) (endpoint : string) (params : option Object)
  (env : Env) (s : State) (self : KrakenClient) :
  nth_error (heap s) this = Some self ->
  URL_valid (baseUrl self ++ endpoint) = true ->
  publicRequest this endpoint params env s =
  (unwrap (network env (List.length (sent s))),
   {| heap := heap s; readings := readings s;
      sent := sent s ++
              [{| url := URL_href (baseUrl self ++ endpoint)
                           (match params with
                            | Some entries =>
                                map (fun kv => (fst kv, ToString (snd kv))) entries
                            | None => []
                            end);
                  method := GET;
                  headers := [("Content-Type", "application/json")];
                  body := None |}] |}).
Proof.
  intros H V. unfold publicRequest, mbind, deref. rewrite H, V. cbn [negb].
  unfold fetch, lift, ret, throw. cbn [heap readings sent].
  destruct (network env (List.length (sent s))) as [response|]; cbn [unwrap];
    [|reflexivity].
  destruct (negb (ok response)); [reflexivity|].
  destruct (json response) as [data|]; cbn [of_option]; [|reflexivity].
  destruct (error data) as [[|e es]|]; reflexivity.
Qed.



End WithLibraries.



End PublicFacts.

(** ** src/api/balance.ts, src/api/trading.ts, src/api/withdrawal.ts *)

Module ApiFacts.
Import Js Node World Client Api Bigint Index Run NonceFacts ClientFacts.

Lemma lookup_absent (o : Object) (k : string) :
  ~ In k (map fst o) -> lookup o k = None.
Proof.
  induction o as [|[k' v'] o IH]; cbn; [reflexivity|].
  intros N. destruct (String.eqb_spec k' k) as [->|_].
  - exfalso. apply N. now left.
  - apply IH. intros I. apply N. now right.
Qed.

(** A property the source of a spread does not have keeps the value of the
    target. *)
Lemma lookup_spread_absent (source : Object) :
  forall (target : Object) (k : string),
    lookup source k = None -> lookup (spread target source) k = lookup target k.
Proof.
  unfold spread. induction source as [|[k' v'] r IH]; intros target k H;
    cbn [fold_left fst snd]; [reflexivity|].
  cbn [lookup] in H. destruct (String.eqb_spec k' k) as [->|N]; [discriminate|].
  rewrite (IH _ _ H). now apply lookup_set_other.
Qed.

(** A property of the source is taken over with its value. *)
Lemma lookup_spread_present (source : Object) :
  forall (target : Object) (k : string) (v : Value),
    NoDup (map fst source) -> lookup source k = Some v ->
    lookup (spread target source) k = Some v.
Proof.
  unfold spread. induction source as [|[k' v'] r IH]; intros target k v D H;
    cbn [fold_left fst snd]; [discriminate|].
  cbn [lookup] in H. cbn [map fst] in D. inversion D as [|? ? N D']; subst.
  destruct (String.eqb_spec k' k) as [->|Ne].
  - injection H as ->.
    change (fold_left (fun o kv => set o (fst kv) (snd kv)) r (set target k v))
      with (spread (set target k v) r).
    rewrite lookup_spread_absent by now apply lookup_absent.
    apply lookup_set_same.
  - now apply IH.
Qed.

Lemma get_spread (target source : Object) (k : string) :
  NoDup (map fst source) ->
  get (spread target source) k =
  match lookup source k with
  | Some v => v
  | None => get target k
  end.
Proof.
  intros D. unfold get. destruct (lookup source k) as [v|] eqn:E.
  - now rewrite (lookup_spread_present source target k v D E).
  - now rewrite lookup_spread_absent.
Qed.

Lemma zero_balance_units (decimals : Z) :
  0 <= decimals -> parseDecimalToBigInt "0.00000000" decimals = Return 0.
Proof.
  intros H.
  destruct (BigintValues.parse_value "0" "00000000" decimals H eq_refl eq_refl)
    as [E _].
  change ("0" ++ "." ++ "00000000") with "0.00000000" in E. rewrite E.
  change (digits_value "0") with 0. change (digits_value "00000000") with 0.
  now rewrite !Z.mul_0_l, Z.div_0_l by (apply Z.pow_nonzero; cbn; lia).
Qed.

Section WithLibrary.
Context {node : Library}.

(** X16.  [getAssetBalance] sends one balance query and reads the asset from
    the answer.  An asset the answer lists is returned as it is, unless it is
    listed as [null].  An asset the answer does not list, or lists as [null],
    is reported as "0.00000000", which is zero at every scale, unless the
    asset is a name that Object.prototype defines (constructor, toString and
    the like): then the inherited member is what [balance[asset]] reads and
    what is returned, and reading it as a decimal is a TypeError.  An answer
    without a result (the envelope's [result] missing or [null]) ends the
    call in a TypeError. *)
Theorem getAssetBalance_default (client : ref) (asset : string) (env : Env)
  (s : State) (self : KrakenClient) :
  nth_error (heap s) client = Some self ->
  let run := getAssetBalance client asset env s in
  let answer := unwrap (network env (List.length (sent s))) in
  sent (snd run) =
  (sent s ++ [request_of self "/0/private/Balance" no_options
                (counter_after self (clock env (readings s)))])%list /\
  (forall balance, answer = Return (VObject balance) ->
     (forall v, lookup balance asset = Some v -> v <> VNull -> v <> VUndefined ->
        fst run = Return v) /\
     (lookup balance asset = Some VNull \/
      lookup balance asset = None /\ inherited asset = false ->
      fst run = Return (VString "0.00000000") /\
      forall decimals, 0 <= decimals ->
        bind (fst run) (fun value => call_parseDecimalToBigInt value decimals)
        = Return 0) /\
     (lookup balance asset = None -> inherited asset = true ->
      fst run = Return (VInherited asset) /\
      forall decimals,
        bind (fst run) (fun value => call_parseDecimalToBigInt value decimals)
        = Throw TypeError)) /\
  (answer = Return VUndefined \/ answer = Return VNull ->
   fst run = Throw TypeError) /\
  (forall e, answer = Throw e -> fst run = Throw e).
Proof.
  intros H. cbv zeta. rewrite (IndexFacts.getAssetBalance_run _ _ _ _ _ H).
  cbn [fst snd after_request sent]. unfold asset_balance.
  split; [reflexivity|]. split; [|split].
  - intros balance ->. cbn [bind get_property]. unfold from_prototype.
    split; [|split].
    + intros v -> N1 N2. destruct v; cbn [nullish]; congruence.
    + intros [-> | [-> ->]]; cbn [nullish bind call_parseDecimalToBigInt];
        (split; [reflexivity | apply zero_balance_units]).
    + intros -> ->. cbn [nullish bind call_parseDecimalToBigInt].
      split; reflexivity.
  - intros [-> | ->]; reflexivity.
  - intros e ->. reflexivity.
Qed.

(** X17.  [sellUSDCToUSD] and [buyUSDCWithUSD] each send one request to
    /0/private/AddOrder and return what [request] returns.  The order is a
    market order on the pair USDCUSD for the given volume, of type sell and
    buy respectively, as far as the options do not name these fields: every
    option is carried into the order, and an option called [type],
    [ordertype], [pair] or [volume] replaces the fixed value. *)
Theorem market_order_payload (client : ref) (volume : Value) (options : Object)
  (env : Env) (s : State) (self : KrakenClient) :
  nth_error (heap s) client = Some self ->
  NoDup (map fst options) ->
  let nonce := counter_after self (clock env (readings s)) in
  let answer := unwrap (network env (List.length (sent s))) in
  let fixed type := [("type", VString type); ("ordertype", VString "market");
                     ("pair", VString "USDCUSD"); ("volume", volume)] in
  let sent_as run type :=
    exists order,
      fst run = answer /\
      sent (snd run) =
      (sent s ++ [request_of self "/0/private/AddOrder" (with_body order) nonce])%list /\
      forall k, get order k = match lookup options k with
                              | Some v => v
                              | None => get (fixed type) k
                              end in
  sent_as (sellUSDCToUSD client volume options env s) "sell" /\
  sent_as (buyUSDCWithUSD client volume options env s) "buy".
Proof.
  intros H D. cbv zeta. unfold sellUSDCToUSD, buyUSDCWithUSD, placeOrder.
  rewrite !(request_run _ _ _ _ _ _ H). cbn [fst snd after_request sent].
  split; eexists; (split; [reflexivity|]); (split; [reflexivity|]);
    intros k; now apply get_spread.
Qed.

(** X18.  [withdraw] sends one request to /0/private/Withdraw whose payload
    names the asset, the key and the amount it was given, and
    [withdrawToMercury] is the same with the asset USD and the key Mercury.
    The options come last in the payload: an option called [key], [asset] or
    [amount] replaces the argument, so that a caller's options can send a
    withdrawal of [withdrawToMercury] to another key. *)
Theorem withdraw_payload (client : ref) (asset key : string) (amount : Value)
  (options : Object) (env : Env) (s : State) (self : KrakenClient) :
  nth_error (heap s) client = Some self ->
  NoDup (map fst options) ->
  let nonce := counter_after self (clock env (readings s)) in
  let answer := unwrap (network env (List.length (sent s))) in
  let sent_as run asset key :=
    exists params,
      fst run = answer /\
      sent (snd run) =
      (sent s ++ [request_of self "/0/private/Withdraw" (with_body params) nonce])%list /\
      forall k, get params k = match lookup options k with
                               | Some v => v
                               | None => get [("asset", VString asset);
                                              ("key", VString key);
                                              ("amount", amount)] k
                               end in
  sent_as (withdraw client asset key amount options env s) asset key /\
  sent_as (withdrawToMercury client amount options env s) "USD" "Mercury" /\
  (forall other, lookup options "key" = Some other ->
     exists params,
       sent (snd (withdrawToMercury client amount options env s)) =
       (sent s ++ [request_of self "/0/private/Withdraw" (with_body params) nonce])%list /\
       get params "key" = other).
Proof.
  intros H D. cbv zeta. unfold withdrawToMercury, withdraw.
  rewrite !(request_run _ _ _ _ _ _ H). cbn [fst snd after_request sent].
  split; [|split].
  1-2: eexists; (split; [reflexivity|]); (split; [reflexivity|]);
       intros k; now apply get_spread.
  intros other E. eexists. split; [reflexivity|].
  rewrite get_spread by assumption. now rewrite E.
Qed.

(** X19.  [getWithdrawalMethods] sends one request to
    /0/private/WithdrawMethods; its payload is the asset and the nonce when
    an asset is given, and the nonce alone when none is given or the asset is
    the empty string. *)
Theorem getWithdrawalMethods_payload (client : ref) (asset : option string)
  (env : Env) (s : State) (self : KrakenClient) :
  nth_error (heap s) client = Some self ->
  let nonce := counter_after self (clock env (readings s)) in
  let run := getWithdrawalMethods client asset env s in
  fst run = unwrap (network env (List.length (sent s))) /\
  exists r,
    sent (snd run) = (sent s ++ [r])%list /\
    url r = baseUrl self ++ "/0/private/WithdrawMethods" /\
    method r = POST /\
    body r = Some (stringify
                     match asset with
                     | Some (String c a) =>
                         [("asset", VString (String c a)); ("nonce", VNumber nonce)]
                     | _ => [("nonce", VNumber nonce)]
                     end).
Proof.
  intros H. cbv zeta. unfold getWithdrawalMethods.
  rewrite (request_run _ _ _ _ _ _ H). cbn [fst snd after_request sent].
  split; [reflexivity|]. eexists. split; [reflexivity|].
  destruct asset as [[|c a]|]; repeat split.
Qed.

End WithLibrary.

Lemma getAssetBalance_default_witness :
  fst (@getAssetBalance Scenario.plain 0%nat "XXBT"
         (Scenario.still (Scenario.success Scenario.balances))
         (Scenario.one_client 0))
  = Return (VString "0.00000000") /\
  fst (@getAssetBalance Scenario.plain 0%nat "constructor"
         (Scenario.still (Scenario.success Scenario.balances))
         (Scenario.one_client 0))
  = Return (VInherited "constructor").
Proof.
  split.
  - destruct (@getAssetBalance_default Scenario.plain 0%nat "XXBT"
                (Scenario.still (Scenario.success Scenario.balances))
                (Scenario.one_client 0) (Scenario.a_client 0) eq_refl)
      as (_ & A & _).
    destruct (A _ eq_refl) as (_ & B & _). apply B. right. split; reflexivity.
  - destruct (@getAssetBalance_default Scenario.plain 0%nat "constructor"
                (Scenario.still (Scenario.success Scenario.balances))
                (Scenario.one_client 0) (Scenario.a_client 0) eq_refl)
      as (_ & A & _).
    destruct (A _ eq_refl) as (_ & _ & B). now apply B.
Defined.

Lemma market_order_payload_witness :
  map body
    (sent (snd (@sellUSDCToUSD Scenario.plain 0%nat (VString "100.00")
                  [("validate", VBool true)] (Scenario.still Rejected)
                  (Scenario.one_client 0))))
  = [Some "type=sell&ordertype=market&pair=USDCUSD&volume=100.00&validate=true&nonce=1762000000000"]
  /\ exists order,
       get order "validate" = VBool true /\ get order "type" = VString "sell".
Proof.
  split; [reflexivity|].
  destruct (@market_order_payload Scenario.plain 0%nat (VString "100.00")
              [("validate", VBool true)] (Scenario.still Rejected)
              (Scenario.one_client 0) (Scenario.a_client 0) eq_refl)
    as [(order & _ & _ & G) _].
  - repeat constructor. intros [].
  - exists order. split; rewrite G; reflexivity.
Defined.

Lemma withdraw_payload_witness :
  map body
    (sent (snd (@withdrawToMercury Scenario.plain 0%nat (VString "50.0000")
                  [("key", VString "Elsewhere")] (Scenario.still Rejected)
                  (Scenario.one_client 0))))
  = [Some "asset=USD&key=Elsewhere&amount=50.0000&nonce=1762000000000"]
  /\ exists params, get params "key" = VString "Elsewhere".
Proof.
  split; [reflexivity|].
  destruct (@withdraw_payload Scenario.plain 0%nat "USD" "Mercury" (VString "50.0000")
              [("key", VString "Elsewhere")] (Scenario.still Rejected)
              (Scenario.one_client 0) (Scenario.a_client 0) eq_refl)
    as (_ & _ & R).
  - repeat constructor. intros [].
  - destruct (R (VString "Elsewhere") eq_refl) as (params & _ & G).
    now exists params.
Defined.

Lemma getWithdrawalMethods_payload_witness :
  exists r,
    sent (snd (@getWithdrawalMethods Scenario.plain 0%nat (Some "")
                 (Scenario.still Rejected) (Scenario.one_client 0))) = [r] /\
    body r = Some "nonce=1762000000000".
Proof.
  destruct (@getWithdrawalMethods_payload Scenario.plain 0%nat (Some "")
              (Scenario.still Rejected) (Scenario.one_client 0)
              (Scenario.a_client 0) eq_refl) as (_ & r & E & _ & _ & B).
  exists r. split; [exact E | exact B].
Defined.

End ApiFacts.

(** ** src/config.ts *)

Module ConfigFacts.
Import Js Node World Client Index Config.

Section WithEnvironment.
Variable Bun_env : string -> option string.

Lemma required_set (name : string) :
  is_set Bun_env name = true ->
  exists text, required Bun_env name = Return text /\
               Bun_env name = Some text /\ String.eqb text "" = false.
Proof.
  unfold is_set, required. destruct (Bun_env name) as [text|]; [|discriminate].
  destruct (String.eqb text "") eqn:E; [discriminate|]. intros _. now exists text.
Qed.

Lemma required_not_set (name : string) :
  is_set Bun_env name = false ->
  required Bun_env name = Throw (not_set name).
Proof.
  unfold is_set, required. destruct (Bun_env name) as [text|]; [|reflexivity].
  destruct (String.eqb text ""); [reflexivity | discriminate].
Qed.

Lemma or_default_not_empty (name fallback : string) :
  fallback <> "" -> or_default Bun_env name fallback <> "".
Proof.
  intros N. unfold or_default. destruct (Bun_env name) as [text|]; [|exact N].
  destruct (String.eqb_spec text ""); assumption.
Qed.

Lemma loadConfig_cases :
  let loaded := loadConfig Bun_env in
  (is_set Bun_env "KRAKEN_PUBLIC_KEY" = false ->
   loaded = Throw (not_set "KRAKEN_PUBLIC_KEY")) /\
  (is_set Bun_env "KRAKEN_PUBLIC_KEY" = true ->
   is_set Bun_env "KRAKEN_SECRET_KEY" = false ->
   loaded = Throw (not_set "KRAKEN_SECRET_KEY")) /\
  (is_set Bun_env "KRAKEN_PUBLIC_KEY" = true ->
   is_set Bun_env "KRAKEN_SECRET_KEY" = true ->
   is_set Bun_env "USD_WITHDRAWAL_KEY" = false ->
   loaded = Throw (not_set "USD_WITHDRAWAL_KEY")) /\
  ((exists config, loaded = Return config) <->
   is_set Bun_env "KRAKEN_PUBLIC_KEY" = true /\
   is_set Bun_env "KRAKEN_SECRET_KEY" = true /\
   is_set Bun_env "USD_WITHDRAWAL_KEY" = true) /\
  (forall config, loaded = Return config ->
     Bun_env "KRAKEN_PUBLIC_KEY" = Some (config_apiKey (kraken config)) /\
     Bun_env "KRAKEN_SECRET_KEY" = Some (config_secret (kraken config)) /\
     Bun_env "USD_WITHDRAWAL_KEY" = Some (usdWithdrawalKey config) /\
     (is_set Bun_env "KRAKEN_API_URL" = false ->
      config_baseUrl (kraken config) = Some "https://api.kraken.com") /\
     (is_set Bun_env "MINIMUM_WITHDRAWAL_USD" = false ->
      minimumWithdrawalUSD config = Whole 10)).
Proof.
  cbv zeta. unfold loadConfig.
  destruct (is_set Bun_env "KRAKEN_PUBLIC_KEY") eqn:E1.
  2: { rewrite (required_not_set _ E1). cbn [bind].
       split; [reflexivity|]. split; [discriminate|]. split; [discriminate|].
       split; [|discriminate].
       split; [intros [c F]; discriminate F | intros (F & _); discriminate F]. }
  destruct (required_set _ E1) as (t1 & -> & B1 & _). cbn [bind].
  destruct (is_set Bun_env "KRAKEN_SECRET_KEY") eqn:E2.
  2: { rewrite (required_not_set _ E2). cbn [bind].
       split; [discriminate|]. split; [reflexivity|]. split; [discriminate|].
       split; [|discriminate].
       split; [intros [c F]; discriminate F | intros (_ & F & _); discriminate F]. }
  destruct (required_set _ E2) as (t2 & -> & B2 & _). cbn [bind].
  destruct (is_set Bun_env "USD_WITHDRAWAL_KEY") eqn:E3.
  2: { rewrite (required_not_set _ E3). cbn [bind].
       split; [discriminate|]. split; [discriminate|]. split; [reflexivity|].
       split; [|discriminate].
       split; [intros [c F]; discriminate F | intros (_ & _ & F); discriminate F]. }
  destruct (required_set _ E3) as (t3 & -> & B3 & _). cbn [bind].
  split; [discriminate|]. split; [discriminate|]. split; [discriminate|].
  split; [split; [auto | eauto]|].
  intros config [= <-].
  cbn [kraken config_apiKey config_secret config_baseUrl minimumWithdrawalUSD
       usdWithdrawalKey].
  split; [exact B1|]. split; [exact B2|]. split; [exact B3|].
  unfold is_set, or_default. split.
  - destruct (Bun_env "KRAKEN_API_URL") as [u|]; [|reflexivity].
    destruct (String.eqb u ""); [reflexivity | discriminate].
  - destruct (Bun_env "MINIMUM_WITHDRAWAL_USD") as [u|]; [|reflexivity].
    destruct (String.eqb u ""); [reflexivity | discriminate].
Qed.

(** X20.  [loadConfig] asks for three variables, in the order
    KRAKEN_PUBLIC_KEY, KRAKEN_SECRET_KEY, USD_WITHDRAWAL_KEY, and reports the
    first that is unset or empty; it returns a configuration exactly when all
    three are there.  The base URL and the threshold are never reported:
    unset or empty, they fall back to https://api.kraken.com and to "10". *)
Theorem loadConfig_required :
  let loaded := loadConfig Bun_env in
  (is_set Bun_env "KRAKEN_PUBLIC_KEY" = false ->
   loaded = Throw (not_set "KRAKEN_PUBLIC_KEY")) /\
  (is_set Bun_env "KRAKEN_PUBLIC_KEY" = true ->
   is_set Bun_env "KRAKEN_SECRET_KEY" = false ->
   loaded = Throw (not_set "KRAKEN_SECRET_KEY")) /\
  (is_set Bun_env "KRAKEN_PUBLIC_KEY" = true ->
   is_set Bun_env "KRAKEN_SECRET_KEY" = true ->
   is_set Bun_env "USD_WITHDRAWAL_KEY" = false ->
   loaded = Throw (not_set "USD_WITHDRAWAL_KEY")) /\
  ((exists config, loaded = Return config) <->
   is_set Bun_env "KRAKEN_PUBLIC_KEY" = true /\
   is_set Bun_env "KRAKEN_SECRET_KEY" = true /\
   is_set Bun_env "USD_WITHDRAWAL_KEY" = true) /\
  (forall config, loaded = Return config ->
     Bun_env "KRAKEN_PUBLIC_KEY" = Some (config_apiKey (kraken config)) /\
     Bun_env "KRAKEN_SECRET_KEY" = Some (config_secret (kraken config)) /\
     Bun_env "USD_WITHDRAWAL_KEY" = Some (usdWithdrawalKey config) /\
     (is_set Bun_env "KRAKEN_API_URL" = false ->
      config_baseUrl (kraken config) = Some "https://api.kraken.com") /\
     (is_set Bun_env "MINIMUM_WITHDRAWAL_USD" = false ->
      minimumWithdrawalUSD config = Whole 10)).
Proof. apply loadConfig_cases. Qed.

(** X21.  A configuration that [loadConfig] returned passes the credential
    check and the withdrawal-key check of [validateConfig] and is accepted by
    the constructor of the client, with a base URL that is given and not
    empty.  Its threshold is [Number] of the text of MINIMUM_WITHDRAWAL_USD
    (of "10" when that is unset or empty), and [validateConfig] refuses the
    configuration exactly when that number is less than zero: zero is
    accepted, and so is NaN, the number of a text that is no numeral. *)
Theorem loadConfig_validateConfig (config : AppConfig) :
  loadConfig Bun_env = Return config ->
  validateConfig config =
  (if less_than_zero (minimumWithdrawalUSD config)
   then Throw (Error "Minimum withdrawal amount must be positive")
   else Return tt) /\
  (validateConfig config = Return tt <->
   less_than_zero (minimumWithdrawalUSD config) = false) /\
  minimumWithdrawalUSD config =
  StringToNumber (or_default Bun_env "MINIMUM_WITHDRAWAL_USD" "10") /\
  (minimumWithdrawalUSD config = Whole 0 \/ minimumWithdrawalUSD config = NaN ->
   validateConfig config = Return tt) /\
  (exists base, config_baseUrl (kraken config) = Some base /\ base <> "") /\
  (forall env s, exists this s',
     constructor (kraken config) env s = (Return this, s')).
Proof.
  unfold loadConfig.
  destruct (is_set Bun_env "KRAKEN_PUBLIC_KEY") eqn:E1;
    [|rewrite (required_not_set _ E1); discriminate].
  destruct (required_set _ E1) as (t1 & -> & _ & N1). cbn [bind].
  destruct (is_set Bun_env "KRAKEN_SECRET_KEY") eqn:E2;
    [|rewrite (required_not_set _ E2); discriminate].
  destruct (required_set _ E2) as (t2 & -> & _ & N2). cbn [bind].
  destruct (is_set Bun_env "USD_WITHDRAWAL_KEY") eqn:E3;
    [|rewrite (required_not_set _ E3); discriminate].
  destruct (required_set _ E3) as (t3 & -> & _ & N3). cbn [bind].
  intros [= <-]. unfold validateConfig, constructor.
  cbn [kraken config_apiKey config_secret config_baseUrl minimumWithdrawalUSD
       usdWithdrawalKey].
  rewrite N1, N2, N3. cbn [orb].
  split; [reflexivity|]. split; [|split; [reflexivity|split; [|split]]].
  - destruct (less_than_zero _); split; intros H1;
      try reflexivity; discriminate.
  - intros [-> | ->]; reflexivity.
  - eexists. split; [reflexivity|]. apply or_default_not_empty. discriminate.
  - intros env s. do 2 eexists. reflexivity.
Qed.

End WithEnvironment.

Lemma loadConfig_validateConfig_witness :
  (exists config,
     loadConfig Examples.variables = Return config /\
     minimumWithdrawalUSD config = Whole 10 /\
     config_baseUrl (kraken config) = Some "https://api.kraken.com" /\
     validateConfig config = Return tt) /\
  (exists config,
     loadConfig Examples.worded_threshold = Return config /\
     minimumWithdrawalUSD config = NaN /\
     validateConfig config = Return tt).
Proof.
  split.
  - eexists. split; [reflexivity|]. split; [reflexivity|]. split; [reflexivity|].
    destruct (loadConfig_validateConfig Examples.variables _ eq_refl)
      as (_ & A & _).
    apply A. reflexivity.
  - eexists. split; [reflexivity|]. split; [reflexivity|].
    destruct (loadConfig_validateConfig Examples.worded_threshold _ eq_refl)
      as (_ & _ & _ & A & _).
    apply A. right. reflexivity.
Defined.

End ConfigFacts.

(** ** src/index.ts: the run as a whole *)

Module MainFacts.
Import Js Node World Client Api Bigint Index Input Run Config.
Import NonceFacts ClientFacts IndexFacts.

Lemma validateConfig_refuses (config : AppConfig) :
  config_apiKey (kraken config) = "" \/ config_secret (kraken config) = "" \/
  less_than_zero (minimumWithdrawalUSD config) = true \/
  usdWithdrawalKey config = "" ->
  exists e, validateConfig config = Throw e.
Proof.
  unfold validateConfig. intros H.
  destruct (String.eqb_spec (config_apiKey (kraken config)) "");
    [cbn [orb]; eauto|].
  destruct (String.eqb_spec (config_secret (kraken config)) "");
    [cbn [orb]; eauto|].
  cbn [orb]. destruct (less_than_zero (minimumWithdrawalUSD config)); [eauto|].
  destruct (String.eqb_spec (usdWithdrawalKey config) ""); [eauto|].
  exfalso. destruct H as [H|[H|[H|H]]]; try contradiction. discriminate H.
Qed.

Lemma strings_have_primitive (items : list Value) :
  forallb is_string items = true -> forallb has_primitive items = true.
Proof.
  induction items as [|x items IH]; [reflexivity|]. cbn [forallb].
  intros H. apply andb_prop in H as [H1 H2]. rewrite (IH H2).
  destruct x; try discriminate H1. reflexivity.
Qed.

(** An answer of the declared type is printed without an exception. *)
Lemma print_order_typed (orderResult : Value) :
  AddOrderResponse orderResult = true -> print_order orderResult = Return tt.
Proof.
  destruct orderResult as [| | | | | |fields|]; try discriminate.
  unfold AddOrderResponse, print_order. cbn [get_property bind].
  destruct (lookup fields "descr") as [[| | | | | |descr|]|]; try discriminate.
  destruct (lookup descr "order") as [[| | | |order| | |]|] eqn:O;
    try discriminate.
  cbn [andb].
  destruct (lookup fields "txid") as [[| | | | |ids| |]|];
    try discriminate; intros H; [|reflexivity].
  cbn [truthy negb has_primitive]. destruct ids as [|id ids]; [reflexivity|].
  rewrite (strings_have_primitive _ H).
  change (get_property (VObject descr) "order")
    with (Return (match lookup descr "order" with
                  | Some x => x
                  | None => from_prototype "order"
                  end)).
  rewrite O. reflexivity.
Qed.

(** Where the order has no result, or the result lists transaction ids
    without a description, the printing block throws. *)
Lemma print_order_fails (orderResult : Value) :
  orderResult = VUndefined \/ orderResult = VNull \/
  (exists fields ids,
     orderResult = VObject fields /\
     lookup fields "txid" = Some (VArray ids) /\ ids <> [] /\
     (lookup fields "descr" = None \/ lookup fields "descr" = Some VNull)) ->
  print_order orderResult = Throw TypeError.
Proof.
  intros [-> | [-> | (fields & ids & -> & T & N & D)]]; try reflexivity.
  unfold print_order. cbn [get_property bind]. rewrite T.
  destruct ids as [|id ids]; [contradiction|].
  cbn [truthy negb has_primitive get_property String.eqb Ascii.eqb Bool.eqb
       andb bind].
  destruct (forallb has_primitive (id :: ids)); [|reflexivity].
  destruct D as [-> | ->]; reflexivity.
Qed.

Lemma failed_order_not_printed (order : Outcome Value) (orderResult : Value) :
  order = Return orderResult -> print_order orderResult = Return tt ->
  (exists e, order = Throw e) \/
  order = Return VUndefined \/ order = Return VNull \/
  (exists fields ids,
     order = Return (VObject fields) /\
     lookup fields "txid" = Some (VArray ids) /\ ids <> [] /\
     (lookup fields "descr" = None \/ lookup fields "descr" = Some VNull)) ->
  False.
Proof.
  intros -> P F.
  assert (T : print_order orderResult = Throw TypeError).
  { apply print_order_fails.
    destruct F as [[e F] | [F | [F | (fields & ids & F & R)]]];
      [discriminate F | injection F as -> | injection F as -> | injection F as ->].
    - now left.
    - right. now left.
    - right. right. now exists fields, ids. }
  congruence.
Qed.

Section WithLibrary.
Context {node : Library}.

(** X22.  With a configuration that [validateConfig] refuses (no API key, no
    secret, a negative threshold or no withdrawal key), or with a required
    environment variable missing, [main] ends with exit code 1 and has done
    nothing: no client is constructed, the clock is not read and no request
    is sent. *)
Theorem main_refuses_configuration (env : Env) (s : State) :
  (forall config,
     config_apiKey (kraken config) = "" \/ config_secret (kraken config) = "" \/
     less_than_zero (minimumWithdrawalUSD config) = true \/
     usdWithdrawalKey config = "" ->
     main config env s = (Return (Exited 1), s)) /\
  (forall Bun_env,
     is_set Bun_env "KRAKEN_PUBLIC_KEY" = false \/
     is_set Bun_env "KRAKEN_SECRET_KEY" = false \/
     is_set Bun_env "USD_WITHDRAWAL_KEY" = false ->
     main_from_environment Bun_env env s = (Return (Exited 1), s)).
Proof.
  split.
  - intros config H. destruct (validateConfig_refuses config H) as [e E].
    unfold main, catch, mbind, lift. now rewrite E.
  - intros Bun_env H. unfold main_from_environment.
    destruct (loadConfig Bun_env) as [config|e] eqn:L; [|reflexivity].
    exfalso.
    destruct (ConfigFacts.loadConfig_cases Bun_env)
      as (_ & _ & _ & [A _] & _).
    destruct (A (ex_intro _ config L)) as (A1 & A2 & A3).
    destruct H as [H|[H|H]]; congruence.
Qed.

(** X23.  The requests of a run.  With a valid configuration, whatever the
    clock shows and the exchange answers, [main] sends between one and four
    requests, all to the configured base URL, in one of six sequences: a
    balance query first, then possibly one order, then a second balance
    query, then possibly one withdrawal; never a second order or withdrawal,
    never a withdrawal that does not directly follow a balance query.  Every
    request is a POST that carries the configured API key.  The run ends
    normally or with exit code 1, never with an exception, and a run that
    ends normally has made both balance queries. *)
Theorem main_requests (config : AppConfig) (env : Env) :
  validateConfig config = Return tt ->
  let run := main config env initial in
  let balance := base_of config ++ "/0/private/Balance" in
  let order := base_of config ++ "/0/private/AddOrder" in
  let withdrawal := base_of config ++ "/0/private/Withdraw" in
  (fst run = Return Completed /\
   In (map url (sent (snd run)))
      [[balance; balance]; [balance; balance; withdrawal];
       [balance; order; balance]; [balance; order; balance; withdrawal]]
   \/
   fst run = Return (Exited 1) /\
   In (map url (sent (snd run)))
      [[balance]; [balance; order]; [balance; balance];
       [balance; balance; withdrawal]; [balance; order; balance];
       [balance; order; balance; withdrawal]]) /\
  (forall r, In r (sent (snd run)) ->
     method r = POST /\
     exists signature,
       headers r = [("API-Key", config_apiKey (kraken config));
                    ("API-Sign", signature);
                    ("Content-Type", "application/x-www-form-urlencoded")]).
Proof.
  intros V. cbv zeta.
  remember (main config env initial) as run eqn:E. revert E.
  run_main env config V; intros ->; unfold ret;
    cbn [fst snd sent after_request Datatypes.app map url request_of].
  all: split.
  (* the requests, one by one *)
  all: try (intros r Hin; cbn [In] in Hin;
            repeat match goal with
                   | H : _ \/ _ |- _ => destruct H as [H|H]
                   | H : False |- _ => destruct H
                   end; subst r;
            (split; [reflexivity | eexists; reflexivity])).
  (* the sequences *)
  all: first [ left; split; [reflexivity|]; cbn [In];
               repeat (first [left; reflexivity | right])
             | right; split; [reflexivity|]; cbn [In];
               repeat (first [left; reflexivity | right]) ].
Qed.

(** X24.  Every order [main] sends is a market order that sells, on the
    pair USDCUSD, the whole USDC balance: the volume is the balance in the
    very form the exchange reported it in the first answer, an amount that
    is strictly positive at 8 places. *)
Theorem main_sells_whole_balance (config : AppConfig) (env : Env)
  (r : HttpRequest) :
  validateConfig config = Return tt ->
  In r (sent (snd (main config env initial))) ->
  goes_to (base_of config) "/0/private/AddOrder" r = true ->
  exists amount units nonce,
    asset_balance "USDC" (network env 0) = Return amount /\
    call_parseDecimalToBigInt amount 8 = Return units /\ 0 < units /\
    body r = Some (stringify [("type", VString "sell");
                              ("ordertype", VString "market");
                              ("pair", VString "USDCUSD");
                              ("volume", amount);
                              ("nonce", VNumber nonce)]).
Proof.
  intros V. remember (sent (snd (main config env initial))) as log eqn:E.
  revert E. run_main env config V; intros -> Hin Hgo; cbn [In] in Hin.
  all: repeat match goal with
       | H : _ \/ _ |- _ => destruct H as [H|H]
       | H : False |- _ => destruct H
       end; subst r.
  all: rewrite goes_to_request in Hgo by reflexivity; try discriminate Hgo.
  all: do 3 eexists; split; [reflexivity|]; split; [eassumption|];
       split; [assumption | reflexivity].
Qed.

(** X29.  The sale decision.  With a valid configuration, [main] sends a
    sell order exactly when the first balance query gives a USDC balance
    that is strictly positive at 8 places.  The order is then the second
    request of the run; with a balance of zero (or below) no order is sent
    and the second request is the balance query of the withdrawal check. *)
Theorem main_sells_positive_balance (config : AppConfig) (env : Env) :
  validateConfig config = Return tt ->
  let log := sent (snd (main config env initial)) in
  let usdc := asset_units "USDC" 8 (network env 0) in
  (existsb (goes_to (base_of config) "/0/private/AddOrder") log = true <->
   exists v, usdc = Return v /\ 0 < v) /\
  (forall v, usdc = Return v -> 0 < v ->
     exists first second rest,
       log = first :: second :: rest /\
       goes_to (base_of config) "/0/private/AddOrder" second = true) /\
  (forall v, usdc = Return v -> v <= 0 ->
     exists first second rest,
       log = first :: second :: rest /\
       goes_to (base_of config) "/0/private/Balance" second = true).
Proof.
  intros V. cbv zeta. unfold asset_units.
  remember (sent (snd (main config env initial))) as log eqn:E. revert E.
  run_main env config V; intros ->; cbn [bind]; rewrite ?P1.
  all: read_log.
  all: split;
    [ split;
      [ intros H; first [ discriminate H
                        | eexists; split; [reflexivity | assumption] ]
      | intros (x & Hx & Hpos);
        first [ discriminate Hx
              | injection Hx as <-; first [reflexivity | lia] ] ]
    | split;
      intros x Hx Hcmp;
      first [ discriminate Hx
            | injection Hx as <-;
              first [ lia
                    | do 3 eexists; split;
                      [ reflexivity
                      | rewrite goes_to_request by reflexivity;
                        reflexivity ] ] ] ].
Qed.

(** X25.  A sale that fails stops the run.  When the USDC balance is
    positive and the order request fails (the fetch is rejected, the status
    is not 2xx, the body is not JSON, or the envelope lists errors), or its
    answer has no result, or the result lists transaction ids but has no
    description to print, [main] ends with exit code 1 after the balance
    query and the order; no second balance query and no withdrawal follow.
    The same holds one step earlier: when the first balance cannot be read,
    the balance query is the only request. *)
Theorem main_stops_at_failed_sale (config : AppConfig) (env : Env) :
  validateConfig config = Return tt ->
  let run := main config env initial in
  let usdc := asset_units "USDC" 8 (network env 0) in
  let order := unwrap (network env 1) in
  ((exists e, usdc = Throw e) ->
   fst run = Return (Exited 1) /\
   map url (sent (snd run)) = [base_of config ++ "/0/private/Balance"]) /\
  (forall v, usdc = Return v -> 0 < v ->
     (exists e, order = Throw e) \/
     order = Return VUndefined \/ order = Return VNull \/
     (exists fields ids,
        order = Return (VObject fields) /\
        lookup fields "txid" = Some (VArray ids) /\ ids <> [] /\
        (lookup fields "descr" = None \/ lookup fields "descr" = Some VNull)) ->
     fst run = Return (Exited 1) /\
     map url (sent (snd run)) = [base_of config ++ "/0/private/Balance";
                                 base_of config ++ "/0/private/AddOrder"]).
Proof.
  intros V. cbv zeta. unfold asset_units.
  remember (main config env initial) as run eqn:E. revert E.
  run_main env config V; intros ->; unfold ret;
    cbn [fst snd sent after_request Datatypes.app map url request_of bind];
    rewrite ?P1.
  all: split;
    [ intros [? U]; first [discriminate U | split; reflexivity]
    | intros x U Hpos F;
      first [ discriminate U
            | injection U as <-;
              first [ lia
                    | split; reflexivity
                    | exfalso;
                      match goal with
                      | P : print_order ?o = Return tt |- _ =>
                          exact (failed_order_not_printed _ o eq_refl P F)
                      end ] ] ].
Qed.

Lemma counter_after_max (self : KrakenClient) (t : Z) :
  - 2 ^ 53 <= nonceCounter self < 2 ^ 53 ->
  nonceCounter self < counter_after self t <= Z.max (nonceCounter self + 1) t.
Proof.
  intros H. rewrite counter_after_next by assumption. unfold next.
  destruct (Z.gtb_spec t (nonceCounter self)); lia.
Qed.

(** X26.  The nonces of a run.  With a valid configuration and a clock whose
    first five readings are below [2^53 - 4], the requests [main] sends carry
    strictly increasing nonces, the first of them strictly later than the
    time at which the client was constructed, whatever the exchange answers
    and however little the clock advances. *)
Theorem main_nonces_increase (config : AppConfig) (env : Env) :
  validateConfig config = Return tt ->
  (forall i, (i < 5)%nat -> - 2 ^ 53 <= clock env i < 2 ^ 53 - 4) ->
  exists self issued,
    Forall2 (fun r nonce =>
               exists endpoint options,
                 r = request_of self endpoint options nonce /\
                 get (payload_of options nonce) "nonce" = VNumber nonce)
            (sent (snd (main config env initial))) issued /\
    increasing (clock env 0 :: issued).
Proof.
  intros V C.
  pose proof (C 0%nat ltac:(lia)) as C0. pose proof (C 1%nat ltac:(lia)) as C1.
  pose proof (C 2%nat ltac:(lia)) as C2. pose proof (C 3%nat ltac:(lia)) as C3.
  pose proof (C 4%nat ltac:(lia)) as C4. clear C.
  remember (sent (snd (main config env initial))) as log eqn:E. revert E.
  run_main env config V; intros ->; cbn [readings after_request].
  all: exists {| apiKey := config_apiKey (kraken config);
                 secret := config_secret (kraken config);
                 baseUrl := base_of config;
                 nonceCounter := clock env 0 |};
       eexists; split;
       [ repeat (apply Forall2_cons;
                 [do 2 eexists; split; [reflexivity | apply payload_nonce]|]);
         apply Forall2_nil
       | cbn [increasing];
         repeat match goal with
                | |- context [counter_after ?c ?t] =>
                    lazymatch c with
                    | context [counter_after _ _] => fail
                    | _ => idtac
                    end;
                    let B := fresh "B" in
                    let n := fresh "n" in
                    assert (B : nonceCounter c < counter_after c t
                                <= Z.max (nonceCounter c + 1) t)
                      by (apply counter_after_max;
                          cbn [nonceCounter with_counter]; lia);
                    cbn [nonceCounter with_counter] in B;
                    set (n := counter_after c t) in *; clearbody n
                end;
         repeat split; lia ].
Qed.

Lemma reduce_iter (k : nat) (p : positive) :
  reduce (Nat.iter k xO p) k = (p, O).
Proof.
  induction k as [|k IH].
  - destruct p; reflexivity.
  - change (Nat.iter (S k) xO p) with (xO (Nat.iter k xO p)).
    cbn [reduce]. exact IH.
Qed.

Lemma pos_iter_xO (k : nat) (p : positive) :
  Z.pos (Nat.iter k xO p) = Z.pos p * 2 ^ Z.of_nat k.
Proof.
  induction k as [|k IH].
  - change (Nat.iter 0 xO p) with p. change (2 ^ Z.of_nat 0) with 1. lia.
  - change (Nat.iter (S k) xO p) with (xO (Nat.iter k xO p)).
    rewrite Nat2Z.inj_succ, Z.pow_succ_r by lia.
    rewrite Pos2Z.inj_xO, IH. lia.
Qed.

Lemma of_binary_scaled (negative : bool) (p : positive) (u : Z) :
  u <= 0 ->
  of_binary negative (Z.pos p * 2 ^ (- u)) u
  = Whole (if negative then - Z.pos p else Z.pos p).
Proof.
  intros H. rewrite <- (Z2Nat.id (- u)) at 1 by lia.
  rewrite <- pos_iter_xO. unfold of_binary.
  destruct (Z.leb_spec 0 u).
  - assert (u = 0) by lia. subst u. cbn [Z.opp Z.to_nat Nat.iter].
    change (2 ^ 0) with 1. now rewrite Z.mul_1_r.
  - rewrite reduce_iter. destruct (Z.to_nat (- u)); reflexivity.
Qed.

(** An integer up to [2^53] is a number of its own: rounding leaves it. *)
Lemma round_ratio_whole (n : Z) :
  Z.abs n <= 2 ^ 53 -> round_ratio n 1 = Whole n.
Proof.
  intros H. unfold round_ratio. cbn [Z.leb Z.compare].
  destruct (Z.eqb_spec n 0) as [->|N]; [reflexivity|].
  remember (Z.abs n) as a eqn:Ha. assert (A : 0 < a) by lia.
  assert (L : 0 <= Z.log2 a) by apply Z.log2_nonneg.
  assert (L2 : 2 ^ Z.log2 a <= a < 2 ^ Z.succ (Z.log2 a))
    by (apply Z.log2_spec; exact A).
  assert (E : binary_exponent a 1 = Z.log2 a).
  { unfold binary_exponent. change (Z.log2 1) with 0. rewrite Z.sub_0_r.
    rewrite (proj2 (Z.leb_le 0 (Z.log2 a)) L).
    rewrite Z.mul_1_l. now rewrite (proj2 (Z.leb_le _ _) (proj1 L2)). }
  rewrite E.
  assert (L3 : Z.log2 a <= 53).
  { apply Z.log2_le_mono in H.
    now rewrite Z.log2_pow2 in H by lia. }
  assert (S : (n <? 0) = true /\ n = - a \/ (n <? 0) = false /\ n = a).
  { destruct (Z.ltb_spec n 0); [left | right]; split; lia. }
  clear Ha N.
  destruct (Z.eq_dec (Z.log2 a) 53) as [L4|L4].
  - (* the power 2^53 itself *)
    assert (a = 2 ^ 53).
    { rewrite L4 in L2. lia. }
    subst a. destruct S as [[-> ->] | [-> ->]]; reflexivity.
  - rewrite Z.max_l by lia.
    set (u := Z.log2 a - 52). assert (U : u <= 0) by (unfold u; lia).
    destruct (Z.leb_spec 0 u) as [U0|U0].
    + assert (u = 0) by lia. rewrite H0. change (2 ^ 0) with 1.
      rewrite Z.mul_1_l, Z.div_1_r, Z.mod_1_r. cbn [Z.mul Z.ltb Z.compare].
      rewrite Z.mul_1_r.
      destruct (Z.leb_spec (2 ^ 1024) a);
        [exfalso;
         assert (2 ^ 53 < 2 ^ 1024) by (apply Z.pow_lt_mono_r; lia);
         change (2 ^ 53) with 9007199254740992 in *; lia|].
      unfold of_binary. destruct a as [|p|p] eqn:Ea; try lia.
      cbn [Z.leb Z.compare]. change (2 ^ 0) with 1. rewrite Z.mul_1_r.
      destruct S as [[-> ->] | [-> ->]]; reflexivity.
    + rewrite Z.div_1_r, Z.mod_1_r. cbn [Z.mul Z.ltb Z.compare].
      rewrite (Z.pow_neg_r 2 u) by lia. rewrite Z.mul_0_r.
      replace (2 ^ 1024 <=? 0) with false
        by (symmetry; apply Z.leb_gt; apply Z.pow_pos_nonneg; lia).
      destruct a as [|p|p] eqn:Ea; try lia.
      rewrite of_binary_scaled by lia.
      destruct S as [[-> ->] | [-> ->]]; reflexivity.
Qed.

(** A threshold of a whole number of dollars, up to the largest whose
    product with 10000 is exact, is that product in base units. *)
Lemma threshold_exact (config : AppConfig) (d : Z) :
  minimumWithdrawalUSD config = Whole d ->
  0 <= d <= 900719925474 ->
  threshold config = Return (d * 10000).
Proof.
  intros D H. unfold threshold. rewrite D.
  unfold number_mul. cbn [ratio]. change (1 * 1) with 1.
  rewrite round_ratio_whole; [reflexivity|].
  change (2 ^ 53) with 9007199254740992. lia.
Qed.

Lemma dollars_and_cents (w f : string) :
  all_digits w = true -> all_digits f = true ->
  exists cents,
    parseDecimalToBigInt (w ++ "." ++ f) 4 =
    Return (digits_value w * 10000 + cents) /\ 0 <= cents < 10000.
Proof.
  intros Hw Hf.
  destruct (BigintValues.parse_value w f 4 ltac:(lia) Hw Hf) as [E _].
  pose proof (BigintValues.digits_value_bounds f Hf) as B.
  assert (P : 0 < 10 ^ len f)
    by (apply Z.pow_pos_nonneg; [lia | apply JsFacts.len_nonneg]).
  exists (digits_value f * 10 ^ 4 / 10 ^ len f). split; [exact E|]. split.
  - apply Z.div_pos; lia.
  - apply Z.div_lt_upper_bound; [exact P|].
    change (10 ^ 4) with 10000. nia.
Qed.

(** The withdrawal [main] sends is for the fiat balance of the second
    balance query. *)
Lemma main_withdrawal_amount (config : AppConfig) (env : Env) (v : Z)
  (r : HttpRequest) :
  validateConfig config = Return tt ->
  asset_units "USDC" 8 (network env 0) = Return v ->
  In r (sent (snd (main config env initial))) ->
  goes_to (base_of config) "/0/private/Withdraw" r = true ->
  exists amount nonce,
    asset_balance "ZUSD" (network env (if 0 <? v then 2%nat else 1%nat))
    = Return amount /\
    body r = Some (stringify [("asset", VString "USD");
                              ("key", VString "Mercury");
                              ("amount", amount);
                              ("nonce", VNumber nonce)]).
Proof.
  intros V. unfold asset_units.
  remember (sent (snd (main config env initial))) as log eqn:E.
  revert E. run_main env config V; intros -> U Hin Hgo; cbn [In] in Hin;
    cbn [bind] in U.
  all: repeat match goal with
       | H : _ \/ _ |- _ => destruct H as [H|H]
       | H : False |- _ => destruct H
       end; subst r.
  all: rewrite goes_to_request in Hgo by reflexivity; try discriminate Hgo.
  all: injection U as <-.
  all: match goal with
       | H : 0 < ?x |- _ => rewrite (proj2 (Z.ltb_lt 0 x) H)
       | H : ?x <= 0 |- _ => rewrite (proj2 (Z.ltb_ge 0 x) H)
       end.
  all: do 2 eexists; split; [eassumption | reflexivity].
Qed.

(** X27.  The withdrawal decision in dollars.  With a valid configuration
    whose threshold is a whole number of dollars (up to the largest that
    times 10000 is still an exact number), an order, if one is placed,
    answered as the type [AddOrderResponse] says, and the fiat balance read
    as digits, a point and digits, [main] sends the withdrawal exactly when
    the digits before the point are worth at least the configured number of
    dollars: the digits behind the point never decide.  The withdrawal is
    for the balance as it was read, to the key "Mercury". *)
Theorem main_withdraws_whole_dollars (config : AppConfig) (env : Env)
  (d v : Z) (w f : string) :
  validateConfig config = Return tt ->
  minimumWithdrawalUSD config = Whole d ->
  d <= 900719925474 ->
  asset_units "USDC" 8 (network env 0) = Return v ->
  (0 < v -> exists orderResult,
              unwrap (network env 1) = Return orderResult /\
              AddOrderResponse orderResult = true) ->
  asset_balance "ZUSD" (network env (if 0 <? v then 2%nat else 1%nat))
  = Return (VString (w ++ "." ++ f)) ->
  all_digits w = true -> all_digits f = true ->
  let log := sent (snd (main config env initial)) in
  (existsb (goes_to (base_of config) "/0/private/Withdraw") log = true
   <-> d <= digits_value w) /\
  (forall r, In r log ->
     goes_to (base_of config) "/0/private/Withdraw" r = true ->
     exists nonce,
       body r = Some (stringify [("asset", VString "USD");
                                 ("key", VString "Mercury");
                                 ("amount", VString (w ++ "." ++ f));
                                 ("nonce", VNumber nonce)])).
Proof.
  intros V D Hmax U Hsale B Hw Hf. cbv zeta.
  assert (Hmin : 0 <= d).
  { revert V. unfold validateConfig. rewrite D.
    destruct (_ || _); [discriminate|]. cbn [less_than_zero is_negative].
    destruct (Z.ltb_spec d 0); [discriminate | lia]. }
  destruct (dollars_and_cents w f Hw Hf) as (cents & P & C).
  split.
  - destruct (main_decisions config env V) as (_ & _ & K).
    destruct (K v (digits_value w * 10000 + cents) U) as [T _].
    + intros Hv. destruct (Hsale Hv) as (orderResult & A1 & A2).
      exists orderResult. split; [exact A1 | now apply print_order_typed].
    + unfold asset_units. rewrite B. exact P.
    + rewrite (T _ (threshold_exact config d D ltac:(lia))). lia.
  - intros r Hin Hgo.
    destruct (main_withdrawal_amount config env v r V U Hin Hgo)
      as (amount & nonce & A & Bd).
    rewrite B in A. injection A as <-. now exists nonce.
Qed.

End WithLibrary.

Lemma main_refuses_configuration_witness :
  @main Scenario.plain (Scenario.config_with_key "")
    (Scenario.still (Scenario.success Scenario.balances)) initial
  = (Return (Exited 1), initial)
  /\
  @main_from_environment Examples.without_key Scenario.plain
    (Scenario.still (Scenario.success Scenario.balances)) initial
  = (Return (Exited 1), initial).
Proof.
  destruct (@main_refuses_configuration Scenario.plain
              (Scenario.still (Scenario.success Scenario.balances)) initial)
    as [A B].
  split.
  - apply A. right. right. right. reflexivity.
  - apply B. right. right. reflexivity.
Defined.

Lemma main_requests_witness :
  let run := @main Scenario.plain (Scenario.config_with_key "Mercury")
               Scenario.sale_and_withdrawal initial in
  fst run = Return Completed /\
  map url (sent (snd run)) =
  ["https://api.kraken.com/0/private/Balance";
   "https://api.kraken.com/0/private/AddOrder";
   "https://api.kraken.com/0/private/Balance";
   "https://api.kraken.com/0/private/Withdraw"] /\
  forall r, In r (sent (snd run)) -> method r = POST.
Proof.
  split; [reflexivity|]. split; [reflexivity|].
  intros r Hin.
  apply (proj2 (@main_requests Scenario.plain (Scenario.config_with_key "Mercury")
                  Scenario.sale_and_withdrawal eq_refl) r Hin).
Defined.

Lemma main_sells_whole_balance_witness :
  exists r amount units nonce,
    nth_error (sent (snd (@main Scenario.plain (Scenario.config_with_key "Mercury")
                            Scenario.sale_and_withdrawal initial))) 1 = Some r /\
    amount = VString "100.00000000" /\ units = 10000000000 /\
    body r = Some (@stringify Scenario.plain
                     [("type", VString "sell"); ("ordertype", VString "market");
                      ("pair", VString "USDCUSD"); ("volume", amount);
                      ("nonce", VNumber nonce)]).
Proof.
  eexists. 
  destruct (@main_sells_whole_balance Scenario.plain
              (Scenario.config_with_key "Mercury") Scenario.sale_and_withdrawal
              _ eq_refl (or_intror (or_introl eq_refl)) eq_refl)
    as (amount & units & nonce & A & P & _ & B).
  exists amount, units, nonce. split; [reflexivity|].
  injection A as <-. injection P as <-.
  split; [reflexivity|]. split; [reflexivity | exact B].
Defined.

Lemma main_sells_positive_balance_witness :
  let log := sent (snd (@main Scenario.plain (Scenario.config_with_key "Mercury")
                          Scenario.sale_and_withdrawal initial)) in
  existsb (goes_to "https://api.kraken.com" "/0/private/AddOrder") log = true /\
  exists first second rest,
    log = first :: second :: rest /\
    goes_to "https://api.kraken.com" "/0/private/AddOrder" second = true.
Proof.
  cbv zeta.
  destruct (@main_sells_positive_balance Scenario.plain
              (Scenario.config_with_key "Mercury") Scenario.sale_and_withdrawal
              eq_refl) as (A & B & _).
  split.
  - apply A. exists 10000000000. split; [reflexivity | lia].
  - apply (B 10000000000 eq_refl). lia.
Defined.

Lemma main_stops_at_failed_sale_witness :
  let run := @main Scenario.plain (Scenario.config_with_key "Mercury")
               Examples.failed_sale initial in
  fst run = Return (Exited 1) /\
  map url (sent (snd run)) = ["https://api.kraken.com/0/private/Balance";
                              "https://api.kraken.com/0/private/AddOrder"].
Proof.
  cbv zeta.
  apply (proj2 (@main_stops_at_failed_sale Scenario.plain
                  (Scenario.config_with_key "Mercury") Examples.failed_sale
                  eq_refl)
           10000000000 eq_refl ltac:(lia)).
  left. eexists. reflexivity.
Defined.

Lemma main_nonces_increase_witness :
  exists self issued,
    Forall2 (fun r nonce =>
               exists endpoint options,
                 r = @request_of Scenario.plain self endpoint options nonce /\
                 get (payload_of options nonce) "nonce" = VNumber nonce)
            (sent (snd (@main Scenario.plain (Scenario.config_with_key "Mercury")
                          Scenario.sale_and_withdrawal initial))) issued /\
    increasing (1762000000000 :: issued).
Proof.
  apply (@main_nonces_increase Scenario.plain (Scenario.config_with_key "Mercury")
           Scenario.sale_and_withdrawal eq_refl).
  intros i _. cbn. lia.
Defined.

Lemma main_withdraws_whole_dollars_witness :
  let log := sent (snd (@main Scenario.plain (Scenario.config_with_key "Mercury")
                          Scenario.sale_and_withdrawal initial)) in
  (existsb (goes_to "https://api.kraken.com" "/0/private/Withdraw") log = true
   <-> 10 <= 50) /\
  (forall r, In r log ->
     goes_to "https://api.kraken.com" "/0/private/Withdraw" r = true ->
     exists nonce,
       body r = Some (@stringify Scenario.plain
                        [("asset", VString "USD"); ("key", VString "Mercury");
                         ("amount", VString "50.0000");
                         ("nonce", VNumber nonce)])).
Proof.
  cbv zeta.
  destruct (@main_withdraws_whole_dollars Scenario.plain
              (Scenario.config_with_key "Mercury") Scenario.sale_and_withdrawal
              10 10000000000 "50" "0000" eq_refl eq_refl ltac:(lia) eq_refl)
    as [A B]; try reflexivity.
  - intros _. eexists. split; reflexivity.
  - split; [exact A | exact B].
Defined.

End MainFacts.
